(** * instagrapi: the unauthenticated request layer ([client/public.py])

    A shallow embedding of [PublicRequest] (retrying dispatcher, single
    attempt send, endpoint adapters) and of [HashtagPublic.hashtag_feed],
    with the properties of the specification stated against it.

    Python objects are embedded as follows.
    - [int] is [Z]; [str] is [string]; [None], [bool], [int], [str], [list]
      and [dict] values (decoded JSON, parameters) are the type [value].
    - The client instance is the record [Client]; methods are state
      passing functions in the monad [M], whose results are either a value
      or a raised exception.
    - [time.sleep], the calls on the [requests] session, [response.json()]
      and the logger are recorded in the [trace] of the client, in program
      order; the network is a function [net] from the trace so far and the
      request to what the session call does. *)

From stdpp Require Import base strings gmap list pretty.
From Stdlib Require Import Ascii ZArith Lia.

Local Open Scope Z_scope.

(** ** Python values *)

#[warnings="-register-all"]
Inductive value : Type :=
| VNone
| VBool (b : bool)
| VInt (z : Z)
| VStr (s : string)
| VList (l : list value)
| VDict (d : list (string * value)).

(** [bool(v)]: the truth value Python gives to [v] in [if v:]. *)
Definition truthy (v : value) : bool :=
  match v with
  | VNone => false
  | VBool b => b
  | VInt z => negb (z =? 0)
  | VStr s => negb (String.eqb s "")
  | VList l => match l with [] => false | _ => true end
  | VDict d => match d with [] => false | _ => true end
  end.

(** A dict is a list of items in insertion order, keys unique. *)
Definition dict := list (string * value).

Fixpoint dict_get (k : string) (d : dict) : option value :=
  match d with
  | [] => None
  | (k', v) :: d' => if String.eqb k k' then Some v else dict_get k d'
  end.

(** [d[k] = v]: an existing key keeps its place, a new key goes last. *)
Fixpoint dict_set (k : string) (v : value) (d : dict) : dict :=
  match d with
  | [] => [(k, v)]
  | (k', v') :: d' =>
      if String.eqb k k' then (k, v) :: d' else (k', v') :: dict_set k v d'
  end.

(** [d.update(other)]. *)
Definition dict_update (d other : dict) : dict :=
  foldl (fun acc kv => dict_set kv.1 kv.2 acc) d other.

(** ** Strings *)

(** [needle in hay] on [str]. *)
Fixpoint contains (needle hay : string) : bool :=
  String.prefix needle hay
  || match hay with
     | EmptyString => false
     | String _ rest => contains needle rest
     end.

(** [s.lstrip("/")]. *)
Fixpoint lstrip_slash (s : string) : string :=
  match s with
  | String c rest => if Ascii.eqb c "/"%char then lstrip_slash rest else s
  | EmptyString => s
  end.

Definition lower_ascii (c : ascii) : ascii :=
  let n := Ascii.nat_of_ascii c in
  if ((65 <=? n) && (n <=? 90))%nat then Ascii.ascii_of_nat (n + 32) else c.

Fixpoint lower (s : string) : string :=
  match s with
  | EmptyString => EmptyString
  | String c rest => String (lower_ascii c) (lower rest)
  end.

(** ** Responses of the HTTP session *)

(** What [int(response.headers.get("Content-Length"))] has to work on:
    the header may be absent ([get] gives [None]), hold text [int] does
    not accept, or hold an integer. *)
Inductive content_length_header : Type :=
| CL_missing
| CL_invalid (s : string)
| CL_int (n : Z).

Record Response : Type := mkResponse {
  status_code : Z;
  reason : string;
  resp_url : string;                       (* response.url *)
  content_length : content_length_header;  (* response.headers *)
  raw_tell : Z;                            (* response.raw.tell() *)
  text : string;                           (* response.text *)
  json_body : string + value               (* response.json(): the decode
                                              error's text, or the value *)
}.

(** ** Exceptions *)

Inductive exn_class : Type :=
(* .exceptions *)
| ClientError
| ClientHTTPError
| ClientConnectionError
| ClientNotFoundError
| ClientJSONDecodeError
| ClientForbiddenError
| ClientBadRequestError
| ClientGraphqlError
| ClientThrottledError
| ClientIncompleteReadError
| ClientLoginRequired
| GenericRequestError
(* json.decoder, requests *)
| JSONDecodeError
| HTTPError
| ConnectionError
| ConnectionErrorSubclass (name : string)  (* ProxyError, SSLError, ... *)
(* builtins *)
| AssertionError
| TypeError
| ValueError
| KeyError
| AttributeError
| UnboundLocalError
(* any class unrelated to the ones above, e.g. requests' ReadTimeout *)
| OtherException (name : string).

Global Instance exn_class_eq_dec : EqDecision exn_class.
Proof. solve_decision. Defined.

(** Modelled from the spec: the module [.exceptions] is not part of the
    sources at hand.  Section 4.2: every typed kind derives from
    [ClientError]; the four HTTP status kinds specialise [ClientHTTPError].
    The other lines are the bases of the library classes the handlers name. *)
Definition bases (c : exn_class) : list exn_class :=
  match c with
  | ClientHTTPError | ClientConnectionError | ClientJSONDecodeError
  | ClientGraphqlError | ClientIncompleteReadError | ClientLoginRequired
  | GenericRequestError => [ClientError]
  | ClientNotFoundError | ClientForbiddenError | ClientBadRequestError
  | ClientThrottledError => [ClientHTTPError]
  | JSONDecodeError => [ValueError]
  | ConnectionErrorSubclass _ => [ConnectionError]
  | UnboundLocalError => []
  | _ => []
  end.

Fixpoint issubclass_upto (depth : nat) (c d : exn_class) : bool :=
  bool_decide (c = d)
  || match depth with
     | O => false
     | S n => existsb (fun b => issubclass_upto n b d) (bases c)
     end.

(** The hierarchy above is three levels deep. *)
Definition issubclass (c d : exn_class) : bool := issubclass_upto 3 c d.

(** [e.__class__.__name__]. *)
Definition class_name (c : exn_class) : string :=
  match c with
  | ClientError => "ClientError"
  | ClientHTTPError => "ClientHTTPError"
  | ClientConnectionError => "ClientConnectionError"
  | ClientNotFoundError => "ClientNotFoundError"
  | ClientJSONDecodeError => "ClientJSONDecodeError"
  | ClientForbiddenError => "ClientForbiddenError"
  | ClientBadRequestError => "ClientBadRequestError"
  | ClientGraphqlError => "ClientGraphqlError"
  | ClientThrottledError => "ClientThrottledError"
  | ClientIncompleteReadError => "ClientIncompleteReadError"
  | ClientLoginRequired => "ClientLoginRequired"
  | GenericRequestError => "GenericRequestError"
  | JSONDecodeError => "JSONDecodeError"
  | HTTPError => "HTTPError"
  | ConnectionError => "ConnectionError"
  | ConnectionErrorSubclass name => name
  | AssertionError => "AssertionError"
  | TypeError => "TypeError"
  | ValueError => "ValueError"
  | KeyError => "KeyError"
  | AttributeError => "AttributeError"
  | UnboundLocalError => "UnboundLocalError"
  | OtherException name => name
  end.

(** What an error instance carries besides its text: [response=...] is an
    HTTP response in [_send_public_request] and the decoded body in
    [public_graphql_request]; [GenericRequestError] takes the fields of the
    body as keyword arguments. *)
Inductive attachment : Type :=
| NoResponse
| HttpResponse (r : Response)
| Body (v : value)
| Fields (kw : dict).

Record exn : Type := mkExn {
  cls : exn_class;
  message : string;        (* str(e) *)
  response : attachment    (* e.response *)
}.

Definition isinstance (e : exn) (c : exn_class) : bool := issubclass (cls e) c.

(** Modelled from the spec: the constructor of [ClientError], which is in
    the absent module [.exceptions].  Section 3: an error instance carries a
    human-readable message and, where available, the original response. *)
Definition client_error (c : exn_class) (msg : string) (r : attachment) : exn :=
  mkExn c msg r.

(** ** The client, its effects, the monad *)

Inductive sleep_site : Type :=
| throttle     (* time.sleep(self.request_timeout), _send_public_request *)
| retry        (* time.sleep(retries_timeout), public_request *)
| pagination.  (* time.sleep(sleep), hashtag_feed *)

Global Instance sleep_site_eq_dec : EqDecision sleep_site.
Proof. solve_decision. Defined.

(** The attribute of the session that is called. *)
Inductive session_method : Type := session_get | session_data.

Inductive log_level : Type := log_debug | log_info | log_error.

Record Request : Type := mkRequest {
  req_method : session_method;
  req_url : string;
  req_data : option value;
  req_params : option dict;
  req_headers : gmap string string   (* the session's headers at the call *)
}.

Inductive event : Type :=
| Ev_sleep (site : sleep_site) (t : Z)
| Ev_request (rq : Request)
| Ev_json (r : Response)
| Ev_log (lvl : log_level) (r : Response).

Record Client : Type := mkClient {
  requests_count : Z;
  public_headers : gmap string string;  (* self.public.headers, a
                                           case-insensitive dict: keys are
                                           kept in lower case *)
  request_timeout : Z;
  trace : list event
}.

Inductive result (A : Type) : Type :=
| Ok (a : A)
| Raise (e : exn).
Arguments Ok {A} a.
Arguments Raise {A} e.

Definition M (A : Type) : Type := Client -> result A * Client.

Definition ret {A} (a : A) : M A := fun c => (Ok a, c).
Definition raise {A} (e : exn) : M A := fun c => (Raise e, c).
Definition bind {A B} (m : M A) (k : A -> M B) : M B :=
  fun c => match m c with
           | (Ok a, c') => k a c'
           | (Raise e, c') => (Raise e, c')
           end.

Notation "'let*' x ':=' m 'in' k" := (bind m (fun x => k))
  (at level 10, x name, m at level 100, k at level 200).
Notation "m '>>' k" := (bind m (fun _ => k))
  (at level 100, k at level 200, right associativity).

(** Reading an attribute of [self]. *)
Definition get {A} (attr : Client -> A) : M A := fun c => (Ok (attr c), c).

(** Running [m] and handing its outcome, value or exception, to the code
    that follows: the entry into a [try] statement. *)
Definition reify {A} (m : M A) : M (result A) :=
  fun c => let (r, c') := m c in (Ok r, c').

(** [try: body  except ... as e: handler e]; a handler that does not
    match [e] raises it again. *)
Definition try_except {A} (body : M A) (handler : exn -> M A) : M A :=
  let* r := reify body in
  match r with
  | Ok a => ret a
  | Raise e => handler e
  end.

Definition emit (ev : event) : M unit :=
  fun c => (Ok tt, mkClient (requests_count c) (public_headers c)
                            (request_timeout c) (trace c ++ [ev])).

(** [time.sleep(t)]; a negative length is a [ValueError]. *)
Definition sleep (site : sleep_site) (t : Z) : M unit :=
  if t <? 0
  then raise (mkExn ValueError "sleep length must be non-negative" NoResponse)
  else emit (Ev_sleep site t).

Definition set_requests_count (n : Z) : M unit :=
  fun c => (Ok tt, mkClient n (public_headers c) (request_timeout c) (trace c)).

Definition set_public_headers (h : gmap string string) : M unit :=
  fun c => (Ok tt, mkClient (requests_count c) h (request_timeout c) (trace c)).

(** [self.public.headers.update(new)] on the session's case-insensitive
    dict. *)
Definition headers_update (h : gmap string string) (new : list (string * string))
  : gmap string string :=
  foldl (fun acc kv => <[lower kv.1 := kv.2]> acc) h new.

(** ** The network *)

Inductive transport_result : Type :=
| T_response (r : Response)
| T_raise (e : exn).

Module PublicRequest.
Section WithNetwork.

(** What [self.public.get] or [self.public.data] does for a request, given
    everything that happened before. *)
Variable net : list event -> Request -> transport_result.

(** [json.dumps(v, separators=(",", ":"))] and [repr] on lists and dicts,
    of the Python library. *)
Variable json_dumps : value -> string.
Variable repr_container : value -> string.

(** [str(v)], as [format] applies it to a ["{}"] field. *)
Definition py_str (v : value) : string :=
  match v with
  | VNone => "None"
  | VBool true => "True"
  | VBool false => "False"
  | VInt z => pretty z
  | VStr s => s
  | VList _ | VDict _ => repr_container v
  end.

(** [v == s] for a [str] [s]. *)
Definition eq_str (v : value) (s : string) : bool :=
  match v with VStr s' => String.eqb s' s | _ => false end.

(** [v[k]] for a [str] [k]. *)
Definition getitem (v : value) (k : string) : M value :=
  match v with
  | VDict d =>
      match dict_get k d with
      | Some x => ret x
      | None => raise (mkExn KeyError ("'" +:+ k +:+ "'") NoResponse)
      end
  | VList _ =>
      raise (mkExn TypeError "list indices must be integers or slices, not str"
                   NoResponse)
  | VStr _ =>
      raise (mkExn TypeError "string indices must be integers, not 'str'"
                   NoResponse)
  | _ => raise (mkExn TypeError "object is not subscriptable" NoResponse)
  end.

(** [v.get(k, None)]; only a dict has the method. *)
Definition value_get (v : value) (k : string) : M value :=
  match v with
  | VDict d => ret (default VNone (dict_get k d))
  | _ => raise (mkExn AttributeError "object has no attribute 'get'" NoResponse)
  end.

Definition PUBLIC_API_URL : string := "https://www.instagram.com/".
Definition GRAPHQL_PUBLIC_API_URL : string :=
  "https://www.instagram.com/graphql/query/".

(** The headers [__init__] puts on the session. *)
Definition default_headers : list (string * string) :=
  [ ("Connection", "Keep-Alive");
    ("Accept", "*/*");
    ("Accept-Encoding", "gzip,deflate");
    ("Accept-Language", "en-US");
    ("User-Agent",
     "Mozilla/5.0 (Macintosh; Intel Mac OS X 10_13_6) AppleWebKit/605.1.15 (KHTML, like Gecko) Version/11.1.2 Safari/605.1.15") ].

(** [__init__]: [session_headers] are the headers [requests.Session()]
    comes with; [request_timeout] is the keyword argument, 1 when not
    given; the class attribute [requests_count] is 0. *)
Definition init (session_headers : gmap string string)
    (request_timeout : option Z) : Client :=
  mkClient 0 (headers_update session_headers default_headers)
           (default 1 request_timeout) [].

Definition session_call (m : session_method) (url : string)
    (data : option value) (params : option dict) : M Response :=
  fun c =>
    let rq := mkRequest m url data params (public_headers c) in
    let c' := mkClient (requests_count c) (public_headers c)
                       (request_timeout c) (trace c ++ [Ev_request rq]) in
    match net (trace c) rq with
    | T_response r => (Ok r, c')
    | T_raise e => (Raise e, c')
    end.

(** [response.raise_for_status()] of [requests]. *)
Definition raise_for_status (r : Response) : M unit :=
  let msg kind := pretty (status_code r) +:+ " " +:+ kind +:+ " Error: "
                  +:+ reason r +:+ " for url: " +:+ resp_url r in
  if (400 <=? status_code r) && (status_code r <? 500)
  then raise (mkExn HTTPError (msg "Client") (HttpResponse r))
  else if (500 <=? status_code r) && (status_code r <? 600)
  then raise (mkExn HTTPError (msg "Server") (HttpResponse r))
  else ret tt.

(** [response.json()]. *)
Definition response_json (r : Response) : M value :=
  emit (Ev_json r) >>
  match json_body r with
  | inl msg => raise (mkExn JSONDecodeError msg NoResponse)
  | inr v => ret v
  end.

(** [int(response.headers.get("Content-Length"))]. *)
Definition int_content_length (r : Response) : M Z :=
  match content_length r with
  | CL_missing =>
      raise (mkExn TypeError
        "int() argument must be a string, a bytes-like object or a real number, not 'NoneType'"
        NoResponse)
  | CL_invalid s =>
      raise (mkExn ValueError
        ("invalid literal for int() with base 10: '" +:+ s +:+ "'") NoResponse)
  | CL_int n => ret n
  end.

(** Lines 98-121: the [try] block once [response] is bound. *)
Definition check_and_decode (r : Response) (return_json : bool) : M value :=
  let* expected_length := int_content_length r in
  let actual_length := raw_tell r in
  if actual_length <? expected_length
  then raise (client_error ClientIncompleteReadError
                ("Incomplete read (" +:+ pretty actual_length
                 +:+ " bytes read, " +:+ pretty expected_length
                 +:+ " more expected)")
                (HttpResponse r))
  else
    emit (Ev_log log_debug r) >>
    emit (Ev_log log_info r) >>
    raise_for_status r >>
    if return_json then response_json r else ret (VStr (text r)).

(** Lines 123-153: the [except] clauses, tried in order.  [bound] is the
    local [response], unbound when the session call itself raised. *)
Definition handlers (url : string) (bound : option Response) (e : exn)
  : M value :=
  if isinstance e JSONDecodeError then
    match bound with
    | None =>
        raise (mkExn UnboundLocalError
          "cannot access local variable 'response' where it is not associated with a value"
          NoResponse)
    | Some r =>
        if contains "/login/" (resp_url r)
        then raise (client_error ClientLoginRequired (message e) (HttpResponse r))
        else
          emit (Ev_log log_error r) >>
          raise (client_error ClientJSONDecodeError
                   ("JSONDecodeError " +:+ message e +:+ " while opening " +:+ url)
                   (HttpResponse r))
    end
  else if isinstance e HTTPError then
    match response e with
    | HttpResponse r =>
        if status_code r =? 403
        then raise (client_error ClientForbiddenError (message e) (HttpResponse r))
        else if status_code r =? 400
        then raise (client_error ClientBadRequestError (message e) (HttpResponse r))
        else if status_code r =? 429
        then raise (client_error ClientThrottledError (message e) (HttpResponse r))
        else if status_code r =? 404
        then raise (client_error ClientNotFoundError (message e) (HttpResponse r))
        else raise (client_error ClientError (message e) (HttpResponse r))
    | _ =>
        raise (mkExn AttributeError
          "'NoneType' object has no attribute 'status_code'" NoResponse)
    end
  else if isinstance e ConnectionError then
    raise (client_error ClientConnectionError
             (class_name (cls e) +:+ " " +:+ message e) NoResponse)
  else raise e.

(** Lines 92-153. *)
Definition try_send (url : string) (data : option value)
    (params : option dict) (return_json : bool) : M value :=
  let* called := reify (session_call (match data with
                                      | Some _ => session_data   (* POST *)
                                      | None => session_get      (* GET *)
                                      end) url data params) in
  match called with
  | Raise e => handlers url None e
  | Ok r => try_except (check_and_decode r return_json) (handlers url (Some r))
  end.

Definition _send_public_request (url : string) (data : option value)
    (params : option dict) (headers : option (list (string * string)))
    (return_json : bool) : M value :=
  (let* n := get requests_count in set_requests_count (n + 1)) >>
  match headers with
  | Some (kv :: more) =>
      let* h := get public_headers in
      set_public_headers (headers_update h (kv :: more))
  | _ => ret tt
  end >>
  (let* timeout := get request_timeout in
   if negb (timeout =? 0) then sleep throttle timeout else ret tt) >>
  try_send url data params return_json.

(** [range(n)]. *)
Definition range (n : Z) : list Z := Z.of_nat <$> seq 0 (Z.to_nat n).

(** The test of lines 71-76 on a caught [ClientError]. *)
Definition socks_proxy_failure (e : exn) : bool :=
  let msg := message e in
  isinstance e ClientConnectionError
  && contains "SOCKSHTTPSConnectionPool" msg
  && contains "Max retries exceeded with url" msg
  && contains "Failed to establish a new connection" msg.

(** The first [except] clause of [public_request], lines 62-68. *)
Definition stops_retries (e : exn) : bool :=
  isinstance e ClientLoginRequired
  || isinstance e ClientNotFoundError
  || isinstance e ClientBadRequestError.

(** Lines 59-82: the [for] loop over the iterations still to run. *)
Fixpoint retry_loop (url : string) (data : option value)
    (params : option dict) (headers : option (list (string * string)))
    (return_json : bool) (retries_count retries_timeout : Z)
    (iterations : list Z) : M value :=
  match iterations with
  | [] => ret VNone
  | iteration :: rest =>
      try_except (_send_public_request url data params headers return_json)
        (fun e =>
           if stops_retries e then raise e      (* Stop retries *)
           else if isinstance e ClientError then
             if socks_proxy_failure e then raise e
             else if retries_count >? iteration + 1
             then sleep retry retries_timeout >>
                  retry_loop url data params headers return_json
                             retries_count retries_timeout rest
             else raise e
           else raise e)
  end.

Definition public_request (url : string) (data : option value)
    (params : option dict) (headers : option (list (string * string)))
    (return_json : bool) (retries_count retries_timeout : Z) : M value :=
  if negb (retries_count <=? 10)
  then raise (mkExn AssertionError "Retries count is too high" NoResponse)
  else if negb (retries_timeout <=? 600)
  then raise (mkExn AssertionError "Retries timeout is too high" NoResponse)
  else retry_loop url data params headers return_json
                  retries_count retries_timeout (range retries_count).

(** Modelled from the spec: [json_value] of the absent module [.utils], at
    its one use [json_value(response, "errors", "error", 0, default=...)].
    Section 4.2: the first element of the response's [errors.error] array,
    or the fallback when that path is absent. *)
Definition json_value_errors_error_0 (response : dict) (fallback : value)
  : value :=
  match dict_get "errors" response with
  | Some (VDict errors) =>
      match dict_get "error" errors with
      | Some (VList (first :: _)) => first
      | _ => fallback
      end
  | _ => fallback
  end.

(** [params.update(extra)] when [params] is a non-empty dict, else [extra]. *)
Definition merge_params (params : option dict) (extra : dict) : dict :=
  match params with
  | Some (kv :: more) => dict_update (kv :: more) extra
  | _ => extra
  end.

Definition public_a1_request (endpoint : string) (data : option value)
    (params : option dict) (headers : option (list (string * string)))
  : M value :=
  let url := PUBLIC_API_URL +:+ lstrip_slash endpoint in
  let params := merge_params params [("__a", VInt 1)] in
  let* response := public_request url data (Some params) headers true 10 10 in
  try_except (getitem response "graphql")
    (fun e =>
       if isinstance e KeyError then
         match response with
         | VDict fields =>
             let error_type := default VNone (dict_get "error_type" fields) in
             if eq_str error_type "generic_request_error"
             then raise (client_error GenericRequestError
                           (py_str (json_value_errors_error_0 fields error_type))
                           (Fields fields))
             else raise e
         | _ => raise e
         end
       else raise e).

(** Lines 217-227: the handler of [ClientBadRequestError]. *)
Definition bad_request_handler (e : exn) : M value :=
  let* body_message :=
    match response e with
    | HttpResponse r =>
        try_except (let* body_json := response_json r in
                    value_get body_json "message")
          (fun e' => if isinstance e' JSONDecodeError then ret VNone   (* pass *)
                     else raise e')
    | _ => raise (mkExn AttributeError "object has no attribute 'json'" NoResponse)
    end in
  raise (client_error ClientGraphqlError
           ("Error: '" +:+ message e +:+ "'. Message: '" +:+ py_str body_message +:+ "'")
           (response e)).

Definition public_graphql_request (variables : value)
    (query_hash query_id : value) (data : option value)
    (params : option dict) (headers : option (list (string * string)))
  : M value :=
  if negb (truthy query_id || truthy query_hash)
  then raise (mkExn AssertionError
                "Must provide valid one of: query_id, query_hash" NoResponse)
  else
    let default_params := [("variables", VStr (json_dumps variables))] in
    let default_params :=
      if truthy query_id then dict_set "query_id" query_id default_params
      else default_params in
    let default_params :=
      if truthy query_hash then dict_set "query_hash" query_hash default_params
      else default_params in
    let params := merge_params params default_params in
    try_except
      (let* body_json := public_request GRAPHQL_PUBLIC_API_URL data
                           (Some params) headers true 10 10 in
       let* status := value_get body_json "status" in
       if negb (eq_str status "ok")
       then
         let* msg := value_get body_json "message" in
         raise (client_error ClientGraphqlError
                  ("Unexpected status '" +:+ py_str status
                   +:+ "' in response. Message: '" +:+ py_str msg +:+ "'")
                  (Body body_json))
       else getitem body_json "data")
      (fun e => if isinstance e ClientBadRequestError
                then bad_request_handler e
                else raise e).

End WithNetwork.
End PublicRequest.

Module HashtagPublic.
Import PublicRequest.
Section WithNetwork.

Variable net : list event -> Request -> transport_result.
Variable repr_container : value -> string.

Definition hashtag_info (hashtag : string) (max_id : value) : M value :=
  let params := if truthy max_id then Some [("max_id", max_id)] else None in
  let* data := public_a1_request net repr_container
                 ("/explore/tags/" +:+ hashtag +:+ "/") None params None in
  getitem data "hashtag".

(** What [medias.extend(edges)] appends: the items [edges] iterates over. *)
Definition iterate (v : value) : M (list value) :=
  match v with
  | VList l => ret l
  | VDict d => ret ((fun kv => VStr kv.1) <$> d)
  | VStr s => ret ((fun ch => VStr (String ch EmptyString)) <$> String.list_ascii_of_string s)
  | _ => raise (mkExn TypeError "object is not iterable" NoResponse)
  end.

(** [l[:count]]. *)
Definition slice_to (l : list value) (count : Z) : list value :=
  if 0 <=? count then take (Z.to_nat count) l
  else take (Z.to_nat (Z.of_nat (length l) + count)) l.

(** Lines 285-293: one pass of the loop body up to the test; gives the
    new [medias], the new [end_cursor] and whether the loop breaks. *)
Definition fetch_page (hashtag : string) (count : Z) (medias : list value)
    (end_cursor : value) : M (list value * value * bool) :=
  let* data := hashtag_info hashtag end_cursor in
  let* media := getitem data "edge_hashtag_to_media" in
  let* page_info := getitem media "page_info" in
  let* end_cursor' := getitem page_info "end_cursor" in
  let* media := getitem data "edge_hashtag_to_media" in
  let* edges := getitem media "edges" in
  let* items := iterate edges in
  let medias' := medias ++ items in
  let* media := getitem data "edge_hashtag_to_media" in
  let* page_info := getitem media "page_info" in
  let* has_next_page := getitem page_info "has_next_page" in
  ret (medias', end_cursor',
       negb (truthy has_next_page) || (Z.of_nat (length medias') >=? count)).

(** Lines 284-298: the [while True] loop and the final slice, from the
    values of [medias] and [end_cursor] at the head of an iteration.  The
    loop has no bound of its own; [None] when [fuel] iterations do not reach
    the [break]. *)
Fixpoint hashtag_feed_loop (fuel : nat) (hashtag : string) (count sleep_time : Z)
    (medias : list value) (end_cursor : value) (c : Client)
  : option (result (list value) * Client) :=
  match fuel with
  | O => None
  | S fuel' =>
      match fetch_page hashtag count medias end_cursor c with
      | (Raise e, c1) => Some (Raise e, c1)
      | (Ok (medias', end_cursor', true), c1) =>      (* break *)
          Some (Ok (slice_to medias' count), c1)
      | (Ok (medias', end_cursor', false), c1) =>
          match sleep pagination sleep_time c1 with
          | (Raise e, c2) => Some (Raise e, c2)
          | (Ok _, c2) =>
              hashtag_feed_loop fuel' hashtag count sleep_time medias' end_cursor' c2
          end
      end
  end.

Definition hashtag_feed (fuel : nat) (hashtag : string) (count sleep_time : Z)
    (c : Client) : option (result (list value) * Client) :=
  hashtag_feed_loop fuel hashtag count sleep_time [] VNone c.

Variable json_dumps : value -> string.

(** Lines 255-267.  [count] is an [int], so [int(count)] is [count]. *)
Definition hashtag_info_gql (hashtag : string) (count : Z) (end_cursor : value)
  : M value :=
  let variables := [("tag_name", VStr hashtag);
                    ("show_ranked", VBool false);
                    ("first", VInt count)] in
  let variables :=
    if truthy end_cursor then dict_set "after" end_cursor variables
    else variables in
  let* data := public_graphql_request net json_dumps repr_container
                 (VDict variables) (VStr "f92f56d47dc7a55b606908374b43a314")
                 VNone None None None in
  getitem data "hashtag".

Definition hashtag_top_feed (hashtag : string) : M value :=
  let* data := hashtag_info hashtag VNone in
  let* posts := getitem data "edge_hashtag_to_top_posts" in
  getitem posts "edges".

(** The comprehension [[item["node"]["name"] for item in items]]. *)
Fixpoint node_names (items : list value) : M (list value) :=
  match items with
  | [] => ret []
  | item :: rest =>
      let* node := getitem item "node" in
      let* name := getitem node "name" in
      let* names := node_names rest in
      ret (name :: names)
  end.

Definition hashtag_related_hashtags (hashtag : string) : M (list value) :=
  let* data := hashtag_info hashtag VNone in
  let* tags := getitem data "edge_hashtag_to_related_tags" in
  let* edges := getitem tags "edges" in
  let* items := iterate edges in
  node_names items.

End WithNetwork.
End HashtagPublic.

Module ProfilePublic.
Import PublicRequest.
Section WithNetwork.

Variable net : list event -> Request -> transport_result.
Variable json_dumps : value -> string.
Variable repr_container : value -> string.

(** Lines 302-316.  [count] is an [int], so [int(count)] is [count]. *)
Definition location_feed (location_id : value) (count : Z) (end_cursor : value)
  : M value :=
  if count >? 50
  then raise (mkExn ValueError "Count cannot be greater than 50" NoResponse)
  else
    let variables := [("id", location_id); ("first", VInt count)] in
    let variables :=
      if truthy end_cursor then dict_set "after" end_cursor variables
      else variables in
    let* data := public_graphql_request net json_dumps repr_container
                   (VDict variables) (VStr "1b84447a4d8b6d6d0426fefb34514485")
                   VNone None None None in
    getitem data "location".

Definition profile_related_info (profile_id : value) : M value :=
  let variables := [("user_id", profile_id);
                    ("include_chaining", VBool true);
                    ("include_reel", VBool true);
                    ("include_suggested_users", VBool true);
                    ("include_logged_out_extras", VBool true);
                    ("include_highlight_reels", VBool true);
                    ("include_related_profiles", VBool true)] in
  let* data := public_graphql_request net json_dumps repr_container
                 (VDict variables) (VStr "e74d51c10ecc0fe6250a295b9bb9db74")
                 VNone None None None in
  getitem data "user".

End WithNetwork.
End ProfilePublic.

(** ** Observations on a trace *)

(** The lengths of the sleeps made at [site], in order. *)
Definition sleeps_at (site : sleep_site) (tr : list event) : list Z :=
  omap (fun ev => match ev with
                  | Ev_sleep s t => if decide (s = site) then Some t else None
                  | _ => None
                  end) tr.

(** The requests handed to the session, in order. *)
Definition requests_of (tr : list event) : list Request :=
  omap (fun ev => match ev with Ev_request rq => Some rq | _ => None end) tr.

(** The responses whose [json()] was called, in order. *)
Definition decodes_of (tr : list event) : list Response :=
  omap (fun ev => match ev with Ev_json r => Some r | _ => None end) tr.

Definition is_sleep_at (site : sleep_site) (ev : event) : Prop :=
  match ev with Ev_sleep s _ => s = site | _ => False end.

Definition is_request (ev : event) : Prop :=
  match ev with Ev_request _ => True | _ => False end.

(** Only the trace changes, by events that satisfy [P]. *)
Definition quiet (P : event -> Prop) (c c' : Client) : Prop :=
  requests_count c' = requests_count c
  /\ public_headers c' = public_headers c
  /\ request_timeout c' = request_timeout c
  /\ exists evs, trace c' = trace c ++ evs /\ Forall P evs.

(** The trace grows by events that satisfy [P], the counter does not
    decrease and the configured delay stays; the session headers may
    change. *)
Definition grows (P : event -> Prop) (c c' : Client) : Prop :=
  requests_count c <= requests_count c'
  /\ request_timeout c' = request_timeout c
  /\ exists evs, trace c' = trace c ++ evs /\ Forall P evs.

(** [R] relates the client before a computation to the client after it,
    whatever the outcome. *)
Definition frame (R : relation Client) {A} (m : M A) : Prop :=
  forall c, R c (m c).2.

(** ** Vocabulary of the statements *)

Section Vocabulary.
Import PublicRequest.
Variable net : list event -> Request -> transport_result.

(** The session headers once a call given [headers] has merged them
    (line 88-89): nothing changes for [None] or an empty dict. *)
Definition merged_headers (headers : option (list (string * string)))
    (h : gmap string string) : gmap string string :=
  match headers with
  | Some (kv :: more) => headers_update h (kv :: more)
  | _ => h
  end.

(** The request a call of [_send_public_request] hands to the session. *)
Definition request_of (url : string) (data : option value)
    (params : option dict) (headers : option (list (string * string)))
    (c : Client) : Request :=
  mkRequest (match data with Some _ => session_data | None => session_get end)
            url data params (merged_headers headers (public_headers c)).

(** The trace when the session is called: the delay has been slept. *)
Definition trace_at_call (c : Client) : list event :=
  if request_timeout c =? 0 then trace c
  else trace c ++ [Ev_sleep throttle (request_timeout c)].

(** The errors the claims call transient: a [ClientError] that is none of
    the three kinds that stop retries and does not carry the SOCKS proxy
    signature. *)
Definition transient (e : exn) : Prop :=
  isinstance e ClientError = true
  /\ stops_retries e = false
  /\ socks_proxy_failure e = false.

(** The client after a failed attempt and the sleep that follows it. *)
Definition next_attempt (url : string) (data : option value)
    (params : option dict) (headers : option (list (string * string)))
    (return_json : bool) (retries_timeout : Z) (c : Client) : Client :=
  (sleep retry retries_timeout
     (_send_public_request net url data params headers return_json c).2).2.

(** The client at the head of attempt [i], counted from 0, of a run in
    which every earlier attempt was followed by the retry sleep. *)
Fixpoint before_attempt (url : string) (data : option value)
    (params : option dict) (headers : option (list (string * string)))
    (return_json : bool) (retries_timeout : Z) (i : nat) (c : Client) : Client :=
  match i with
  | O => c
  | S j => before_attempt url data params headers return_json retries_timeout j
             (next_attempt url data params headers return_json retries_timeout c)
  end.

(** The iterations [i], [i+1], ..., [i+n-1] of the [for] loop. *)
Definition iterations_from (i n : nat) : list Z := Z.of_nat <$> seq i n.

End Vocabulary.

(** ** Vocabulary of the error taxonomy *)

(** A typed failure: [ClientError] or one of its subclasses. *)
Definition typed (e : exn) : Prop := isinstance e ClientError = true.

Section Networks.
Variable net : list event -> Request -> transport_result.

(** The session gives responses whose [Content-Length] is an integer, and
    when it fails it fails with the [ConnectionError] of [requests]. *)
Definition well_behaved : Prop :=
  forall tr rq,
    match net tr rq with
    | T_response r => exists n, content_length r = CL_int n
    | T_raise e => isinstance e ConnectionError = true
    end.

(** Every body the network serves that decodes as JSON satisfies [Q]. *)
Definition bodies_satisfy (Q : value -> Prop) : Prop :=
  forall tr rq r v, net tr rq = T_response r -> json_body r = inr v -> Q v.

(** [r] is a response of the network. *)
Definition served (r : Response) : Prop :=
  exists tr rq, net tr rq = T_response r.

(** What the dispatcher and the adapters rely on when an attempt fails:
    the error is typed, and a bad request carries a response of the
    network. *)
Definition good_failure (e : exn) : Prop :=
  typed e
  /\ (cls e = ClientBadRequestError ->
      exists r, response e = HttpResponse r /\ served r).

End Networks.

(** The envelope of the legacy endpoint (section 3): an object with a
    [graphql] field, or else with the [generic_request_error] diagnostic. *)
Definition a1_envelope (v : value) : Prop :=
  exists d, v = VDict d
            /\ (is_Some (dict_get "graphql" d)
                \/ dict_get "error_type" d = Some (VStr "generic_request_error")).

(** The envelope of the GraphQL endpoint (section 3): an object that has a
    [data] field when its [status] is ["ok"]. *)
Definition graphql_envelope (v : value) : Prop :=
  exists d, v = VDict d
            /\ (dict_get "status" d = Some (VStr "ok")
                -> is_Some (dict_get "data" d)).

(** ** Vocabulary of single attempts *)

(** All the bytes the response declares were read. *)
Definition complete (r : Response) : Prop :=
  exists n, content_length r = CL_int n /\ n <= raw_tell r.

(** The statuses [raise_for_status] raises for. *)
Definition error_status (r : Response) : bool :=
  (400 <=? status_code r) && (status_code r <? 600).

(** The client after an attempt made from [c] in which the session was
    called and [evs] followed the request in the trace. *)
Definition attempted (url : string) (data : option value)
    (params : option dict) (headers : option (list (string * string)))
    (evs : list event) (c : Client) : Client :=
  mkClient (requests_count c + 1)
           (merged_headers headers (public_headers c))
           (request_timeout c)
           (trace_at_call c
            ++ Ev_request (request_of url data params headers c) :: evs).

(** The two log records of a response that was read in full. *)
Definition logged (r : Response) : list event :=
  [Ev_log log_debug r; Ev_log log_info r].

(** The network answers every request with [r]. *)
Definition answers_with (net : list event -> Request -> transport_result)
    (r : Response) : Prop :=
  forall tr rq, net tr rq = T_response r.

(** [item] is an edge whose node is called [name]. *)
Definition has_name (item name : value) : Prop :=
  exists d node,
    item = VDict d
    /\ dict_get "node" d = Some (VDict node)
    /\ dict_get "name" node = Some name.



(** The URL and the parameters of the request [hashtag_info] makes. *)
Definition tag_page_url (hashtag : string) : string :=
  "https://www.instagram.com/explore/tags/" +:+ hashtag +:+ "/".

Definition tag_page_params (max_id : value) : dict :=
  if truthy max_id then [("max_id", max_id); ("__a", VInt 1)]
  else [("__a", VInt 1)].

(** The network answers every request with [r], a complete and successful
    response whose body holds [tag] at [graphql.hashtag]. *)
Definition serves_tag (net : list event -> Request -> transport_result)
    (r : Response) (tag : value) : Prop :=
  answers_with net r /\ complete r /\ error_status r = false
  /\ exists d g,
       json_body r = inr (VDict d)
       /\ dict_get "graphql" d = Some (VDict g)
       /\ dict_get "hashtag" g = Some tag.

(** ** Vocabulary of the hashtag feed *)

Section Pagination.
Variable net : list event -> Request -> transport_result.
Variable repr_container : value -> string.
Variables (hashtag : string) (count sleep_time : Z).

(** [data], as [hashtag_info] returns it, is a page holding [edges], the
    cursor of the next page and the [has_next_page] flag. *)
Definition is_page (data : value) (edges : list value)
    (end_cursor has_next_page : value) : Prop :=
  exists d media page_info,
    data = VDict d
    /\ dict_get "edge_hashtag_to_media" d = Some (VDict media)
    /\ dict_get "page_info" media = Some (VDict page_info)
    /\ dict_get "end_cursor" page_info = Some end_cursor
    /\ dict_get "edges" media = Some (VList edges)
    /\ dict_get "has_next_page" page_info = Some has_next_page.

(** The client once the sleep between two pages is over. *)
Definition slept (c : Client) : Client :=
  mkClient (requests_count c) (public_headers c) (request_timeout c)
           (trace c ++ [Ev_sleep pagination sleep_time]).

(** Cursor pagination in the words of the specification:
    [paginates cursor collected c all pages c'] when, from the client [c]
    with [collected] edges in hand, fetching pages of [hashtag_info] from
    [cursor] on, each from the cursor the page before gave and after a sleep
    of [sleep_time], reaches after [pages] pages a page that reports no next
    page or brings the edges in hand to [count] or more; [all] are the edges
    then in hand and [c'] the client. *)
Inductive paginates
  : value -> list value -> Client -> list value -> nat -> Client -> Prop :=
| paginates_last cursor collected c data c1 edges end_cursor has_next_page :
    HashtagPublic.hashtag_info net repr_container hashtag cursor c = (Ok data, c1) ->
    is_page data edges end_cursor has_next_page ->
    truthy has_next_page = false
    \/ count <= Z.of_nat (length (collected ++ edges)) ->
    paginates cursor collected c (collected ++ edges) 1 c1
| paginates_more cursor collected c data c1 edges end_cursor has_next_page
                 all pages c' :
    HashtagPublic.hashtag_info net repr_container hashtag cursor c = (Ok data, c1) ->
    is_page data edges end_cursor has_next_page ->
    truthy has_next_page = true ->
    Z.of_nat (length (collected ++ edges)) < count ->
    paginates end_cursor (collected ++ edges) (slept c1) all pages c' ->
    paginates cursor collected c all (S pages) c'.

End Pagination.

(** ** Scenarios: concrete networks and clients *)

Module Scenario.
Import PublicRequest.

(** A network that answers the [i]-th call of the session with the [i]-th
    entry of [script], and with [fallback] once the script is used up. *)
Definition scripted (script : list transport_result) (fallback : transport_result)
  : list event -> Request -> transport_result :=
  fun tr _ => nth (length (requests_of tr)) script fallback.

(** A complete response with the given status, final URL and JSON body. *)
Definition reply (status : Z) (url : string) (body : string + value) : Response :=
  mkResponse status "" url (CL_int 40) 40 "" body.

Definition ok_json (body : value) : transport_result :=
  T_response (reply 200 "https://www.instagram.com/" (inr body)).

Definition status_only (status : Z) : transport_result :=
  T_response (reply status "https://www.instagram.com/" (inl "Expecting value")).

(** A client as [__init__] leaves it, with the default delay of 1. *)
Definition fresh : Client := init ∅ None.

(** A GraphQL endpoint that answers every request with an [ok] envelope. *)
Definition graphql_ok : list event -> Request -> transport_result :=
  scripted [] (ok_json (VDict [("status", VStr "ok");
                               ("data", VDict [("user", VNone)])])).

(** A proxy that cannot connect, as [requests] reports it, and a plain
    connection failure. *)
Definition socks_failure : exn :=
  mkExn (ConnectionErrorSubclass "ProxyError")
    "SOCKSHTTPSConnectionPool(host='www.instagram.com', port=443): Max retries exceeded with url: / (Caused by NewConnectionError('Failed to establish a new connection: Connection refused'))"
    NoResponse.

Definition connection_reset : exn :=
  mkExn ConnectionError "Connection aborted." NoResponse.

(** A read that times out: of [requests], and no [ConnectionError]. *)
Definition read_timeout : exn :=
  mkExn (OtherException "ReadTimeout") "Read timed out. (read timeout=None)"
        NoResponse.

(** The GraphQL endpoint refusing every request. *)
Definition graphql_fail : list event -> Request -> transport_result :=
  scripted [] (ok_json (VDict [("status", VStr "fail");
                               ("message", VStr "rate limited")])).

(** The legacy endpoint of a hashtag with 13 media on two pages: eight
    edges and a next page, then, at the cursor of the first page, five
    edges and no next page. *)
Definition edge (id : Z) : value := VDict [("node", VDict [("id", VInt id)])].

Definition hashtag_page (edges : list value) (end_cursor : value)
    (has_next_page : bool) : value :=
  VDict [("graphql",
          VDict [("hashtag",
                  VDict [("name", VStr "x");
                         ("edge_hashtag_to_media",
                          VDict [("count", VInt 13);
                                 ("page_info",
                                  VDict [("has_next_page", VBool has_next_page);
                                         ("end_cursor", end_cursor)]);
                                 ("edges", VList edges)])])])].

Definition two_pages : list event -> Request -> transport_result :=
  fun _ rq =>
    match req_params rq ≫= dict_get "max_id" with
    | Some (VStr "QVFEbWVkaWE4") =>
        ok_json (hashtag_page (edge <$> [9; 10; 11; 12; 13]) VNone false)
    | _ =>
        ok_json (hashtag_page (edge <$> [1; 2; 3; 4; 5; 6; 7; 8])
                              (VStr "QVFEbWVkaWE4") true)
    end.

(** The legacy endpoint answering every request with the same page. *)
Definition same_page (edges : list value) (end_cursor : value)
    (has_next_page : bool) : list event -> Request -> transport_result :=
  fun _ _ => ok_json (hashtag_page edges end_cursor has_next_page).

(** The legacy endpoint of a hashtag with two related hashtags and one
    top post. *)
Definition named (name : string) : value :=
  VDict [("node", VDict [("name", VStr name)])].

Definition tag_with_relations : value :=
  VDict [("name", VStr "nasa");
         ("edge_hashtag_to_top_posts", VDict [("edges", VList [edge 1])]);
         ("edge_hashtag_to_related_tags",
          VDict [("edges", VList [named "space"; named "moon"])])].

Definition relations : list event -> Request -> transport_result :=
  fun _ _ => ok_json (VDict [("graphql",
                              VDict [("hashtag", tag_with_relations)])]).

End Scenario.

(** ** Frame rules of the monad *)

Section Frames.
Context (R : relation Client) `{!PreOrder R}.

Lemma frame_ret {A} (a : A) : frame R (ret a).
Proof. intros c. simpl. reflexivity. Qed.

Lemma frame_raise {A} (e : exn) : frame R (@raise A e).
Proof. intros c. simpl. reflexivity. Qed.

Lemma frame_get {A} (attr : Client -> A) : frame R (get attr).
Proof. intros c. simpl. reflexivity. Qed.

Lemma frame_bind {A B} (m : M A) (k : A -> M B) :
  frame R m -> (forall a, frame R (k a)) -> frame R (bind m k).
Proof.
  intros Hm Hk c. unfold bind. specialize (Hm c).
  destruct (m c) as [[a|e] c1]; simpl in *; [|assumption].
  etransitivity; [exact Hm|apply Hk].
Qed.

Lemma frame_reify {A} (m : M A) : frame R m -> frame R (reify m).
Proof.
  intros Hm c. unfold reify. specialize (Hm c).
  destruct (m c) as [r c1]. exact Hm.
Qed.

Lemma frame_try_except {A} (body : M A) (handler : exn -> M A) :
  frame R body -> (forall e, frame R (handler e)) ->
  frame R (try_except body handler).
Proof.
  intros Hb Hh. unfold try_except.
  apply frame_bind; [apply frame_reify, Hb|].
  intros [a|e]; [apply frame_ret|apply Hh].
Qed.

End Frames.

Global Instance quiet_preorder (P : event -> Prop) : PreOrder (quiet P).
Proof.
  split.
  - intros c. repeat split. exists []. rewrite app_nil_r. auto.
  - intros c1 c2 c3 (Hn & Hh & Ht & evs & Htr & HP) (Hn' & Hh' & Ht' & evs' & Htr' & HP').
    repeat split; try congruence.
    exists (evs ++ evs'). rewrite Htr', Htr, app_assoc.
    split; [reflexivity|]. apply Forall_app; auto.
Qed.

Global Instance grows_preorder (P : event -> Prop) : PreOrder (grows P).
Proof.
  split.
  - intros c. split; [lia|]. split; [reflexivity|].
    exists []. rewrite app_nil_r. auto.
  - intros c1 c2 c3 (Hn & Ht & evs & Htr & HP) (Hn' & Ht' & evs' & Htr' & HP').
    split; [lia|]. split; [congruence|].
    exists (evs ++ evs'). rewrite Htr', Htr, app_assoc.
    split; [reflexivity|]. apply Forall_app; auto.
Qed.

Lemma quiet_grows (P : event -> Prop) c c' : quiet P c c' -> grows P c c'.
Proof. intros (Hn & _ & Ht & Hev). split; [lia|]. split; assumption. Qed.

Lemma frame_quiet_grows (P : event -> Prop) {A} (m : M A) :
  frame (quiet P) m -> frame (grows P) m.
Proof. intros H c. apply quiet_grows, H. Qed.

Lemma frame_emit (P : event -> Prop) (ev : event) : P ev -> frame (quiet P) (emit ev).
Proof.
  intros HP c. simpl. repeat split. exists [ev]. split; [reflexivity|]. auto.
Qed.

Lemma frame_sleep (P : event -> Prop) (site : sleep_site) (t : Z) :
  P (Ev_sleep site t) -> frame (quiet P) (sleep site t).
Proof.
  intros HP. unfold sleep. destruct (t <? 0).
  - apply frame_raise, _.
  - apply frame_emit, HP.
Qed.

Lemma sleeps_at_app site tr tr' :
  sleeps_at site (tr ++ tr') = sleeps_at site tr ++ sleeps_at site tr'.
Proof. apply omap_app. Qed.

Lemma requests_of_app tr tr' :
  requests_of (tr ++ tr') = requests_of tr ++ requests_of tr'.
Proof. apply omap_app. Qed.

Lemma decodes_of_app tr tr' :
  decodes_of (tr ++ tr') = decodes_of tr ++ decodes_of tr'.
Proof. apply omap_app. Qed.

Lemma sleeps_at_none site evs :
  Forall (fun ev => ~ is_sleep_at site ev) evs -> sleeps_at site evs = [].
Proof.
  induction 1 as [|ev evs Hev _ IH]; [reflexivity|].
  destruct ev; simpl in Hev; try exact IH.
  unfold sleeps_at. simpl. case_decide; [contradiction|exact IH].
Qed.

Lemma requests_of_none evs :
  Forall (fun ev => ~ is_request ev) evs -> requests_of evs = [].
Proof.
  induction 1 as [|ev evs Hev _ IH]; [reflexivity|].
  destruct ev; simpl in Hev; try exact IH. tauto.
Qed.

Lemma grows_sleeps_at site c c' :
  grows (fun ev => ~ is_sleep_at site ev) c c' ->
  sleeps_at site (trace c') = sleeps_at site (trace c).
Proof.
  intros (_ & _ & evs & -> & Hevs).
  rewrite sleeps_at_app, (sleeps_at_none site evs Hevs), app_nil_r. reflexivity.
Qed.

(** One step of a frame proof, by the shape of the computation. *)
Ltac frame_step :=
  lazymatch goal with
  | |- PreOrder _ => apply _
  | |- frame _ (bind _ _) => apply frame_bind
  | |- frame _ (ret _) => apply frame_ret
  | |- frame _ (raise _) => apply frame_raise
  | |- frame _ (get _) => apply frame_get
  | |- frame _ (reify _) => apply frame_reify
  | |- frame _ (try_except _ _) => apply frame_try_except
  | |- frame (quiet _) (emit _) => apply frame_emit
  | |- frame (quiet _) (sleep _ _) => apply frame_sleep
  | |- frame (grows _) (emit _) => apply frame_quiet_grows, frame_emit
  | |- frame (grows _) (sleep _ _) => apply frame_quiet_grows, frame_sleep
  | |- forall _, _ => intro
  | |- frame _ (match ?x with _ => _ end) => destruct x
  | |- frame _ (if ?b then _ else _) => destruct b
  end.

Ltac frames := repeat frame_step.

(** ** Frames of the request layer *)

Import PublicRequest.

Section SendFrames.
Variable net : list event -> Request -> transport_result.
Variable P : event -> Prop.
Hypothesis P_log : forall lvl r, P (Ev_log lvl r).
Hypothesis P_json : forall r, P (Ev_json r).

Lemma frame_raise_for_status r : frame (quiet P) (raise_for_status r).
Proof. unfold raise_for_status. frames. Qed.

Lemma frame_response_json r : frame (quiet P) (response_json r).
Proof. unfold response_json. frames. apply P_json. Qed.

Lemma frame_check_and_decode r return_json :
  frame (quiet P) (check_and_decode r return_json).
Proof.
  unfold check_and_decode, int_content_length. frames; auto.
  - apply frame_raise_for_status.
  - apply frame_response_json.
Qed.

Lemma frame_handlers url bound e : frame (quiet P) (handlers url bound e).
Proof. unfold handlers. frames; auto. Qed.

Hypothesis P_request : forall rq, P (Ev_request rq).

Lemma frame_session_call m url data params :
  frame (quiet P) (session_call net m url data params).
Proof.
  intros c. unfold session_call.
  destruct (net _ _); simpl; repeat split;
    (eexists; split; [reflexivity|]; auto).
Qed.

Lemma frame_try_send url data params return_json :
  frame (quiet P) (try_send net url data params return_json).
Proof.
  unfold try_send. frames;
    first [apply frame_session_call | apply frame_check_and_decode
          | apply frame_handlers].
Qed.

Hypothesis P_throttle : forall t, P (Ev_sleep throttle t).

Lemma frame_increment :
  frame (grows P) (let* n := get requests_count in set_requests_count (n + 1)).
Proof.
  intros c. unfold bind, get, set_requests_count.
  split; simpl; [lia|]. split; [reflexivity|].
  exists []. rewrite app_nil_r. auto.
Qed.

Lemma frame_set_public_headers h : frame (grows P) (set_public_headers h).
Proof.
  intros c. split; simpl; [lia|]. split; [reflexivity|].
  exists []. rewrite app_nil_r. auto.
Qed.

Lemma frame_send url data params headers return_json :
  frame (grows P) (_send_public_request net url data params headers return_json).
Proof.
  unfold _send_public_request.
  apply frame_bind; [apply _|apply frame_increment|intros _].
  frames; auto;
    first [apply frame_set_public_headers
          | apply frame_quiet_grows, frame_try_send].
Qed.

Hypothesis P_retry : forall t, P (Ev_sleep retry t).

Lemma frame_retry_loop url data params headers return_json
    retries_count retries_timeout iterations :
  frame (grows P)
    (retry_loop net url data params headers return_json
                retries_count retries_timeout iterations).
Proof.
  induction iterations as [|iteration rest IH]; simpl; frames; auto.
  apply frame_send.
Qed.

Lemma frame_public_request url data params headers return_json
    retries_count retries_timeout :
  frame (grows P)
    (public_request net url data params headers return_json
                    retries_count retries_timeout).
Proof. unfold public_request. frames. apply frame_retry_loop. Qed.

End SendFrames.

(** ** Running the monad *)

Lemma try_except_run {A} (body : M A) (handler : exn -> M A) c :
  try_except body handler c
  = match body c with
    | (Ok a, c') => (Ok a, c')
    | (Raise e, c') => handler e c'
    end.
Proof.
  unfold try_except, bind, reify. destruct (body c) as [[a|e] c']; reflexivity.
Qed.

Lemma bind_run {A B} (m : M A) (k : A -> M B) c :
  bind m k c
  = match m c with
    | (Ok a, c') => k a c'
    | (Raise e, c') => (Raise e, c')
    end.
Proof. reflexivity. Qed.

Lemma sleep_run site t c :
  0 <= t ->
  sleep site t c
  = (Ok tt, mkClient (requests_count c) (public_headers c) (request_timeout c)
                     (trace c ++ [Ev_sleep site t])).
Proof.
  intros Ht. unfold sleep. destruct (Z.ltb_spec t 0); [lia|reflexivity].
Qed.

Lemma range_iterations n : range n = iterations_from 0 (Z.to_nat n).
Proof. reflexivity. Qed.

(** ** The single attempt *)

Section Send.
Variable net : list event -> Request -> transport_result.

Local Abbreviation send := (_send_public_request net).

(** The three ways an attempt starts, by the sign of the configured delay. *)
Lemma send_run url data params headers return_json c :
  send url data params headers return_json c
  = let h := merged_headers headers (public_headers c) in
    let n := requests_count c + 1 in
    let t := request_timeout c in
    if t =? 0 then try_send net url data params return_json (mkClient n h t (trace c))
    else if t <? 0
    then (Raise (mkExn ValueError "sleep length must be non-negative" NoResponse),
          mkClient n h t (trace c))
    else try_send net url data params return_json
           (mkClient n h t (trace c ++ [Ev_sleep throttle t])).
Proof.
  unfold _send_public_request, merged_headers, sleep.
  destruct headers as [[|kv more]|]; simpl;
    unfold bind, get, set_requests_count, set_public_headers, ret, raise, emit; simpl;
    destruct (request_timeout c =? 0); simpl; try reflexivity;
    destruct (request_timeout c <? 0); reflexivity.
Qed.

Lemma send_requests_count url data params headers return_json c :
  requests_count (send url data params headers return_json c).2
  = requests_count c + 1.
Proof.
  rewrite send_run. cbv zeta.
  repeat case_match; try reflexivity;
    match goal with
    | |- context [try_send net ?u ?d ?p ?r ?c0] =>
        destruct (frame_try_send net (fun _ => True) (fun _ _ => I) (fun _ => I)
                    (fun _ => I) u d p r c0) as (-> & _)
    end; reflexivity.
Qed.

Lemma send_request_timeout url data params headers return_json c :
  request_timeout (send url data params headers return_json c).2
  = request_timeout c.
Proof.
  destruct (frame_send net (fun _ => True) (fun _ _ => I) (fun _ => I)
              (fun _ => I) (fun _ => I) url data params headers return_json c)
    as (_ & -> & _).
  reflexivity.
Qed.

Lemma send_sleeps_at site url data params headers return_json c :
  site <> throttle ->
  sleeps_at site (trace (send url data params headers return_json c).2)
  = sleeps_at site (trace c).
Proof.
  intros Hsite. apply grows_sleeps_at.
  apply (frame_send net); simpl; auto.
Qed.

End Send.

Section SendRequests.
Variable net : list event -> Request -> transport_result.

Lemma try_send_trace url data params return_json c :
  exists evs,
    trace (try_send net url data params return_json c).2
    = trace c
      ++ Ev_request (mkRequest (match data with
                                | Some _ => session_data
                                | None => session_get
                                end) url data params (public_headers c))
      :: evs
    /\ Forall (fun ev => ~ is_request ev) evs.
Proof.
  unfold try_send. rewrite bind_run. unfold reify, session_call.
  set (rq := mkRequest _ url data params _).
  set (c1 := mkClient _ _ _ (trace c ++ [Ev_request rq])).
  assert (Hq : forall m : M value,
             frame (quiet (fun ev => ~ is_request ev)) m ->
             exists evs, trace (m c1).2 = trace c ++ Ev_request rq :: evs
                         /\ Forall (fun ev => ~ is_request ev) evs).
  { intros m Hm. destruct (Hm c1) as (_ & _ & _ & evs & Htr & Hevs).
    exists evs. split; [|assumption].
    rewrite Htr. simpl. rewrite <- app_assoc. reflexivity. }
  destruct (net (trace c) rq) as [r|e]; apply Hq.
  - apply frame_try_except; [apply _| |intros e];
      first [apply frame_check_and_decode | apply frame_handlers]; simpl; auto.
  - apply frame_handlers; simpl; auto.
Qed.

Lemma send_requests_of url data params headers return_json c :
  0 <= request_timeout c ->
  requests_of (trace (_send_public_request net url data params headers
                        return_json c).2)
  = requests_of (trace c) ++ [request_of url data params headers c].
Proof.
  intros Ht. rewrite send_run. cbv zeta.
  destruct (Z.eqb_spec (request_timeout c) 0) as [H0|H0];
    [|destruct (Z.ltb_spec (request_timeout c) 0); [lia|]];
    match goal with
    | |- context [try_send net ?u ?d ?p ?r ?c0] =>
        destruct (try_send_trace u d p r c0) as (evs & -> & Hevs)
    end; simpl;
    rewrite !requests_of_app; simpl;
    change (requests_of (Ev_request ?rq :: evs)) with (rq :: requests_of evs);
    rewrite (requests_of_none evs Hevs), ?app_nil_r; reflexivity.
Qed.

End SendRequests.

(** ** The retry loop *)

Section Retry.
Variable net : list event -> Request -> transport_result.
Variables (url : string) (data : option value) (params : option dict)
          (headers : option (list (string * string))) (return_json : bool).
Variables retries_count retries_timeout : Z.

Local Abbreviation send := (_send_public_request net url data params headers return_json).
Local Abbreviation loop :=
  (retry_loop net url data params headers return_json retries_count retries_timeout).
Local Abbreviation request :=
  (public_request net url data params headers return_json
                  retries_count retries_timeout).
Local Abbreviation before :=
  (before_attempt net url data params headers return_json retries_timeout).

Lemma retry_loop_cons iteration rest c :
  loop (iteration :: rest) c
  = match send c with
    | (Ok v, c1) => (Ok v, c1)
    | (Raise e, c1) =>
        if stops_retries e then (Raise e, c1)
        else if isinstance e ClientError then
          if socks_proxy_failure e then (Raise e, c1)
          else if retries_count >? iteration + 1
          then (sleep retry retries_timeout >> loop rest) c1
          else (Raise e, c1)
        else (Raise e, c1)
    end.
Proof.
  simpl. rewrite try_except_run.
  destruct (send c) as [[v|e] c1]; [reflexivity|].
  repeat case_match; reflexivity.
Qed.

Lemma public_request_run c :
  retries_count <= 10 -> retries_timeout <= 600 ->
  request c = loop (iterations_from 0 (Z.to_nat retries_count)) c.
Proof.
  intros Hc Ht. unfold public_request.
  destruct (Z.leb_spec retries_count 10); [|lia].
  destruct (Z.leb_spec retries_timeout 600); [|lia].
  reflexivity.
Qed.

Lemma iterations_from_S i n :
  iterations_from i (S n) = Z.of_nat i :: iterations_from (S i) n.
Proof. reflexivity. Qed.

(** An attempt that ends the run: a result, or an error that is raised to
    the caller without a sleep. *)
Lemma retry_loop_returns i n c v c1 :
  send c = (Ok v, c1) -> loop (iterations_from i (S n)) c = (Ok v, c1).
Proof. intros Hs. rewrite iterations_from_S, retry_loop_cons, Hs. reflexivity. Qed.

Lemma retry_loop_stops i n c e c1 :
  send c = (Raise e, c1) ->
  stops_retries e = true \/ socks_proxy_failure e = true ->
  loop (iterations_from i (S n)) c = (Raise e, c1).
Proof.
  intros Hs He. rewrite iterations_from_S, retry_loop_cons, Hs.
  destruct (stops_retries e); [reflexivity|].
  destruct He as [He|He]; [discriminate|]. rewrite He.
  destruct (isinstance e ClientError); reflexivity.
Qed.

(** A transient error with iterations left: the sleep, then the rest. *)
Lemma retry_loop_retries i n c e c1 :
  Z.of_nat (i + S (S n)) = retries_count ->
  0 <= retries_timeout ->
  send c = (Raise e, c1) -> transient e ->
  loop (iterations_from i (S (S n))) c
  = loop (iterations_from (S i) (S n)) (sleep retry retries_timeout c1).2
  /\ trace (sleep retry retries_timeout c1).2
     = trace c1 ++ [Ev_sleep retry retries_timeout].
Proof.
  intros Hrc Ht Hs (Hce & Hstop & Hsocks).
  rewrite iterations_from_S, retry_loop_cons, Hs, Hstop, Hce, Hsocks.
  destruct (Z.gtb_spec retries_count (Z.of_nat i + 1)); [|lia].
  rewrite bind_run, sleep_run by assumption. split; reflexivity.
Qed.

(** On the last iteration a transient error is raised to the caller. *)
Lemma retry_loop_gives_up i c e c1 :
  Z.of_nat (i + 1) = retries_count ->
  send c = (Raise e, c1) ->
  loop (iterations_from i 1) c = (Raise e, c1).
Proof.
  intros Hrc Hs. rewrite iterations_from_S, retry_loop_cons, Hs.
  destruct (Z.gtb_spec retries_count (Z.of_nat i + 1)); [lia|].
  repeat case_match; reflexivity.
Qed.

(** [failures] transient errors, then a result. *)
Lemma retry_loop_transient_then_ok failures :
  forall i n c v,
    Z.of_nat (i + n) = retries_count ->
    (failures < n)%nat ->
    0 <= retries_timeout ->
    (forall j, (j < failures)%nat ->
               exists e, (send (before j c)).1 = Raise e /\ transient e) ->
    (send (before failures c)).1 = Ok v ->
    loop (iterations_from i n) c = (Ok v, (send (before failures c)).2)
    /\ sleeps_at retry (trace (send (before failures c)).2)
       = sleeps_at retry (trace c) ++ replicate failures retries_timeout.
Proof.
  induction failures as [|failures IH]; intros i n c v Hrc Hn Ht Hfail Hok.
  - simpl in *. destruct n as [|n]; [lia|].
    destruct (send c) as [r c1] eqn:Hs. simpl in Hok. subst r.
    split; [apply retry_loop_returns, Hs|].
    rewrite app_nil_r.
    pose proof (send_sleeps_at net retry url data params headers return_json c)
      as Hc1.
    rewrite Hs in Hc1. apply Hc1. discriminate.
  - destruct n as [|[|n]]; try lia.
    destruct (Hfail O) as (e & He & Htrans); [lia|]. simpl in He.
    destruct (send c) as [r c1] eqn:Hs. simpl in He. subst r.
    destruct (retry_loop_retries i n c e c1) as [Hloop Htrace]; auto.
    assert (Hnext : next_attempt net url data params headers return_json
                      retries_timeout c = (sleep retry retries_timeout c1).2).
    { unfold next_attempt. rewrite Hs. reflexivity. }
    simpl before_attempt in *. rewrite Hnext in *.
    destruct (IH (S i) (S n) (sleep retry retries_timeout c1).2 v)
      as [Hres Hsleeps]; auto; try lia.
    { intros j Hj. specialize (Hfail (S j) ltac:(lia)). simpl in Hfail.
      rewrite Hnext in Hfail. exact Hfail. }
    split; [rewrite Hloop; exact Hres|].
    rewrite Hsleeps, Htrace, sleeps_at_app.
    pose proof (send_sleeps_at net retry url data params headers return_json c)
      as Hc1.
    rewrite Hs in Hc1. simpl in Hc1. rewrite Hc1 by discriminate.
    rewrite <- app_assoc. reflexivity.
Qed.

(** Every attempt hands one request to the session and counts one. *)
Lemma retry_loop_counts iterations :
  forall c,
    0 <= request_timeout c ->
    exists sent,
      requests_of (trace (loop iterations c).2) = requests_of (trace c) ++ sent
      /\ requests_count (loop iterations c).2
         = requests_count c + Z.of_nat (length sent).
Proof.
  induction iterations as [|iteration rest IH]; intros c Ht.
  - exists []. simpl. rewrite app_nil_r. split; [reflexivity|lia].
  - rewrite retry_loop_cons.
    pose proof (send_requests_of net url data params headers return_json c Ht)
      as Hreq.
    pose proof (send_requests_count net url data params headers return_json c)
      as Hcnt.
    pose proof (send_request_timeout net url data params headers return_json c)
      as Htm.
    destruct (send c) as [[v|e] c1]; simpl in Hreq, Hcnt, Htm.
    { eexists [_]. simpl. split; [exact Hreq|lia]. }
    repeat case_match;
      try (eexists [_]; simpl; split; [exact Hreq|lia]).
    rewrite bind_run. unfold sleep.
    destruct (retries_timeout <? 0).
    { eexists [_]. simpl. split; [exact Hreq|lia]. }
    simpl.
    match goal with
    | |- context [loop rest ?c2] =>
        destruct (IH c2) as (sent & Hsent & Hn); [simpl; lia|];
        rewrite Hsent, Hn; simpl
    end.
    rewrite requests_of_app, Hreq, Hcnt. simpl. rewrite app_nil_r, <- app_assoc.
    eexists (_ :: sent). split; [reflexivity|]. simpl length. lia.
Qed.

End Retry.

(** ** Frames of the adapters *)

Section AdapterFrames.
Variable net : list event -> Request -> transport_result.
Variable json_dumps : value -> string.
Variable repr_container : value -> string.
Variable P : event -> Prop.
Hypothesis P_log : forall lvl r, P (Ev_log lvl r).
Hypothesis P_json : forall r, P (Ev_json r).
Hypothesis P_request : forall rq, P (Ev_request rq).
Hypothesis P_throttle : forall t, P (Ev_sleep throttle t).
Hypothesis P_retry : forall t, P (Ev_sleep retry t).

Lemma frame_getitem v k : frame (grows P) (getitem v k).
Proof. unfold getitem. frames. Qed.

Lemma frame_value_get v k : frame (grows P) (value_get v k).
Proof. unfold value_get. frames. Qed.

Lemma frame_public_a1_request endpoint data params headers :
  frame (grows P)
    (public_a1_request net repr_container endpoint data params headers).
Proof.
  unfold public_a1_request. frames;
    first [apply frame_public_request; assumption | apply frame_getitem].
Qed.

Lemma frame_bad_request_handler e :
  frame (grows P) (bad_request_handler repr_container e).
Proof.
  unfold bad_request_handler. frames;
    first [apply frame_quiet_grows, frame_response_json; assumption
          | apply frame_value_get].
Qed.

Lemma frame_public_graphql_request variables query_hash query_id data params
    headers :
  frame (grows P)
    (public_graphql_request net json_dumps repr_container variables
       query_hash query_id data params headers).
Proof.
  unfold public_graphql_request. frames;
    first [apply frame_public_request; assumption | apply frame_value_get
          | apply frame_getitem | apply frame_bad_request_handler].
Qed.

Lemma frame_hashtag_info hashtag max_id :
  frame (grows P) (HashtagPublic.hashtag_info net repr_container hashtag max_id).
Proof.
  unfold HashtagPublic.hashtag_info. frames;
    first [apply frame_public_a1_request | apply frame_getitem].
Qed.

End AdapterFrames.

Import Scenario.

(** ** Dicts *)

Lemma dict_get_set_eq k v d : dict_get k (dict_set k v d) = Some v.
Proof.
  induction d as [|[k' v'] d IH]; simpl.
  - rewrite String.eqb_refl. reflexivity.
  - destruct (String.eqb_spec k k') as [->|Hne]; simpl.
    + rewrite String.eqb_refl. reflexivity.
    + destruct (String.eqb_spec k k'); [contradiction|exact IH].
Qed.

Lemma dict_get_set_ne k k' v d :
  k <> k' -> dict_get k (dict_set k' v d) = dict_get k d.
Proof.
  intros Hne. induction d as [|[k'' v''] d IH]; simpl.
  - destruct (String.eqb_spec k k'); [contradiction|reflexivity].
  - destruct (String.eqb_spec k' k'') as [->|Hne']; simpl.
    + destruct (String.eqb_spec k k''); [contradiction|reflexivity].
    + destruct (String.eqb_spec k k''); [reflexivity|exact IH].
Qed.

(** What [public_graphql_request] sends when both identifiers are given. *)
Lemma merge_params_both params variables query_id query_hash :
  let sent := merge_params params
                (dict_set "query_hash" query_hash
                   (dict_set "query_id" query_id [("variables", variables)])) in
  dict_get "query_id" sent = Some query_id
  /\ dict_get "query_hash" sent = Some query_hash.
Proof.
  unfold merge_params. destruct params as [[|kv more]|]; simpl; auto.
  unfold dict_update. simpl.
  rewrite dict_get_set_eq, dict_get_set_ne, dict_get_set_eq by discriminate.
  auto.
Qed.

(** ** The first request of a run *)

Lemma grows_requests_of P c c' :
  grows P c c' ->
  exists more, requests_of (trace c') = requests_of (trace c) ++ more.
Proof.
  intros (_ & _ & evs & -> & _). exists (requests_of evs).
  apply requests_of_app.
Qed.

Lemma public_request_first_request net url data params headers return_json
    retries_count retries_timeout c :
  1 <= retries_count <= 10 -> retries_timeout <= 600 ->
  0 <= request_timeout c ->
  exists more,
    requests_of (trace (public_request net url data params headers return_json
                          retries_count retries_timeout c).2)
    = requests_of (trace c) ++ request_of url data params headers c :: more.
Proof.
  intros Hrc Hrt Ht. rewrite public_request_run by lia.
  destruct (Z.to_nat retries_count) as [|n] eqn:Hn; [lia|].
  rewrite iterations_from_S, retry_loop_cons.
  pose proof (send_requests_of net url data params headers return_json c Ht)
    as Hreq.
  destruct (_send_public_request net url data params headers return_json c)
    as [[v|e] c1]; simpl in Hreq.
  { exists []. exact Hreq. }
  repeat case_match; try (exists []; exact Hreq).
  assert (Hg : frame (grows (fun _ => True))
                 (sleep retry retries_timeout >>
                  retry_loop net url data params headers return_json
                    retries_count retries_timeout (iterations_from 1 n))).
  { frames; auto. apply frame_retry_loop; auto. }
  destruct (grows_requests_of _ _ _ (Hg c1)) as (more & Hmore).
  exists more. rewrite Hmore, Hreq, <- app_assoc. reflexivity.
Qed.

(** ** What follows a computation *)

Section After.
Context (R : relation Client) `{!PreOrder R}.

Lemma after_bind {A B} (m : M A) (k : A -> M B) c :
  (forall a, frame R (k a)) -> R (m c).2 (bind m k c).2.
Proof.
  intros Hk. unfold bind. destruct (m c) as [[a|e] c1]; simpl.
  - apply Hk.
  - reflexivity.
Qed.

Lemma after_try_except {A} (body : M A) (handler : exn -> M A) c :
  (forall e, frame R (handler e)) -> R (body c).2 (try_except body handler c).2.
Proof.
  intros Hh. rewrite try_except_run. destruct (body c) as [[a|e] c1]; simpl.
  - reflexivity.
  - apply Hh.
Qed.

End After.

(** ** The completeness check *)

Lemma check_and_decode_incomplete r return_json declared c :
  content_length r = CL_int declared ->
  raw_tell r < declared ->
  exists e,
    check_and_decode r return_json c = (Raise e, c)
    /\ cls e = ClientIncompleteReadError /\ response e = HttpResponse r.
Proof.
  intros Hcl Hlen. unfold check_and_decode, int_content_length.
  rewrite Hcl, bind_run. unfold ret at 1.
  destruct (Z.ltb_spec (raw_tell r) declared); [|lia].
  eexists. split; [reflexivity|]. split; reflexivity.
Qed.

Lemma handlers_pass_client_error url bound e c :
  cls e = ClientIncompleteReadError ->
  handlers url bound e c = (Raise e, c).
Proof.
  intros He. unfold handlers, isinstance. rewrite He. reflexivity.
Qed.

(** ** Session headers *)

Lemma headers_update_union (new : list (string * string)) :
  forall h, headers_update h new = headers_update ∅ new ∪ h.
Proof.
  unfold headers_update.
  induction new as [|[k v] new IH]; intros h; simpl.
  - rewrite (left_id_L ∅ (∪)). reflexivity.
  - rewrite IH, (IH (<[lower k:=v]> ∅)).
    rewrite <- (assoc_L (∪)). f_equal.
    rewrite insert_union_singleton_l, insert_union_singleton_l.
    rewrite (right_id_L ∅ (∪)). reflexivity.
Qed.

Lemma merged_headers_union headers h :
  merged_headers headers h = headers_update ∅ (default [] headers) ∪ h.
Proof.
  destruct headers as [[|kv more]|]; cbn [merged_headers default];
    [|apply headers_update_union|];
    unfold headers_update; simpl; rewrite (left_id_L ∅ (∪)); reflexivity.
Qed.

Lemma merged_headers_idemp headers h :
  merged_headers headers (merged_headers headers h) = merged_headers headers h.
Proof.
  rewrite !merged_headers_union, (assoc_L (∪)), (idemp_L (∪)). reflexivity.
Qed.

Lemma merged_headers_lookup headers h name :
  merged_headers headers h !! name
  = match headers_update ∅ (default [] headers) !! name with
    | Some v => Some v
    | None => h !! name
    end.
Proof.
  rewrite merged_headers_union, lookup_union.
  destruct (headers_update ∅ (default [] headers) !! name), (h !! name);
    reflexivity.
Qed.

Lemma init_default_headers session_headers timeout :
  Forall (fun kv => public_headers (init session_headers timeout) !! lower kv.1
                    = Some kv.2) default_headers.
Proof.
  unfold init. cbn [public_headers]. rewrite headers_update_union.
  assert (Hl : forall k v,
             headers_update ∅ default_headers !! k = Some v ->
             (headers_update ∅ default_headers ∪ session_headers) !! k = Some v)
    by (intros k v Hk; apply lookup_union_Some_l, Hk).
  repeat (apply Forall_cons; split; [apply Hl; vm_compute; reflexivity|]).
  apply Forall_nil. exact I.
Qed.

Section Headers.
Variable net : list event -> Request -> transport_result.
Variables (url : string) (data : option value) (params : option dict)
          (headers : option (list (string * string))) (return_json : bool).
Variables retries_count retries_timeout : Z.

Lemma send_public_headers c :
  public_headers (_send_public_request net url data params headers
                    return_json c).2
  = merged_headers headers (public_headers c).
Proof.
  rewrite send_run. cbv zeta.
  repeat case_match; try reflexivity;
    match goal with
    | |- context [try_send net ?u ?d ?p ?r ?c0] =>
        destruct (frame_try_send net (fun _ => True) (fun _ _ => I) (fun _ => I)
                    (fun _ => I) u d p r c0) as (_ & -> & _)
    end; reflexivity.
Qed.

Lemma retry_loop_headers iterations :
  forall c,
    0 <= request_timeout c ->
    exists sent,
      requests_of
        (trace (retry_loop net url data params headers return_json
                  retries_count retries_timeout iterations c).2)
      = requests_of (trace c) ++ sent
      /\ Forall (fun rq => req_headers rq
                           = merged_headers headers (public_headers c)) sent
      /\ public_headers
           (retry_loop net url data params headers return_json
              retries_count retries_timeout iterations c).2
         = match sent with
           | [] => public_headers c
           | _ => merged_headers headers (public_headers c)
           end.
Proof.
  induction iterations as [|iteration rest IH]; intros c Ht.
  - exists []. simpl. rewrite app_nil_r. auto.
  - rewrite retry_loop_cons.
    pose proof (send_requests_of net url data params headers return_json c Ht)
      as Hreq.
    pose proof (send_public_headers c) as Hh.
    pose proof (send_request_timeout net url data params headers return_json c)
      as Htm.
    assert (Hone : Forall (fun rq => req_headers rq
                             = merged_headers headers (public_headers c))
                     [request_of url data params headers c])
      by (repeat constructor).
    destruct (_send_public_request net url data params headers return_json c)
      as [[v|e] c1]; simpl in Hreq, Hh, Htm.
    { exists [request_of url data params headers c]. simpl. auto. }
    repeat case_match;
      try solve [exists [request_of url data params headers c]; simpl; auto].
    rewrite bind_run. unfold sleep.
    destruct (retries_timeout <? 0).
    { simpl. exists [request_of url data params headers c]. auto. }
    simpl.
    match goal with
    | |- context [retry_loop _ _ _ _ _ _ _ _ rest ?c2] =>
        destruct (IH c2) as (sent & Hsent & Hall & Hfinal); [simpl; lia|];
        rewrite Hsent, Hfinal; simpl in *
    end.
    rewrite Hh, merged_headers_idemp in *.
    rewrite requests_of_app, Hreq. simpl. rewrite app_nil_r, <- app_assoc.
    eexists (_ :: sent). split; [reflexivity|].
    split; [constructor; [reflexivity|exact Hall]|].
    destruct sent; reflexivity.
Qed.

End Headers.

(** ** The hashtag feed *)

Section Feed.
Import HashtagPublic.
Variable net : list event -> Request -> transport_result.
Variable repr_container : value -> string.
Variables (hashtag : string) (count sleep_time : Z).

Lemma hashtag_info_sleeps_at max_id c :
  sleeps_at pagination
    (trace (hashtag_info net repr_container hashtag max_id c).2)
  = sleeps_at pagination (trace c).
Proof.
  apply grows_sleeps_at.
  apply (frame_hashtag_info net repr_container); simpl; auto; discriminate.
Qed.

Lemma fetch_page_run medias cursor c data c1 edges end_cursor has_next_page :
  hashtag_info net repr_container hashtag cursor c = (Ok data, c1) ->
  is_page data edges end_cursor has_next_page ->
  fetch_page net repr_container hashtag count medias cursor c
  = (Ok (medias ++ edges, end_cursor,
         negb (truthy has_next_page)
         || (Z.of_nat (length (medias ++ edges)) >=? count)), c1).
Proof.
  intros Hinfo (d & media & page_info & -> & Hmedia & Hinfo' & Hcursor
                & Hedges & Hnext).
  unfold fetch_page. rewrite bind_run, Hinfo.
  unfold getitem, iterate, bind, ret.
  rewrite Hmedia, Hinfo', Hcursor, Hedges, Hnext. reflexivity.
Qed.

Lemma hashtag_feed_loop_paginates cursor collected c all pages c' :
  0 <= sleep_time ->
  paginates net repr_container hashtag count sleep_time
            cursor collected c all pages c' ->
  (forall fuel, (pages <= fuel)%nat ->
     hashtag_feed_loop net repr_container fuel hashtag count sleep_time
                       collected cursor c
     = Some (Ok (slice_to all count), c'))
  /\ sleeps_at pagination (trace c')
     = sleeps_at pagination (trace c) ++ replicate (pages - 1) sleep_time.
Proof.
  intros Hsleep Hpages.
  induction Hpages as [cursor collected c data c1 edges end_cursor has_next_page
                         Hinfo Hpage Hstop
                      |cursor collected c data c1 edges end_cursor has_next_page
                         all pages c' Hinfo Hpage Hnext Hfew Hrest [IHrun IHsleeps]].
  - split.
    + intros [|fuel] Hfuel; [lia|]. simpl.
      rewrite (fetch_page_run _ _ _ _ _ _ _ _ Hinfo Hpage).
      assert (Hbreak : negb (truthy has_next_page)
                       || (Z.of_nat (length (collected ++ edges)) >=? count)
                       = true).
      { destruct Hstop as [->|Hcount]; [reflexivity|].
        apply orb_true_iff. right. apply Z.geb_le. exact Hcount. }
      rewrite Hbreak. reflexivity.
    + simpl. rewrite app_nil_r.
      pose proof (hashtag_info_sleeps_at cursor c) as Hs.
      rewrite Hinfo in Hs. exact Hs.
  - assert (Hpos : (1 <= pages)%nat) by (inversion Hrest; lia).
    split.
    + intros [|fuel] Hfuel; [lia|]. simpl.
      rewrite (fetch_page_run _ _ _ _ _ _ _ _ Hinfo Hpage).
      assert (Hgo : negb (truthy has_next_page)
                    || (Z.of_nat (length (collected ++ edges)) >=? count)
                    = false).
      { rewrite Hnext, Z.geb_leb. simpl. apply Z.leb_gt. exact Hfew. }
      rewrite Hgo, sleep_run by assumption.
      apply IHrun. lia.
    + rewrite IHsleeps. unfold slept. simpl. rewrite sleeps_at_app.
      pose proof (hashtag_info_sleeps_at cursor c) as Hs.
      rewrite Hinfo in Hs. simpl in Hs. rewrite Hs, <- app_assoc.
      f_equal. simpl.
      destruct pages as [|pages]; [lia|]. simpl. rewrite Nat.sub_0_r.
      reflexivity.
Qed.

Lemma slice_to_length (l : list value) :
  0 <= count -> Z.of_nat (length (slice_to l count)) <= count.
Proof.
  intros Hcount. unfold slice_to.
  destruct (Z.leb_spec 0 count); [|lia].
  rewrite length_take. lia.
Qed.

Lemma slice_to_exact (l : list value) :
  0 <= count <= Z.of_nat (length l) ->
  Z.of_nat (length (slice_to l count)) = count.
Proof.
  intros Hcount. unfold slice_to.
  destruct (Z.leb_spec 0 count); [|lia].
  rewrite length_take. lia.
Qed.

End Feed.

(** ** Typed failures *)

Section Typed.
Variable net : list event -> Request -> transport_result.
Hypothesis Hnet : well_behaved net.

Lemma check_and_decode_raises r return_json c e c' n :
  content_length r = CL_int n ->
  check_and_decode r return_json c = (Raise e, c') ->
  cls e = ClientIncompleteReadError
  \/ (cls e = HTTPError /\ response e = HttpResponse r)
  \/ cls e = JSONDecodeError.
Proof.
  intros Hcl. unfold check_and_decode, int_content_length, raise_for_status,
    response_json.
  rewrite Hcl. unfold bind, ret, raise, emit, client_error. simpl.
  repeat case_match; intros Heq; simplify_eq; simpl; auto.
Qed.

Lemma check_and_decode_returns r c v c' :
  check_and_decode r true c = (Ok v, c') -> json_body r = inr v.
Proof.
  unfold check_and_decode, int_content_length, raise_for_status, response_json.
  unfold bind, ret, raise, emit, client_error. simpl.
  repeat case_match; intros Heq; simplify_eq; simpl; auto.
Qed.

Lemma handlers_of_response url r e c e' c' :
  served net r ->
  cls e = ClientIncompleteReadError
  \/ (cls e = HTTPError /\ response e = HttpResponse r)
  \/ cls e = JSONDecodeError ->
  handlers url (Some r) e c = (Raise e', c') ->
  good_failure net e'.
Proof.
  intros Hr Hcls. unfold handlers, isinstance, good_failure, typed, isinstance.
  destruct e as [ce me re]. simpl in Hcls.
  destruct Hcls as [ -> | [ [ -> -> ] | -> ] ]; simpl;
    unfold bind, raise, emit, client_error; simpl;
    repeat case_match; intros Heq; simplify_eq; simpl;
    (split; [reflexivity|]); intros Hbad; try discriminate; eauto.
Qed.

Lemma handlers_always_raise url bound e c :
  exists e' c', handlers url bound e c = (Raise e', c').
Proof.
  unfold handlers, bind, raise, emit, client_error.
  repeat case_match; simpl; eauto.
Qed.

Lemma handlers_of_connection_error url e c e' c' :
  isinstance e ConnectionError = true ->
  handlers url None e c = (Raise e', c') ->
  good_failure net e'.
Proof.
  intros Hconn. unfold handlers.
  assert (Hj : isinstance e JSONDecodeError = false)
    by (destruct e as [[] ? ?]; try discriminate; reflexivity).
  assert (Hh : isinstance e HTTPError = false)
    by (destruct e as [[] ? ?]; try discriminate; reflexivity).
  rewrite Hj, Hh, Hconn. unfold raise, client_error.
  intros Heq. simplify_eq. split; [reflexivity|discriminate].
Qed.

Lemma try_send_raises url data params return_json c e c' :
  try_send net url data params return_json c = (Raise e, c') ->
  good_failure net e.
Proof.
  unfold try_send. rewrite bind_run. unfold reify, session_call.
  pose proof (Hnet (trace c) (mkRequest
                                (match data with
                                 | Some _ => session_data
                                 | None => session_get
                                 end) url data params (public_headers c)))
    as Hw.
  destruct (net (trace c) _) as [r|e0] eqn:Hr.
  - destruct Hw as (n & Hcl). rewrite try_except_run.
    destruct (check_and_decode r return_json _) as [[v|e1] c1] eqn:Hd;
      [discriminate|].
    apply handlers_of_response; [eexists _, _; exact Hr|].
    eapply check_and_decode_raises; eassumption.
  - apply handlers_of_connection_error, Hw.
Qed.

Lemma try_send_returns Q url data params c v c' :
  bodies_satisfy net Q ->
  try_send net url data params true c = (Ok v, c') -> Q v.
Proof.
  intros HQ. unfold try_send. rewrite bind_run. unfold reify, session_call.
  destruct (net (trace c) _) as [r|e0] eqn:Hr.
  - rewrite try_except_run.
    destruct (check_and_decode r true _) as [[v1|e1] c1] eqn:Hd.
    + intros Heq. simplify_eq.
      eapply HQ; [exact Hr|]. eapply check_and_decode_returns, Hd.
    + destruct (handlers_always_raise url (Some r) e1 c1) as (e2 & c2 & ->).
      discriminate.
  - destruct (handlers_always_raise url None e0
                (mkClient (requests_count c) (public_headers c)
                   (request_timeout c)
                   (trace c ++ [Ev_request
                      (mkRequest (match data with
                                  | Some _ => session_data
                                  | None => session_get
                                  end) url data params (public_headers c))])))
      as (e2 & c2 & ->).
    discriminate.
Qed.

Lemma send_raises url data params headers return_json c e c' :
  0 <= request_timeout c ->
  _send_public_request net url data params headers return_json c = (Raise e, c') ->
  good_failure net e.
Proof.
  intros Ht. rewrite send_run. cbv zeta.
  destruct (Z.eqb_spec (request_timeout c) 0);
    [|destruct (Z.ltb_spec (request_timeout c) 0); [lia|]];
    apply try_send_raises.
Qed.

Lemma send_returns Q url data params headers c v c' :
  bodies_satisfy net Q ->
  _send_public_request net url data params headers true c = (Ok v, c') -> Q v.
Proof.
  intros HQ. rewrite send_run. cbv zeta.
  repeat case_match; try discriminate; apply try_send_returns, HQ.
Qed.

Lemma retry_loop_raises url data params headers return_json
    retries_count retries_timeout iterations :
  0 <= retries_timeout ->
  forall c e c',
    0 <= request_timeout c ->
    retry_loop net url data params headers return_json retries_count
               retries_timeout iterations c = (Raise e, c') ->
    good_failure net e.
Proof.
  intros Hrt. induction iterations as [|iteration rest IH]; intros c e c' Ht.
  - discriminate.
  - rewrite retry_loop_cons.
    pose proof (send_raises url data params headers return_json c) as Hs.
    pose proof (send_request_timeout net url data params headers return_json c)
      as Htm.
    destruct (_send_public_request net url data params headers return_json c)
      as [[v|e1] c1]; [discriminate|]. simpl in Htm.
    specialize (Hs e1 c1 Ht eq_refl).
    repeat case_match; try (intros Heq; simplify_eq; exact Hs).
    rewrite bind_run, sleep_run by assumption.
    apply IH. simpl. lia.
Qed.

Lemma retry_loop_returns_body Q url data params headers
    retries_count retries_timeout n :
  bodies_satisfy net Q ->
  forall i c v c',
    Z.of_nat (i + S n) = retries_count ->
    retry_loop net url data params headers true retries_count
               retries_timeout (iterations_from i (S n)) c = (Ok v, c') ->
    Q v.
Proof.
  intros HQ. induction n as [|n IH]; intros i c v c' Hrc;
    rewrite iterations_from_S, retry_loop_cons;
    pose proof (send_returns Q url data params headers c) as Hs;
    destruct (_send_public_request net url data params headers true c)
      as [[v1|e1] c1];
    try (intros Heq; simplify_eq; eapply Hs; eauto; fail).
  - destruct (Z.gtb_spec retries_count (Z.of_nat i + 1)); [lia|].
    repeat case_match; discriminate.
  - repeat case_match; try discriminate.
    rewrite bind_run. unfold sleep.
    destruct (retries_timeout <? 0); [discriminate|]. simpl.
    apply IH. lia.
Qed.

Lemma public_request_raises url data params headers return_json
    retries_count retries_timeout c e c' :
  retries_count <= 10 -> 0 <= retries_timeout <= 600 ->
  0 <= request_timeout c ->
  public_request net url data params headers return_json retries_count
                 retries_timeout c = (Raise e, c') ->
  good_failure net e.
Proof.
  intros Hrc Hrt Ht. rewrite public_request_run by lia.
  apply retry_loop_raises; lia.
Qed.

Lemma public_request_returns Q url data params headers
    retries_count retries_timeout c v c' :
  bodies_satisfy net Q ->
  1 <= retries_count <= 10 -> retries_timeout <= 600 ->
  public_request net url data params headers true retries_count
                 retries_timeout c = (Ok v, c') ->
  Q v.
Proof.
  intros HQ Hrc Hrt. rewrite public_request_run by lia.
  destruct (Z.to_nat retries_count) as [|n] eqn:Hn; [lia|].
  apply retry_loop_returns_body with (Q := Q); [exact HQ|lia].
Qed.

End Typed.

Section TypedAdapters.
Variable net : list event -> Request -> transport_result.
Variable json_dumps : value -> string.
Variable repr_container : value -> string.
Hypothesis Hnet : well_behaved net.

Lemma public_a1_request_raises endpoint data params headers c e c' :
  bodies_satisfy net a1_envelope ->
  0 <= request_timeout c ->
  public_a1_request net repr_container endpoint data params headers c
  = (Raise e, c') ->
  typed e.
Proof.
  intros Hbodies Ht. unfold public_a1_request. rewrite bind_run.
  destruct (public_request net _ data _ headers true 10 10 c)
    as [[body|e1] c1] eqn:Hrun.
  - destruct (public_request_returns net a1_envelope _ _ _ _ 10 10 _ _ _
                Hbodies ltac:(lia) ltac:(lia) Hrun) as (d & -> & Hshape).
    rewrite try_except_run. unfold getitem.
    destruct (dict_get "graphql" d) as [graphql|] eqn:Hg; [discriminate|].
    destruct Hshape as [[x Hx]|Herr]; [discriminate|].
    unfold raise at 1. cbn [isinstance cls]. rewrite Herr. simpl.
    unfold raise, client_error. intros Heq. simplify_eq. reflexivity.
  - intros Heq. simplify_eq.
    eapply (public_request_raises net Hnet); [| | |exact Hrun]; lia.
Qed.

Lemma eq_str_ok d :
  eq_str (default VNone (dict_get "status" d)) "ok" = true ->
  dict_get "status" d = Some (VStr "ok").
Proof.
  destruct (dict_get "status" d) as [[]|]; simpl; try discriminate.
  intros H. apply String.eqb_eq in H. subst. reflexivity.
Qed.

Lemma bad_request_handler_raises e c e' c' :
  bodies_satisfy net graphql_envelope ->
  (exists r, response e = HttpResponse r /\ served net r) ->
  bad_request_handler repr_container e c = (Raise e', c') ->
  typed e'.
Proof.
  intros Hbodies (r & Hresp & tr & rq & Hserved).
  unfold bad_request_handler. rewrite Hresp, bind_run, try_except_run, bind_run.
  unfold response_json. rewrite bind_run. unfold emit at 1.
  destruct (json_body r) as [msg|body] eqn:Hbody.
  - unfold raise at 1. cbn [isinstance cls]. simpl.
    unfold raise, client_error. intros Heq. simplify_eq. reflexivity.
  - destruct (Hbodies tr rq r body Hserved Hbody) as (d & -> & _).
    simpl. unfold raise, client_error. intros Heq. simplify_eq. reflexivity.
Qed.

Lemma public_graphql_request_raises variables query_hash query_id data params
    headers c e c' :
  bodies_satisfy net graphql_envelope ->
  0 <= request_timeout c ->
  truthy query_id || truthy query_hash = true ->
  public_graphql_request net json_dumps repr_container variables query_hash
                         query_id data params headers c = (Raise e, c') ->
  typed e.
Proof.
  intros Hbodies Ht Hid. unfold public_graphql_request. rewrite Hid.
  cbn [negb]. rewrite try_except_run, bind_run.
  destruct (public_request net _ data _ headers true 10 10 c)
    as [[body|e1] c1] eqn:Hrun.
  - destruct (public_request_returns net graphql_envelope _ _ _ _ 10 10 _ _ _
                Hbodies ltac:(lia) ltac:(lia) Hrun) as (d & -> & Hshape).
    unfold value_get. rewrite bind_run. unfold ret at 1.
    destruct (eq_str (default VNone (dict_get "status" d)) "ok") eqn:Hok.
    + destruct (Hshape (eq_str_ok d Hok)) as [x Hx].
      simpl. rewrite Hx. discriminate.
    + simpl. unfold raise, client_error. intros Heq. simplify_eq. reflexivity.
  - destruct (public_request_raises net Hnet _ _ _ _ _ 10 10 _ _ _
                ltac:(lia) ltac:(lia) Ht Hrun) as [Htyped Hbad].
    destruct (isinstance e1 ClientBadRequestError) eqn:Hcls.
    + apply bad_request_handler_raises; [exact Hbodies|].
      apply Hbad. destruct e1 as [[] ? ?]; try discriminate. reflexivity.
    + unfold raise. intros Heq. simplify_eq. exact Htyped.
Qed.

End TypedAdapters.

(** * The claims *)

(** C1. When the attempts 1..k-1 of a run raise transient [ClientError]s and
    attempt k (k <= retries_count) succeeds, [public_request] returns the
    result of attempt k and has slept [retries_timeout] exactly k-1 times.
    The bounds on the two arguments are the ones the function asserts, and
    a sleep needs a length that is not negative. *)
Theorem C1_transient_failures_then_success
    (net : list event -> Request -> transport_result)
    (url : string) (data : option value) (params : option dict)
    (headers : option (list (string * string))) (return_json : bool)
    (retries_count retries_timeout : Z) (k : nat) (c : Client) (v : value) :
  (1 <= k)%nat -> Z.of_nat k <= retries_count -> retries_count <= 10 ->
  0 <= retries_timeout <= 600 ->
  (forall j, (j < k - 1)%nat ->
     exists e,
       (_send_public_request net url data params headers return_json
          (before_attempt net url data params headers return_json
                          retries_timeout j c)).1 = Raise e
       /\ transient e) ->
  (_send_public_request net url data params headers return_json
     (before_attempt net url data params headers return_json
                     retries_timeout (k - 1) c)).1 = Ok v ->
  let run := public_request net url data params headers return_json
               retries_count retries_timeout c in
  run.1 = Ok v
  /\ run.2 = (_send_public_request net url data params headers return_json
                (before_attempt net url data params headers return_json
                                retries_timeout (k - 1) c)).2
  /\ sleeps_at retry (trace run.2)
     = sleeps_at retry (trace c) ++ replicate (k - 1) retries_timeout.
Proof.
  intros Hk Hkrc Hrc Hrt Hfail Hok run. subst run.
  rewrite public_request_run by lia.
  destruct (retry_loop_transient_then_ok net url data params headers return_json
              retries_count retries_timeout (k - 1)%nat
              0%nat (Z.to_nat retries_count) c v) as [Hrun Hsleeps];
    auto; try lia.
  rewrite Hrun. simpl. auto.
Qed.

(** Two failures (429, then 500) and a result on the third of ten attempts. *)
Lemma C1_witness :
  let net := scripted [status_only 429; status_only 500]
                      (ok_json (VDict [("status", VStr "ok")])) in
  let run := public_request net "https://www.instagram.com/" None None None
               true 10 10 fresh in
  run.1 = Ok (VDict [("status", VStr "ok")])
  /\ sleeps_at retry (trace run.2) = [10; 10].
Proof.
  intros net run.
  destruct (C1_transient_failures_then_success net "https://www.instagram.com/"
              None None None true 10 10 3 fresh
              (VDict [("status", VStr "ok")])) as (H1 & _ & H3);
    try lia.
  - intros [|[|j]] Hj; try lia; eexists; (split; [vm_compute; reflexivity|]);
      repeat split; vm_compute; reflexivity.
  - vm_compute. reflexivity.
  - split; [exact H1|exact H3].
Defined.

(** C2. With a [retries_count] of at least 1 (and within the asserted
    bounds), when [_send_public_request] raises [ClientLoginRequired],
    [ClientNotFoundError] or [ClientBadRequestError] on the first attempt,
    [public_request] makes that one attempt only (the counter goes up by
    one, one request reaches the session), sleeps no retry timeout and
    raises that same error. *)
Theorem C2_terminal_error_single_attempt
    (net : list event -> Request -> transport_result)
    (url : string) (data : option value) (params : option dict)
    (headers : option (list (string * string))) (return_json : bool)
    (retries_count retries_timeout : Z) (c c1 : Client) (e : exn) :
  1 <= retries_count <= 10 -> retries_timeout <= 600 ->
  _send_public_request net url data params headers return_json c = (Raise e, c1) ->
  cls e = ClientLoginRequired \/ cls e = ClientNotFoundError
  \/ cls e = ClientBadRequestError ->
  public_request net url data params headers return_json
                 retries_count retries_timeout c = (Raise e, c1)
  /\ requests_count c1 = requests_count c + 1
  /\ requests_of (trace c1)
     = requests_of (trace c) ++ [request_of url data params headers c]
  /\ sleeps_at retry (trace c1) = sleeps_at retry (trace c).
Proof.
  intros Hrc Hrt Hs He.
  assert (Hstop : stops_retries e = true).
  { unfold stops_retries, isinstance.
    destruct He as [-> | [-> | ->]]; reflexivity. }
  pose proof (send_requests_count net url data params headers return_json c) as Hn.
  pose proof (send_sleeps_at net retry url data params headers return_json c) as Hsl.
  pose proof (send_requests_of net url data params headers return_json c) as Hrq.
  assert (Ht : 0 <= request_timeout c).
  { destruct (Z.ltb_spec (request_timeout c) 0) as [Hneg|]; [|assumption].
    rewrite send_run in Hs. cbv zeta in Hs.
    destruct (Z.eqb_spec (request_timeout c) 0); [lia|].
    destruct (Z.ltb_spec (request_timeout c) 0); [|lia].
    injection Hs as <- _. simpl in He. intuition discriminate. }
  rewrite Hs in Hn, Hsl, Hrq. simpl in Hn, Hsl, Hrq.
  rewrite public_request_run by lia.
  destruct (Z.to_nat retries_count) as [|n] eqn:Hnat; [lia|].
  rewrite (retry_loop_stops net url data params headers return_json
             retries_count retries_timeout 0 n c e c1 Hs (or_introl Hstop)).
  repeat split; auto.
Qed.

(** A 404 on the first of ten attempts. *)
Lemma C2_witness :
  let net := scripted [status_only 404] (ok_json VNone) in
  let run := public_request net "https://www.instagram.com/nobody/" None None
               None true 10 10 fresh in
  (exists e, run.1 = Raise e /\ cls e = ClientNotFoundError)
  /\ requests_count run.2 = 1
  /\ length (requests_of (trace run.2)) = 1%nat
  /\ sleeps_at retry (trace run.2) = [].
Proof.
  intros net run.
  destruct (_send_public_request net "https://www.instagram.com/nobody/" None
              None None true fresh) as [r c1] eqn:Hs.
  assert (Hr : exists e, r = Raise e /\ cls e = ClientNotFoundError).
  { apply (f_equal fst) in Hs. simpl in Hs. subst r.
    eexists. split; [vm_compute; reflexivity|reflexivity]. }
  destruct Hr as (e & -> & He).
  destruct (C2_terminal_error_single_attempt net
              "https://www.instagram.com/nobody/" None None None true 10 10
              fresh c1 e) as (Hrun & Hn & Hrq & Hsl); try lia; auto.
  unfold run. rewrite Hrun. simpl.
  split; [exists e; auto|].
  split; [exact Hn|]. split; [rewrite Hrq; reflexivity|exact Hsl].
Defined.

(** C3. A [ClientConnectionError] whose text carries the SOCKS proxy
    signature is raised to the caller at once, with no retry sleep,
    whatever the number of attempts left.  One without the signature is
    retried: with attempts left the loop sleeps [retries_timeout] and runs
    its remaining iterations, so a second attempt is made; on the last
    attempt the error is raised. *)
Theorem C3_socks_proxy_failure_not_retried
    (net : list event -> Request -> transport_result)
    (url : string) (data : option value) (params : option dict)
    (headers : option (list (string * string))) (return_json : bool)
    (retries_count retries_timeout : Z) (c c1 : Client) (e : exn) :
  1 <= retries_count <= 10 -> retries_timeout <= 600 ->
  _send_public_request net url data params headers return_json c = (Raise e, c1) ->
  cls e = ClientConnectionError ->
  let run := public_request net url data params headers return_json
               retries_count retries_timeout c in
  (socks_proxy_failure e = true ->
     run = (Raise e, c1)
     /\ sleeps_at retry (trace run.2) = sleeps_at retry (trace c))
  /\ (socks_proxy_failure e = false -> 2 <= retries_count ->
      0 <= retries_timeout ->
        let c2 := mkClient (requests_count c1) (public_headers c1)
                    (request_timeout c1)
                    (trace c1 ++ [Ev_sleep retry retries_timeout]) in
        run = retry_loop net url data params headers return_json
                retries_count retries_timeout
                (iterations_from 1 (Z.to_nat retries_count - 1)) c2
        /\ requests_count c + 2 <= requests_count run.2)
  /\ (socks_proxy_failure e = false -> retries_count = 1 ->
        run = (Raise e, c1)).
Proof.
  intros Hrc Hrt Hs He run. subst run.
  rewrite public_request_run by lia.
  pose proof (send_requests_count net url data params headers return_json c) as Hn.
  pose proof (send_sleeps_at net retry url data params headers return_json c) as Hsl.
  rewrite Hs in Hn, Hsl. simpl in Hn, Hsl.
  split; [|split].
  - intros Hsocks.
    destruct (Z.to_nat retries_count) as [|n] eqn:Hnat; [lia|].
    rewrite (retry_loop_stops net url data params headers return_json
               retries_count retries_timeout 0 n c e c1 Hs (or_intror Hsocks)).
    split; [reflexivity|]. apply Hsl. discriminate.
  - intros Hsocks H2 Hsleep c2.
    destruct (Z.to_nat retries_count) as [|[|n]] eqn:Hnat; try lia.
    assert (Htrans : transient e).
    { repeat split; auto; unfold stops_retries, isinstance; rewrite He;
        reflexivity. }
    destruct (retry_loop_retries net url data params headers return_json
                retries_count retries_timeout 0 n c e c1) as [Hloop _];
      auto; try lia.
    rewrite Hloop, sleep_run by lia. simpl.
    replace (S (S n) - 1)%nat with (S n) by lia.
    split; [reflexivity|].
    fold c2.
    assert (Hsecond : requests_count c2 + 1
                      <= requests_count
                           (retry_loop net url data params headers return_json
                              retries_count retries_timeout
                              (iterations_from 1 (S n)) c2).2).
    { rewrite iterations_from_S, retry_loop_cons.
      pose proof (send_requests_count net url data params headers return_json c2)
        as Hn2.
      destruct (_send_public_request net url data params headers return_json c2)
        as [[v|e2] c3]; simpl in Hn2; [simpl; lia|].
      repeat case_match; simpl; try lia.
      rewrite bind_run.
      pose proof (frame_sleep (fun _ => True) retry retries_timeout I c3)
        as (Hq & _).
      destruct (sleep retry retries_timeout c3) as [[[]|e3] c4]; simpl in *;
        [|lia].
      pose proof (frame_retry_loop net (fun _ => True) (fun _ _ => I)
                    (fun _ => I) (fun _ => I) (fun _ => I) (fun _ => I)
                    url data params headers return_json retries_count
                    retries_timeout (iterations_from 2 n) c4) as (Hle & _).
      lia. }
    simpl in Hsecond. simpl. lia.
  - intros Hsocks H1.
    replace (Z.to_nat retries_count) with 1%nat by lia.
    apply retry_loop_gives_up; [lia|exact Hs].
Qed.

(** The proxy failure ends a run of ten attempts after the first; the
    plain failure is followed by a second attempt. *)
Lemma C3_witness :
  (let net := scripted [T_raise socks_failure] (ok_json VNone) in
   let run := public_request net "https://www.instagram.com/" None None None
                true 10 10 fresh in
   (exists e, run.1 = Raise e /\ cls e = ClientConnectionError)
   /\ sleeps_at retry (trace run.2) = [])
  /\ (let net := scripted [T_raise connection_reset] (ok_json VNone) in
      let run := public_request net "https://www.instagram.com/" None None None
                   true 10 10 fresh in
      2 <= requests_count run.2).
Proof.
  split.
  - intros net run.
    destruct (_send_public_request net "https://www.instagram.com/" None None
                None true fresh) as [r c1] eqn:Hs.
    assert (Hr : exists e, r = Raise e /\ cls e = ClientConnectionError
                           /\ socks_proxy_failure e = true).
    { apply (f_equal fst) in Hs. simpl in Hs. subst r.
      eexists. split; [vm_compute; reflexivity|]. split; reflexivity. }
    destruct Hr as (e & -> & He & Hsocks).
    destruct (C3_socks_proxy_failure_not_retried net
                "https://www.instagram.com/" None None None true 10 10
                fresh c1 e) as (Hstop & _); try lia; auto.
    destruct (Hstop Hsocks) as [Hrun Hsl].
    fold run in Hrun, Hsl. rewrite Hrun in *. simpl.
    split; [exists e; auto|exact Hsl].
  - intros net run.
    destruct (_send_public_request net "https://www.instagram.com/" None None
                None true fresh) as [r c1] eqn:Hs.
    assert (Hr : exists e, r = Raise e /\ cls e = ClientConnectionError
                           /\ socks_proxy_failure e = false).
    { apply (f_equal fst) in Hs. simpl in Hs. subst r.
      eexists. split; [vm_compute; reflexivity|]. split; reflexivity. }
    destruct Hr as (e & -> & He & Hsocks).
    destruct (C3_socks_proxy_failure_not_retried net
                "https://www.instagram.com/" None None None true 10 10
                fresh c1 e) as (_ & Hretry & _); try lia; auto.
    destruct (Hretry Hsocks ltac:(lia) ltac:(lia)) as [_ Hn].
    exact Hn.
Defined.

(** C4. Every call of [_send_public_request] adds exactly one to
    [requests_count], whatever its outcome; so a run of [public_request]
    adds one per attempt, that is, one per request handed to the session
    when the configured delay can be slept. *)
Theorem C4_requests_count_incremented
    (net : list event -> Request -> transport_result)
    (url : string) (data : option value) (params : option dict)
    (headers : option (list (string * string))) (return_json : bool)
    (c : Client) :
  requests_count (_send_public_request net url data params headers
                    return_json c).2 = requests_count c + 1
  /\ forall retries_count retries_timeout,
       0 <= request_timeout c ->
       let run := public_request net url data params headers return_json
                    retries_count retries_timeout c in
       exists sent,
         requests_of (trace run.2) = requests_of (trace c) ++ sent
         /\ requests_count run.2 = requests_count c + Z.of_nat (length sent).
Proof.
  split; [apply send_requests_count|].
  intros retries_count retries_timeout Ht run. subst run.
  unfold public_request.
  repeat case_match;
    try (exists []; simpl; rewrite app_nil_r; split; [reflexivity|lia]).
  apply retry_loop_counts, Ht.
Qed.

(** Three attempts, three requests, a count of three. *)
Lemma C4_witness :
  let net := scripted [status_only 429; status_only 500] (ok_json VNone) in
  let run := public_request net "https://www.instagram.com/" None None None
               true 10 10 fresh in
  requests_count run.2 = 3 /\ length (requests_of (trace run.2)) = 3%nat.
Proof.
  intros net run.
  destruct (C4_requests_count_incremented net "https://www.instagram.com/"
              None None None true fresh) as [_ Hrun].
  destruct (Hrun 10 10 ltac:(vm_compute; discriminate)) as (sent & Hsent & Hn).
  fold net in Hsent, Hn. fold run in Hsent, Hn.
  assert (Hlen : length (requests_of (trace run.2)) = 3%nat)
    by (vm_compute; reflexivity).
  split; [|exact Hlen].
  rewrite Hsent in Hlen. simpl in Hlen. rewrite Hn.
  change (requests_count fresh) with 0. lia.
Defined.

(** C5. A response that declares more bytes in [Content-Length] than were
    read makes [_send_public_request] raise [ClientIncompleteReadError],
    and [json()] is not called on it, also when [return_json] is set. *)
Theorem C5_incomplete_read_before_decoding
    (net : list event -> Request -> transport_result)
    (url : string) (data : option value) (params : option dict)
    (headers : option (list (string * string))) (return_json : bool)
    (c : Client) (r : Response) (declared : Z) :
  0 <= request_timeout c ->
  net (trace_at_call c) (request_of url data params headers c) = T_response r ->
  content_length r = CL_int declared ->
  raw_tell r < declared ->
  let run := _send_public_request net url data params headers return_json c in
  (exists e, run.1 = Raise e /\ cls e = ClientIncompleteReadError
             /\ response e = HttpResponse r)
  /\ decodes_of (trace run.2) = decodes_of (trace c).
Proof.
  intros Ht Hnet Hcl Hlen run. subst run.
  rewrite send_run. cbv zeta.
  unfold trace_at_call, request_of in Hnet.
  destruct (Z.eqb_spec (request_timeout c) 0) as [H0|H0];
    [|destruct (Z.ltb_spec (request_timeout c) 0); [lia|]];
    unfold try_send; rewrite bind_run; unfold reify, session_call;
    cbn [trace public_headers]; rewrite Hnet; rewrite try_except_run;
    match goal with
    | |- context [check_and_decode r return_json ?c1] =>
        destruct (check_and_decode_incomplete r return_json declared c1 Hcl Hlen)
          as (e & -> & He & Hr);
        rewrite (handlers_pass_client_error url (Some r) e c1 He)
    end;
    (split; [exists e; auto|]);
    cbn [snd trace]; rewrite !decodes_of_app; simpl; rewrite ?app_nil_r;
    reflexivity.
Qed.

(** Declared 100, read 40, JSON asked for. *)
Lemma C5_witness :
  let r := mkResponse 200 "OK" "https://www.instagram.com/" (CL_int 100) 40
             "{" (inl "Expecting property name") in
  let net := scripted [] (T_response r) in
  let run := _send_public_request net "https://www.instagram.com/" None None
               None true fresh in
  (exists e, run.1 = Raise e /\ cls e = ClientIncompleteReadError
             /\ response e = HttpResponse r)
  /\ decodes_of (trace run.2) = [].
Proof.
  intros r net run.
  apply (C5_incomplete_read_before_decoding net "https://www.instagram.com/"
           None None None true fresh r 100).
  - vm_compute. discriminate.
  - reflexivity.
  - reflexivity.
  - simpl. lia.
Defined.

(** C6, as the code has it.  [public_graphql_request] asserts that at least
    one of [query_id] and [query_hash] is given: a call that gives neither
    raises [AssertionError] and leaves the client untouched, so no request
    is made; a call that gives both is accepted, and its first request
    carries both as parameters. *)
Theorem C6_graphql_needs_one_identifier
    (net : list event -> Request -> transport_result)
    (json_dumps repr_container : value -> string)
    (variables query_hash query_id : value) (data : option value)
    (params : option dict) (headers : option (list (string * string)))
    (c : Client) :
  let run := public_graphql_request net json_dumps repr_container variables
               query_hash query_id data params headers c in
  (truthy query_id = false -> truthy query_hash = false ->
     run = (Raise (mkExn AssertionError
                     "Must provide valid one of: query_id, query_hash"
                     NoResponse), c))
  /\ (truthy query_id = true -> truthy query_hash = true ->
      0 <= request_timeout c ->
      exists rq more sent,
        requests_of (trace run.2) = requests_of (trace c) ++ rq :: more
        /\ req_url rq = GRAPHQL_PUBLIC_API_URL
        /\ req_params rq = Some sent
        /\ dict_get "query_id" sent = Some query_id
        /\ dict_get "query_hash" sent = Some query_hash).
Proof.
  intros run. subst run. unfold public_graphql_request. split.
  - intros -> ->. reflexivity.
  - intros -> -> Ht. cbn [orb negb].
    set (sent := merge_params params _).
    destruct (public_request_first_request net GRAPHQL_PUBLIC_API_URL data
                (Some sent) headers true 10 10 c) as (more & Hfirst);
      try lia.
    set (rq := request_of GRAPHQL_PUBLIC_API_URL data (Some sent) headers c)
      in Hfirst.
    match goal with
    | |- context [try_except (bind ?m ?k) ?h c] =>
        assert (Hg : grows (fun _ => True) (m c).2 (try_except (bind m k) h c).2);
        [transitivity (bind m k c).2;
         [apply (after_bind (grows (fun _ => True)))
         |apply (after_try_except (grows (fun _ => True)))]|]
    end.
    { intros body. frames;
        first [apply frame_value_get | apply frame_getitem]. }
    { intros e. frames. apply frame_bad_request_handler; auto. }
    destruct (grows_requests_of _ _ _ Hg) as (more' & Hmore).
    exists rq, (more ++ more'), sent.
    rewrite Hmore, Hfirst, <- app_assoc. split; [reflexivity|].
    split; [reflexivity|]. split; [reflexivity|].
    apply merge_params_both.
Qed.

(** Against "supplying both faults": a call that gives both a query hash
    and a query id does not fault; it sends one request and returns the
    data of the reply. *)
Lemma C6_both_identifiers_accepted :
  let run := public_graphql_request graphql_ok (fun _ => "{}") (fun _ => "")
               (VDict []) (VStr "e74d51c10ecc0fe6250a295b9bb9db74")
               (VStr "17888483320059182") None None None fresh in
  run.1 = Ok (VDict [("user", VNone)])
  /\ length (requests_of (trace run.2)) = 1%nat.
Proof. vm_compute. split; reflexivity. Qed.

(** Neither identifier: the assertion fails and nothing is sent.  Both:
    the request goes out with both. *)
Lemma C6_witness :
  (public_graphql_request graphql_ok (fun _ => "{}") (fun _ => "")
     (VDict []) VNone (VStr "") None None None fresh).1
  = Raise (mkExn AssertionError
             "Must provide valid one of: query_id, query_hash" NoResponse)
  /\ exists rq more sent,
       requests_of
         (trace (public_graphql_request graphql_ok (fun _ => "{}") (fun _ => "")
                   (VDict []) (VStr "e74d51c10ecc0fe6250a295b9bb9db74")
                   (VStr "17888483320059182") None None None fresh).2)
       = rq :: more
       /\ req_params rq = Some sent
       /\ dict_get "query_id" sent = Some (VStr "17888483320059182")
       /\ dict_get "query_hash" sent
          = Some (VStr "e74d51c10ecc0fe6250a295b9bb9db74").
Proof.
  split.
  - destruct (C6_graphql_needs_one_identifier graphql_ok (fun _ => "{}")
                (fun _ => "") (VDict []) VNone (VStr "") None None None fresh)
      as [Hneither _].
    rewrite Hneither by reflexivity. reflexivity.
  - destruct (C6_graphql_needs_one_identifier graphql_ok (fun _ => "{}")
                (fun _ => "") (VDict [])
                (VStr "e74d51c10ecc0fe6250a295b9bb9db74")
                (VStr "17888483320059182") None None None fresh)
      as [_ Hboth].
    destruct Hboth as (rq & more & sent & Hreq & _ & Hp & Hid & Hhash);
      try reflexivity.
    { vm_compute. discriminate. }
    exists rq, more, sent. auto.
Defined.

(** C7. [hashtag_feed(hashtag, count, sleep)] fetches pages of
    [hashtag_info], each from the cursor of the page before, until the
    edges collected number [count] or more or a page reports no next page;
    it sleeps [sleep] between two pages, and returns the first [count] of
    the collected edges: at most [count], and exactly [count] when that many
    were collected.  The loop has no bound of its
    own: any fuel that covers the pages gives the result.  With
    [count = 10], a page of 8 edges that has a next page and a page of 5
    that has none, the result has exactly 10 edges. *)
Theorem C7_hashtag_feed_paginates_and_truncates
    (net : list event -> Request -> transport_result)
    (repr_container : value -> string) (hashtag : string)
    (count sleep_time : Z) (c : Client)
    (all : list value) (pages : nat) (c' : Client) :
  0 <= sleep_time -> 0 <= count ->
  paginates net repr_container hashtag count sleep_time VNone [] c all pages c' ->
  (forall fuel, (pages <= fuel)%nat ->
     HashtagPublic.hashtag_feed net repr_container fuel hashtag count
                                sleep_time c
     = Some (Ok (take (Z.to_nat count) all), c'))
  /\ sleeps_at pagination (trace c')
     = sleeps_at pagination (trace c) ++ replicate (pages - 1) sleep_time
  /\ Z.of_nat (length (take (Z.to_nat count) all)) <= count
  /\ (count <= Z.of_nat (length all) ->
      Z.of_nat (length (take (Z.to_nat count) all)) = count)
  /\ exists edges c2,
       HashtagPublic.hashtag_feed two_pages (fun _ => "") 2 "x" 10 2 fresh
       = Some (Ok edges, c2)
       /\ length edges = 10%nat
       /\ sleeps_at pagination (trace c2) = [2].
Proof.
  intros Hsleep Hcount Hpages.
  destruct (hashtag_feed_loop_paginates net repr_container hashtag count
              sleep_time VNone [] c all pages c' Hsleep Hpages)
    as [Hrun Hsleeps].
  assert (Hslice : HashtagPublic.slice_to all count = take (Z.to_nat count) all).
  { unfold HashtagPublic.slice_to. destruct (Z.leb_spec 0 count); [reflexivity|lia]. }
  split; [|split; [exact Hsleeps|split; [|split]]].
  - intros fuel Hfuel. unfold HashtagPublic.hashtag_feed.
    rewrite (Hrun fuel Hfuel), Hslice. reflexivity.
  - rewrite <- Hslice. apply slice_to_length, Hcount.
  - intros Henough. rewrite <- Hslice. apply slice_to_exact. lia.
  - do 2 eexists. split; [vm_compute; reflexivity|].
    split; vm_compute; reflexivity.
Qed.

(** The two pages of [two_pages], fetched with [count = 10] and a sleep
    of 2 between them. *)
Lemma C7_witness :
  exists edges c',
    HashtagPublic.hashtag_feed two_pages (fun _ => "") 7 "x" 10 2 fresh
    = Some (Ok edges, c')
    /\ Z.of_nat (length edges) <= 10
    /\ sleeps_at pagination (trace c') = [2].
Proof.
  edestruct (C7_hashtag_feed_paginates_and_truncates two_pages (fun _ => "")
               "x" 10 2 fresh) as (Hrun & Hsleeps & Hlen & _ & _); try lia.
  - eapply paginates_more.
    + vm_compute. reflexivity.
    + do 3 eexists. repeat split; reflexivity.
    + reflexivity.
    + simpl. lia.
    + eapply paginates_last.
      * vm_compute. reflexivity.
      * do 3 eexists. repeat split; reflexivity.
      * left. reflexivity.
  - do 2 eexists. split; [apply Hrun; lia|].
    split; [exact Hlen|exact Hsleeps].
Defined.

(** C8, as the code has it.  With a session that gives responses declaring
    an integer [Content-Length] and fails only with the [ConnectionError]
    of [requests], and delays that are not negative, every failure
    [public_request] raises under its asserted bounds is a [ClientError] or
    a subclass.  So are the failures of [public_a1_request] when every JSON
    body has the envelope of the legacy endpoint, and of
    [public_graphql_request], given an identifier, when every JSON body has
    the GraphQL envelope; a body of a bad request that does not decode is
    passed over and the error is still the typed [ClientGraphqlError]. *)
Theorem C8_failures_are_typed
    (net : list event -> Request -> transport_result)
    (json_dumps repr_container : value -> string) (c : Client) :
  well_behaved net -> 0 <= request_timeout c ->
  (forall url data params headers return_json retries_count retries_timeout
          e c',
     retries_count <= 10 -> 0 <= retries_timeout <= 600 ->
     public_request net url data params headers return_json retries_count
                    retries_timeout c = (Raise e, c') ->
     typed e)
  /\ (bodies_satisfy net a1_envelope ->
      forall endpoint data params headers e c',
        public_a1_request net repr_container endpoint data params headers c
        = (Raise e, c') ->
        typed e)
  /\ (bodies_satisfy net graphql_envelope ->
      forall variables query_hash query_id data params headers e c',
        truthy query_id || truthy query_hash = true ->
        public_graphql_request net json_dumps repr_container variables
                               query_hash query_id data params headers c
        = (Raise e, c') ->
        typed e).
Proof.
  intros Hnet Ht. split; [|split].
  - intros url data params headers return_json retries_count retries_timeout
           e c' Hrc Hrt Hrun.
    eapply (public_request_raises net Hnet); [| | |exact Hrun]; lia.
  - intros Hbodies endpoint data params headers e c' Hrun.
    eapply public_a1_request_raises; eauto.
  - intros Hbodies variables query_hash query_id data params headers e c'
           Hid Hrun.
    eapply public_graphql_request_raises; eauto.
Qed.

(** Against "no untyped exception escapes": a [retries_count] of 11 makes
    [public_request] raise [AssertionError]; an exception of the session
    that is no [ConnectionError] passes through [public_request] as it is;
    and [public_a1_request] raises the [KeyError] again when the body has
    neither [graphql] nor the [generic_request_error] diagnostic. *)
Lemma C8_untyped_failures_escape :
  (exists e,
     (public_request graphql_ok "https://www.instagram.com/" None None None
                     false 11 10 fresh).1 = Raise e
     /\ cls e = AssertionError /\ ~ typed e)
  /\ (exists e,
        (public_request (scripted [] (T_raise read_timeout))
                        "https://www.instagram.com/" None None None
                        false 10 10 fresh).1 = Raise e
        /\ cls e = OtherException "ReadTimeout" /\ ~ typed e)
  /\ (exists e,
        (public_a1_request (scripted [] (ok_json (VDict []))) (fun _ => "")
                           "/explore/tags/x/" None None None fresh).1 = Raise e
        /\ cls e = KeyError /\ ~ typed e).
Proof.
  repeat split; eexists; (split; [vm_compute; reflexivity|]);
    (split; [reflexivity|discriminate]).
Qed.

(** A 403 on both of two attempts, and a GraphQL reply with status [fail]:
    the failures are typed. *)
Lemma C8_witness :
  (exists e,
     (public_request (scripted [] (status_only 403))
                     "https://www.instagram.com/" None None None true 2 0
                     fresh).1 = Raise e
     /\ typed e)
  /\ (exists e,
        (public_graphql_request graphql_fail (fun _ => "{}") (fun _ => "")
           (VDict []) (VStr "e74d51c10ecc0fe6250a295b9bb9db74") VNone
           None None None fresh).1 = Raise e
        /\ typed e).
Proof.
  split.
  - destruct (public_request (scripted [] (status_only 403))
                "https://www.instagram.com/" None None None true 2 0 fresh)
      as [[v|e] c'] eqn:Hrun; [vm_compute in Hrun; discriminate|].
    exists e. split; [reflexivity|].
    destruct (C8_failures_are_typed (scripted [] (status_only 403))
                (fun _ => "{}") (fun _ => "") fresh) as (Hreq & _).
    + intros tr rq. unfold graphql_fail, scripted.
      destruct (length (requests_of tr)); simpl; eauto.
    + vm_compute. discriminate.
    + eapply Hreq; [| |exact Hrun]; lia.
  - destruct (public_graphql_request graphql_fail (fun _ => "{}") (fun _ => "")
                (VDict []) (VStr "e74d51c10ecc0fe6250a295b9bb9db74") VNone
                None None None fresh) as [[v|e] c'] eqn:Hrun;
      [vm_compute in Hrun; discriminate|].
    exists e. split; [reflexivity|].
    destruct (C8_failures_are_typed graphql_fail (fun _ => "{}") (fun _ => "")
                fresh) as (_ & _ & Hgql).
    + intros tr rq. unfold graphql_fail, scripted.
      destruct (length (requests_of tr)); simpl; eauto.
    + vm_compute. discriminate.
    + eapply Hgql; only 3: exact Hrun; only 2: reflexivity.
      intros tr rq r v Hr Hv. unfold graphql_fail, scripted in Hr.
      destruct (length (requests_of tr)); simpl in Hr;
        injection Hr as <-; simpl in Hv; injection Hv as <-;
        (eexists; split; [reflexivity|]; discriminate).
Defined.

(** C9, as the code has it.  The five default headers are on the session
    from construction on.  A call of [public_request] sends every one of
    its requests with the session headers as updated by its [headers]
    argument: a name the argument gives has the argument's value, any other
    name keeps the session's value.  The update stays on the session, so
    the call leaves the session headers as it sent them, and a later call
    made without a [headers] argument sends those, not the defaults of the
    constructor. *)
Theorem C9_per_call_headers_persist
    (net : list event -> Request -> transport_result)
    (url : string) (data : option value) (params : option dict)
    (headers : option (list (string * string))) (return_json : bool)
    (retries_count retries_timeout : Z) (c : Client)
    (session_headers : gmap string string) (timeout : option Z) :
  1 <= retries_count <= 10 -> retries_timeout <= 600 ->
  0 <= request_timeout c ->
  let run := public_request net url data params headers return_json
               retries_count retries_timeout c in
  let used := merged_headers headers (public_headers c) in
  Forall (fun kv => public_headers (init session_headers timeout) !! lower kv.1
                    = Some kv.2) default_headers
  /\ (exists rq more,
        requests_of (trace run.2) = requests_of (trace c) ++ rq :: more
        /\ Forall (fun rq => req_headers rq = used) (rq :: more))
  /\ public_headers run.2 = used
  /\ (forall name,
        used !! name
        = match headers_update ∅ (default [] headers) !! name with
          | Some v => Some v
          | None => public_headers c !! name
          end).
Proof.
  intros Hrc Hrt Ht run used. subst run used.
  split; [|split; [|split]].
  - apply init_default_headers.
  - rewrite public_request_run by lia.
    destruct (retry_loop_headers net url data params headers return_json
                retries_count retries_timeout
                (iterations_from 0 (Z.to_nat retries_count)) c Ht)
      as (sent & Hsent & Hall & _).
    destruct (public_request_first_request net url data params headers
                return_json retries_count retries_timeout c Hrc Hrt Ht)
      as (more & Hfirst).
    rewrite public_request_run in Hfirst by lia.
    rewrite Hfirst in Hsent. apply app_inv_head in Hsent. subst sent.
    rewrite Hfirst. eauto.
  - rewrite public_request_run by lia.
    destruct (retry_loop_headers net url data params headers return_json
                retries_count retries_timeout
                (iterations_from 0 (Z.to_nat retries_count)) c Ht)
      as (sent & Hsent & _ & Hfinal).
    destruct (public_request_first_request net url data params headers
                return_json retries_count retries_timeout c Hrc Hrt Ht)
      as (more & Hfirst).
    rewrite public_request_run in Hfirst by lia.
    rewrite Hfirst in Hsent. apply app_inv_head in Hsent. subst sent.
    exact Hfinal.
  - apply merged_headers_lookup.
Qed.

(** Against "a per-call headers argument affects only that call": after a
    call that overrides [User-Agent], a call made without a [headers]
    argument still sends the override, not the [User-Agent] of the
    constructor. *)
Lemma C9_later_call_keeps_override :
  let net := scripted [] (ok_json VNone) in
  let first := public_request net "https://www.instagram.com/" None None
                 (Some [("User-Agent", "curl/8.0")]) false 10 10 fresh in
  let later := public_request net "https://www.instagram.com/" None None
                 None false 10 10 first.2 in
  (fun rq => req_headers rq !! "user-agent") <$> requests_of (trace later.2)
  = [Some "curl/8.0"; Some "curl/8.0"]
  /\ public_headers fresh !! "user-agent"
     = Some "Mozilla/5.0 (Macintosh; Intel Mac OS X 10_13_6) AppleWebKit/605.1.15 (KHTML, like Gecko) Version/11.1.2 Safari/605.1.15".
Proof. vm_compute. split; reflexivity. Qed.

(** A call that overrides [User-Agent]: its request carries the override
    and the other defaults, and the session keeps the override. *)
Lemma C9_witness :
  let net := scripted [] (ok_json VNone) in
  let run := public_request net "https://www.instagram.com/" None None
               (Some [("User-Agent", "curl/8.0")]) false 10 10 fresh in
  public_headers run.2 !! "user-agent" = Some "curl/8.0"
  /\ public_headers run.2 !! "accept-language" = Some "en-US".
Proof.
  intros net run.
  destruct (C9_per_call_headers_persist net "https://www.instagram.com/" None
              None (Some [("User-Agent", "curl/8.0")]) false 10 10 fresh
              ∅ None) as (_ & _ & Hkept & Hlookup); try lia.
  { vm_compute. discriminate. }
  fold net in Hkept. fold run in Hkept. rewrite Hkept, !Hlookup.
  split; reflexivity.
Defined.

(** C10. With [retries_count = 0] (and a [retries_timeout] within its
    bound) the loop body never runs: the client is left as it was, so no
    attempt was made, nothing is raised and the result is [None]. *)
Theorem C10_zero_retries_returns_none
    (net : list event -> Request -> transport_result)
    (url : string) (data : option value) (params : option dict)
    (headers : option (list (string * string))) (return_json : bool)
    (retries_timeout : Z) (c : Client) :
  retries_timeout <= 600 ->
  public_request net url data params headers return_json 0 retries_timeout c
  = (Ok VNone, c).
Proof.
  intros Ht. rewrite public_request_run by lia. reflexivity.
Qed.

Lemma C10_witness :
  public_request (scripted [] (ok_json VNone)) "https://www.instagram.com/"
                 None None None true 0 10 fresh
  = (Ok VNone, fresh).
Proof. apply C10_zero_retries_returns_none. lia. Defined.

(** * Further properties of the code *)

(** ** Outcomes of a single attempt *)

Section Attempt.
Variable net : list event -> Request -> transport_result.
Variables (url : string) (data : option value) (params : option dict)
          (headers : option (list (string * string))).

Local Abbreviation send := (_send_public_request net url data params headers).
Local Abbreviation after := (attempted url data params headers).

Lemma send_response_run return_json c r :
  0 <= request_timeout c ->
  net (trace_at_call c) (request_of url data params headers c) = T_response r ->
  send return_json c
  = try_except (check_and_decode r return_json)
               (handlers url (Some r)) (after [] c).
Proof.
  intros Ht Hnet. rewrite send_run. cbv zeta.
  unfold trace_at_call, request_of, attempted, trace_at_call in *.
  destruct (Z.eqb_spec (request_timeout c) 0) as [H0|H0];
    [|destruct (Z.ltb_spec (request_timeout c) 0); [lia|]];
    unfold try_send; rewrite bind_run; unfold reify, session_call;
    cbn [trace public_headers requests_count request_timeout];
    rewrite Hnet; reflexivity.
Qed.

Lemma send_raise_run return_json c e :
  0 <= request_timeout c ->
  net (trace_at_call c) (request_of url data params headers c) = T_raise e ->
  send return_json c = handlers url None e (after [] c).
Proof.
  intros Ht Hnet. rewrite send_run. cbv zeta.
  unfold trace_at_call, request_of, attempted, trace_at_call in *.
  destruct (Z.eqb_spec (request_timeout c) 0) as [H0|H0];
    [|destruct (Z.ltb_spec (request_timeout c) 0); [lia|]];
    unfold try_send; rewrite bind_run; unfold reify, session_call;
    cbn [trace public_headers requests_count request_timeout];
    rewrite Hnet; reflexivity.
Qed.

Lemma after_app evs evs' c :
  mkClient (requests_count (after evs c)) (public_headers (after evs c))
           (request_timeout (after evs c)) (trace (after evs c) ++ evs')
  = after (evs ++ evs') c.
Proof.
  unfold attempted. cbn [requests_count public_headers request_timeout trace].
  f_equal. rewrite <- app_assoc. reflexivity.
Qed.

Lemma check_and_decode_complete r return_json c :
  complete r ->
  check_and_decode r return_json c
  = (raise_for_status r >>
     if return_json then response_json r else ret (VStr (text r)))
      (mkClient (requests_count c) (public_headers c) (request_timeout c)
                (trace c ++ logged r)).
Proof.
  intros (n & Hcl & Hn). unfold check_and_decode, int_content_length.
  rewrite Hcl, bind_run. unfold ret at 1.
  destruct (Z.ltb_spec (raw_tell r) n); [lia|].
  unfold logged, bind at 1 2, emit.
  cbn [requests_count public_headers request_timeout trace].
  rewrite <- app_assoc. reflexivity.
Qed.

Lemma raise_for_status_error r c :
  error_status r = true ->
  exists msg,
    raise_for_status r c = (Raise (mkExn HTTPError msg (HttpResponse r)), c).
Proof.
  unfold error_status, raise_for_status. intros Hs.
  destruct ((400 <=? status_code r) && (status_code r <? 500)) eqn:H4;
    [eexists; reflexivity|].
  destruct ((500 <=? status_code r) && (status_code r <? 600)) eqn:H5;
    [eexists; reflexivity|].
  exfalso. apply andb_true_iff in Hs as [Ha Hb].
  apply andb_false_iff in H4. apply andb_false_iff in H5.
  rewrite ?Z.leb_le, ?Z.leb_gt, ?Z.ltb_lt, ?Z.ltb_ge in *. lia.
Qed.

Lemma raise_for_status_ok r c :
  error_status r = false -> raise_for_status r c = (Ok tt, c).
Proof.
  unfold error_status, raise_for_status. intros Hs.
  destruct ((400 <=? status_code r) && (status_code r <? 500)) eqn:H4.
  { exfalso. apply andb_true_iff in H4 as [Ha Hb].
    apply andb_false_iff in Hs.
    rewrite ?Z.leb_le, ?Z.leb_gt, ?Z.ltb_lt, ?Z.ltb_ge in *. lia. }
  destruct ((500 <=? status_code r) && (status_code r <? 600)) eqn:H5;
    [|reflexivity].
  exfalso. apply andb_true_iff in H5 as [Ha Hb].
  apply andb_false_iff in Hs.
  rewrite ?Z.leb_le, ?Z.leb_gt, ?Z.ltb_lt, ?Z.ltb_ge in *. lia.
Qed.

(** A complete response with an error status. *)
Lemma send_error_status return_json c r :
  0 <= request_timeout c ->
  net (trace_at_call c) (request_of url data params headers c) = T_response r ->
  complete r -> error_status r = true ->
  exists msg,
    send return_json c
    = handlers url (Some r) (mkExn HTTPError msg (HttpResponse r))
               (after (logged r) c).
Proof.
  intros Ht Hnet Hc Hs.
  rewrite (send_response_run _ _ _ Ht Hnet), try_except_run.
  rewrite (check_and_decode_complete _ _ _ Hc), bind_run.
  destruct (raise_for_status_error r
              (mkClient (requests_count (after [] c))
                 (public_headers (after [] c)) (request_timeout (after [] c))
                 (trace (after [] c) ++ logged r)) Hs) as (msg & ->).
  exists msg. rewrite after_app. reflexivity.
Qed.

(** A complete response with another status, read as text. *)
Lemma send_text c r :
  0 <= request_timeout c ->
  net (trace_at_call c) (request_of url data params headers c) = T_response r ->
  complete r -> error_status r = false ->
  send false c = (Ok (VStr (text r)), after (logged r) c).
Proof.
  intros Ht Hnet Hc Hs.
  rewrite (send_response_run _ _ _ Ht Hnet), try_except_run.
  rewrite (check_and_decode_complete _ _ _ Hc), bind_run.
  rewrite (raise_for_status_ok _ _ Hs), after_app. reflexivity.
Qed.

(** A complete response with another status, decoded. *)
Lemma send_json c r :
  0 <= request_timeout c ->
  net (trace_at_call c) (request_of url data params headers c) = T_response r ->
  complete r -> error_status r = false ->
  send true c
  = match json_body r with
    | inr v => (Ok v, after (logged r ++ [Ev_json r]) c)
    | inl msg =>
        handlers url (Some r) (mkExn JSONDecodeError msg NoResponse)
                 (after (logged r ++ [Ev_json r]) c)
    end.
Proof.
  intros Ht Hnet Hc Hs.
  rewrite (send_response_run _ _ _ Ht Hnet), try_except_run.
  rewrite (check_and_decode_complete _ _ _ Hc), bind_run.
  rewrite (raise_for_status_ok _ _ Hs), after_app.
  unfold response_json. rewrite bind_run. unfold emit at 1.
  rewrite after_app. destruct (json_body r); reflexivity.
Qed.

End Attempt.

(** ** More on the retry loop *)

Section RetryBounds.
Variable net : list event -> Request -> transport_result.
Variables (url : string) (data : option value) (params : option dict)
          (headers : option (list (string * string))) (return_json : bool).
Variables retries_count retries_timeout : Z.

Local Abbreviation send := (_send_public_request net url data params headers return_json).
Local Abbreviation loop :=
  (retry_loop net url data params headers return_json retries_count retries_timeout).
Local Abbreviation before :=
  (before_attempt net url data params headers return_json retries_timeout).

(** An error that is no [ClientError] leaves the loop at once. *)
Lemma retry_loop_propagates i n c e c1 :
  send c = (Raise e, c1) ->
  isinstance e ClientError = false ->
  loop (iterations_from i (S n)) c = (Raise e, c1).
Proof.
  intros Hs He. rewrite iterations_from_S, retry_loop_cons, Hs, He.
  destruct (stops_retries e); reflexivity.
Qed.

(** Every iteration fails with a transient error: the last one is raised. *)
Lemma retry_loop_exhausted n :
  forall i c,
    Z.of_nat (i + S n) = retries_count ->
    0 <= retries_timeout ->
    (forall j, (j <= n)%nat ->
               exists e, (send (before j c)).1 = Raise e /\ transient e) ->
    loop (iterations_from i (S n)) c = send (before n c)
    /\ sleeps_at retry (trace (send (before n c)).2)
       = sleeps_at retry (trace c) ++ replicate n retries_timeout
    /\ requests_count (send (before n c)).2
       = requests_count c + Z.of_nat (S n).
Proof.
  induction n as [|n IH]; intros i c Hrc Ht Hfail.
  - destruct (Hfail O) as (e & He & _); [lia|]. simpl in He |- *.
    pose proof (send_sleeps_at net retry url data params headers return_json c)
      as Hsl.
    pose proof (send_requests_count net url data params headers return_json c)
      as Hn.
    destruct (send c) as [r c1] eqn:Hs. simpl in He. subst r.
    split; [apply retry_loop_gives_up; [lia|exact Hs]|].
    simpl in *. rewrite app_nil_r. split; [apply Hsl; discriminate|lia].
  - destruct (Hfail O) as (e & He & Htrans); [lia|]. simpl in He.
    pose proof (send_sleeps_at net retry url data params headers return_json c)
      as Hsl.
    pose proof (send_requests_count net url data params headers return_json c)
      as Hn.
    destruct (send c) as [r c1] eqn:Hs. simpl in He, Hsl, Hn. subst r.
    destruct (retry_loop_retries net url data params headers return_json
                retries_count retries_timeout i n c e c1) as [Hloop Htrace];
      auto.
    assert (Hnext : next_attempt net url data params headers return_json
                      retries_timeout c = (sleep retry retries_timeout c1).2).
    { unfold next_attempt. rewrite Hs. reflexivity. }
    simpl before_attempt in *. rewrite Hnext in *.
    destruct (IH (S i) (sleep retry retries_timeout c1).2)
      as (Hres & Hsleeps & Hcount); auto; try lia.
    { intros j Hj. specialize (Hfail (S j) ltac:(lia)). simpl in Hfail.
      rewrite Hnext in Hfail. exact Hfail. }
    split; [rewrite Hloop; exact Hres|].
    split.
    + rewrite Hsleeps, Htrace, sleeps_at_app, Hsl by discriminate.
      rewrite <- app_assoc. reflexivity.
    + rewrite Hcount, sleep_run by assumption. simpl. lia.
Qed.

(** The loop makes at most one attempt per iteration. *)
Lemma retry_loop_attempts iterations :
  forall c,
    requests_count c
    <= requests_count (loop iterations c).2
    <= requests_count c + Z.of_nat (length iterations).
Proof.
  induction iterations as [|iteration rest IH]; intros c.
  - simpl. lia.
  - rewrite retry_loop_cons.
    pose proof (send_requests_count net url data params headers return_json c)
      as Hn.
    destruct (send c) as [[v|e] c1]; simpl in Hn; simpl length;
      [simpl; lia|].
    repeat case_match; simpl; try lia.
    rewrite bind_run. unfold sleep.
    destruct (retries_timeout <? 0); [simpl; lia|]. simpl.
    match goal with
    | |- context [loop rest ?c2] => specialize (IH c2); simpl in IH
    end.
    lia.
Qed.

(** No sleep follows the last iteration. *)
Lemma retry_loop_sleeps n :
  forall i c,
    Z.of_nat (i + n) = retries_count ->
    exists slept,
      sleeps_at retry (trace (loop (iterations_from i n) c).2)
      = sleeps_at retry (trace c) ++ replicate slept retries_timeout
      /\ (slept <= n - 1)%nat.
Proof.
  induction n as [|n IH]; intros i c Hrc.
  - exists O. simpl. rewrite app_nil_r. split; [reflexivity|lia].
  - rewrite iterations_from_S, retry_loop_cons.
    pose proof (send_sleeps_at net retry url data params headers return_json c)
      as Hsl.
    destruct (send c) as [[v|e] c1]; simpl in Hsl.
    { exists O. simpl. rewrite app_nil_r. split; [apply Hsl; discriminate|lia]. }
    destruct (stops_retries e);
      [exists O; simpl; rewrite app_nil_r;
       split; [apply Hsl; discriminate|lia]|].
    destruct (isinstance e ClientError);
      [|exists O; simpl; rewrite app_nil_r;
        split; [apply Hsl; discriminate|lia]].
    destruct (socks_proxy_failure e);
      [exists O; simpl; rewrite app_nil_r;
       split; [apply Hsl; discriminate|lia]|].
    destruct (Z.gtb_spec retries_count (Z.of_nat i + 1));
      [|exists O; simpl; rewrite app_nil_r;
        split; [apply Hsl; discriminate|lia]].
    rewrite bind_run. unfold sleep.
    destruct (retries_timeout <? 0);
      [exists O; simpl; rewrite app_nil_r;
       split; [apply Hsl; discriminate|lia]|].
    simpl.
    match goal with
    | |- context [loop _ ?c2] =>
        destruct (IH (S i) c2) as (slept & Hslept & Hle); [lia|]
    end.
    exists (S slept). rewrite Hslept. simpl. rewrite sleeps_at_app.
    rewrite Hsl by discriminate. rewrite <- app_assoc.
    split; [reflexivity|lia].
Qed.

End RetryBounds.

(** ** Bounds and retries of [public_request] *)

(** X1. [public_request] checks its two bounds before anything else, the
    count first: a [retries_count] above 10, or else a [retries_timeout]
    above 600, raises [AssertionError] and leaves the client as it was.  A
    [retries_count] of zero or less (with the timeout in bounds) runs no
    attempt and returns [None]. *)
Theorem X1_public_request_bounds
    (net : list event -> Request -> transport_result)
    (url : string) (data : option value) (params : option dict)
    (headers : option (list (string * string))) (return_json : bool)
    (retries_count retries_timeout : Z) (c : Client) :
  let run := public_request net url data params headers return_json
               retries_count retries_timeout c in
  (10 < retries_count ->
     run = (Raise (mkExn AssertionError "Retries count is too high" NoResponse), c))
  /\ (retries_count <= 10 -> 600 < retries_timeout ->
      run = (Raise (mkExn AssertionError "Retries timeout is too high"
                          NoResponse), c))
  /\ (retries_count <= 0 -> retries_timeout <= 600 -> run = (Ok VNone, c)).
Proof.
  intros run. subst run. unfold public_request. repeat split.
  - intros H. destruct (Z.leb_spec retries_count 10); [lia|reflexivity].
  - intros H1 H2. destruct (Z.leb_spec retries_count 10); [|lia].
    destruct (Z.leb_spec retries_timeout 600); [lia|reflexivity].
  - intros H1 H2. destruct (Z.leb_spec retries_count 10); [|lia].
    destruct (Z.leb_spec retries_timeout 600); [|lia].
    unfold range. replace (Z.to_nat retries_count) with O by lia. reflexivity.
Qed.

Lemma X1_witness :
  (public_request graphql_ok "https://www.instagram.com/" None None None
                  false 11 601 fresh).1
  = Raise (mkExn AssertionError "Retries count is too high" NoResponse)
  /\ (public_request graphql_ok "https://www.instagram.com/" None None None
                     false 10 601 fresh).1
     = Raise (mkExn AssertionError "Retries timeout is too high" NoResponse)
  /\ public_request graphql_ok "https://www.instagram.com/" None None None
                    false (-1) 10 fresh = (Ok VNone, fresh).
Proof.
  split; [|split].
  - destruct (X1_public_request_bounds graphql_ok "https://www.instagram.com/"
                None None None false 11 601 fresh) as (H & _ & _).
    rewrite H by lia. reflexivity.
  - destruct (X1_public_request_bounds graphql_ok "https://www.instagram.com/"
                None None None false 10 601 fresh) as (_ & H & _).
    rewrite H by lia. reflexivity.
  - destruct (X1_public_request_bounds graphql_ok "https://www.instagram.com/"
                None None None false (-1) 10 fresh) as (_ & _ & H).
    apply H; lia.
Defined.

(** X2. When every one of the [retries_count] attempts fails with a
    transient error, [public_request] raises the error of the last attempt,
    having made [retries_count] attempts and slept [retries_timeout] between
    them, [retries_count - 1] times: no sleep follows the last failure. *)
Theorem X2_retries_exhausted
    (net : list event -> Request -> transport_result)
    (url : string) (data : option value) (params : option dict)
    (headers : option (list (string * string))) (return_json : bool)
    (retries_count retries_timeout : Z) (c : Client) :
  1 <= retries_count <= 10 -> 0 <= retries_timeout <= 600 ->
  (forall j, Z.of_nat j < retries_count ->
     exists e,
       (_send_public_request net url data params headers return_json
          (before_attempt net url data params headers return_json
                          retries_timeout j c)).1 = Raise e
       /\ transient e) ->
  let run := public_request net url data params headers return_json
               retries_count retries_timeout c in
  run = _send_public_request net url data params headers return_json
          (before_attempt net url data params headers return_json
             retries_timeout (Z.to_nat retries_count - 1) c)
  /\ (exists e, run.1 = Raise e /\ transient e)
  /\ requests_count run.2 = requests_count c + retries_count
  /\ sleeps_at retry (trace run.2)
     = sleeps_at retry (trace c)
       ++ replicate (Z.to_nat retries_count - 1) retries_timeout.
Proof.
  intros Hrc Hrt Hfail run. subst run.
  rewrite public_request_run by lia.
  destruct (Z.to_nat retries_count) as [|n] eqn:Hn; [lia|].
  replace (S n - 1)%nat with n by lia.
  destruct (retry_loop_exhausted net url data params headers return_json
              retries_count retries_timeout n 0 c) as (Hrun & Hsl & Hcnt);
    try lia.
  { intros j Hj. apply Hfail. lia. }
  rewrite Hrun. split; [reflexivity|].
  split; [apply Hfail; lia|]. split; [rewrite Hcnt; lia|exact Hsl].
Qed.

(** Three attempts against a service that keeps answering 429. *)
Lemma X2_witness :
  let run := public_request (scripted [] (status_only 429))
               "https://www.instagram.com/" None None None true 3 5 fresh in
  (exists e, run.1 = Raise e /\ transient e)
  /\ requests_count run.2 = 3
  /\ sleeps_at retry (trace run.2) = [5; 5].
Proof.
  intros run.
  destruct (X2_retries_exhausted (scripted [] (status_only 429))
              "https://www.instagram.com/" None None None true 3 5 fresh)
    as (_ & He & Hn & Hsl); try lia.
  - intros [|[|[|j]]] Hj; try lia; eexists;
      (split; [vm_compute; reflexivity|]); repeat split; vm_compute; reflexivity.
  - split; [exact He|]. split; [exact Hn|exact Hsl].
Defined.

(** X3. An exception of an attempt that is no [ClientError] is not
    retried: [public_request] raises it after that one attempt, without a
    retry sleep, whatever the number of attempts allowed. *)
Theorem X3_other_exceptions_not_retried
    (net : list event -> Request -> transport_result)
    (url : string) (data : option value) (params : option dict)
    (headers : option (list (string * string))) (return_json : bool)
    (retries_count retries_timeout : Z) (c c1 : Client) (e : exn) :
  1 <= retries_count <= 10 -> retries_timeout <= 600 ->
  _send_public_request net url data params headers return_json c = (Raise e, c1) ->
  isinstance e ClientError = false ->
  public_request net url data params headers return_json
                 retries_count retries_timeout c = (Raise e, c1)
  /\ requests_count c1 = requests_count c + 1
  /\ sleeps_at retry (trace c1) = sleeps_at retry (trace c).
Proof.
  intros Hrc Hrt Hs He.
  pose proof (send_requests_count net url data params headers return_json c) as Hn.
  pose proof (send_sleeps_at net retry url data params headers return_json c) as Hsl.
  rewrite Hs in Hn, Hsl. simpl in Hn, Hsl.
  rewrite public_request_run by lia.
  destruct (Z.to_nat retries_count) as [|n] eqn:Hnat; [lia|].
  rewrite (retry_loop_propagates net url data params headers return_json
             retries_count retries_timeout 0 n c e c1 Hs He).
  repeat split; auto.
Qed.

(** A read that times out on the first of ten attempts. *)
Lemma X3_witness :
  let run := public_request (scripted [] (T_raise read_timeout))
               "https://www.instagram.com/" None None None true 10 10 fresh in
  run.1 = Raise read_timeout
  /\ requests_count run.2 = 1
  /\ sleeps_at retry (trace run.2) = [].
Proof.
  intros run.
  destruct (_send_public_request (scripted [] (T_raise read_timeout))
              "https://www.instagram.com/" None None None true fresh)
    as [r c1] eqn:Hs.
  assert (Hr : r = Raise read_timeout).
  { apply (f_equal fst) in Hs. simpl in Hs. subst r. vm_compute. reflexivity. }
  subst r.
  destruct (X3_other_exceptions_not_retried (scripted [] (T_raise read_timeout))
              "https://www.instagram.com/" None None None true 10 10
              fresh c1 read_timeout) as (Hrun & Hn & Hsl);
    [lia|lia|exact Hs|reflexivity|].
  unfold run. rewrite Hrun. simpl. auto.
Defined.

(** X4. Whatever the network does, a call of [public_request] makes at
    most [retries_count] attempts (none when the count is not positive) and
    sleeps [retries_timeout] at most once less than that. *)
Theorem X4_attempts_are_bounded
    (net : list event -> Request -> transport_result)
    (url : string) (data : option value) (params : option dict)
    (headers : option (list (string * string))) (return_json : bool)
    (retries_count retries_timeout : Z) (c : Client) :
  let run := public_request net url data params headers return_json
               retries_count retries_timeout c in
  requests_count c <= requests_count run.2
                   <= requests_count c + Z.max 0 retries_count
  /\ exists slept : nat,
       sleeps_at retry (trace run.2)
       = sleeps_at retry (trace c) ++ replicate slept retries_timeout
       /\ Z.of_nat slept <= Z.max 0 (retries_count - 1).
Proof.
  intros run. subst run. unfold public_request.
  destruct (retries_count <=? 10);
    [|simpl; split; [lia|exists O; simpl; rewrite app_nil_r; split; [reflexivity|lia]]].
  destruct (retries_timeout <=? 600);
    [|simpl; split; [lia|exists O; simpl; rewrite app_nil_r; split; [reflexivity|lia]]].
  simpl. rewrite range_iterations. split.
  - pose proof (retry_loop_attempts net url data params headers return_json
                  retries_count retries_timeout
                  (iterations_from 0 (Z.to_nat retries_count)) c) as H.
    unfold iterations_from in H at 3. rewrite length_fmap, length_seq in H.
    lia.
  - destruct (Z.le_gt_cases retries_count 0) as [Hle|Hgt].
    + replace (Z.to_nat retries_count) with O by lia.
      exists O. simpl. rewrite app_nil_r. split; [reflexivity|lia].
    + destruct (retry_loop_sleeps net url data params headers return_json
                  retries_count retries_timeout (Z.to_nat retries_count) 0 c)
        as (slept & Hsl & Hle); [lia|].
      exists slept. split; [exact Hsl|lia].
Qed.

(** ** Substrings *)

Lemma contains_append needle pre hay :
  contains needle hay = true -> contains needle (pre +:+ hay) = true.
Proof.
  intros H. induction pre as [|ch pre IH]; [exact H|].
  simpl. rewrite IH. apply orb_true_r.
Qed.

Lemma isinstance_connection_error e :
  isinstance e ConnectionError = true ->
  isinstance e JSONDecodeError = false /\ isinstance e HTTPError = false.
Proof. destruct e as [[] ? ?]; try discriminate; split; reflexivity. Qed.

(** X5. A response read in full whose status is between 400 and 599 makes
    the attempt raise by status: 403 [ClientForbiddenError], 400
    [ClientBadRequestError], 429 [ClientThrottledError], 404
    [ClientNotFoundError], any other [ClientError] itself.  The error
    carries the response; the body is not decoded. *)
Theorem X5_status_translation
    (net : list event -> Request -> transport_result)
    (url : string) (data : option value) (params : option dict)
    (headers : option (list (string * string))) (return_json : bool)
    (c : Client) (r : Response) :
  0 <= request_timeout c ->
  net (trace_at_call c) (request_of url data params headers c) = T_response r ->
  complete r -> error_status r = true ->
  exists e,
    _send_public_request net url data params headers return_json c
    = (Raise e, attempted url data params headers (logged r) c)
    /\ response e = HttpResponse r
    /\ (status_code r = 403 -> cls e = ClientForbiddenError)
    /\ (status_code r = 400 -> cls e = ClientBadRequestError)
    /\ (status_code r = 429 -> cls e = ClientThrottledError)
    /\ (status_code r = 404 -> cls e = ClientNotFoundError)
    /\ (status_code r <> 403 -> status_code r <> 400 ->
        status_code r <> 429 -> status_code r <> 404 ->
        cls e = ClientError).
Proof.
  intros Ht Hnet Hc Hs.
  destruct (send_error_status net url data params headers return_json c r
              Ht Hnet Hc Hs) as (msg & ->).
  unfold handlers, isinstance. simpl.
  destruct (Z.eqb_spec (status_code r) 403);
    [|destruct (Z.eqb_spec (status_code r) 400);
      [|destruct (Z.eqb_spec (status_code r) 429);
        [|destruct (Z.eqb_spec (status_code r) 404)]]];
    eexists; (split; [reflexivity|]); simpl;
    repeat split; intros; try reflexivity; lia.
Qed.

(** A 429 is a [ClientThrottledError]; a 503 is a plain [ClientError]. *)
Lemma X5_witness :
  (exists e,
     (_send_public_request (scripted [] (status_only 429))
        "https://www.instagram.com/" None None None true fresh).1 = Raise e
     /\ cls e = ClientThrottledError)
  /\ (exists e,
        (_send_public_request (scripted [] (status_only 503))
           "https://www.instagram.com/" None None None true fresh).1 = Raise e
        /\ cls e = ClientError).
Proof.
  split.
  - destruct (X5_status_translation (scripted [] (status_only 429))
                "https://www.instagram.com/" None None None true fresh
                (reply 429 "https://www.instagram.com/" (inl "Expecting value")))
      as (e & Hrun & _ & _ & _ & H429 & _).
    + vm_compute. discriminate.
    + reflexivity.
    + exists 40. split; [reflexivity|simpl; lia].
    + reflexivity.
    + exists e. rewrite Hrun. split; [reflexivity|]. apply H429. reflexivity.
  - destruct (X5_status_translation (scripted [] (status_only 503))
                "https://www.instagram.com/" None None None true fresh
                (reply 503 "https://www.instagram.com/" (inl "Expecting value")))
      as (e & Hrun & _ & _ & _ & _ & _ & Hother).
    + vm_compute. discriminate.
    + reflexivity.
    + exists 40. split; [reflexivity|simpl; lia].
    + reflexivity.
    + exists e. rewrite Hrun. split; [reflexivity|].
      apply Hother; simpl; lia.
Defined.

(** X6. A response read in full with a status outside 400..599 is the
    result of the attempt: its text when [return_json] is off, and then
    [json()] is not called; the decoded body when [return_json] is on and
    the body decodes, after one call of [json()].  Both records of the log
    are written first. *)
Theorem X6_successful_attempt
    (net : list event -> Request -> transport_result)
    (url : string) (data : option value) (params : option dict)
    (headers : option (list (string * string)))
    (c : Client) (r : Response) :
  0 <= request_timeout c ->
  net (trace_at_call c) (request_of url data params headers c) = T_response r ->
  complete r -> error_status r = false ->
  _send_public_request net url data params headers false c
  = (Ok (VStr (text r)), attempted url data params headers (logged r) c)
  /\ forall v,
       json_body r = inr v ->
       _send_public_request net url data params headers true c
       = (Ok v, attempted url data params headers (logged r ++ [Ev_json r]) c).
Proof.
  intros Ht Hnet Hc Hs. split.
  - apply send_text; assumption.
  - intros v Hv. rewrite (send_json net url data params headers c r Ht Hnet Hc Hs).
    rewrite Hv. reflexivity.
Qed.

Lemma X6_witness :
  (_send_public_request graphql_ok "https://www.instagram.com/" None None None
                        false fresh).1 = Ok (VStr "")
  /\ (_send_public_request graphql_ok "https://www.instagram.com/" None None
                           None true fresh).1
     = Ok (VDict [("status", VStr "ok"); ("data", VDict [("user", VNone)])]).
Proof.
  destruct (X6_successful_attempt graphql_ok "https://www.instagram.com/" None
              None None fresh
              (reply 200 "https://www.instagram.com/"
                 (inr (VDict [("status", VStr "ok");
                              ("data", VDict [("user", VNone)])]))))
    as [Htext Hjson].
  - vm_compute. discriminate.
  - reflexivity.
  - exists 40. split; [reflexivity|simpl; lia].
  - reflexivity.
  - rewrite Htext, (Hjson _ eq_refl). split; reflexivity.
Defined.

(** X7. When the body of a complete, successful response does not decode
    and the final URL contains [/login/], the attempt raises
    [ClientLoginRequired] with the text of the decode error, and
    [public_request] stops there: one attempt, whatever [retries_count]. *)
Theorem X7_login_wall_not_retried
    (net : list event -> Request -> transport_result)
    (url : string) (data : option value) (params : option dict)
    (headers : option (list (string * string)))
    (retries_count retries_timeout : Z) (c : Client) (r : Response)
    (msg : string) :
  0 <= request_timeout c ->
  net (trace_at_call c) (request_of url data params headers c) = T_response r ->
  complete r -> error_status r = false ->
  json_body r = inl msg -> contains "/login/" (resp_url r) = true ->
  1 <= retries_count <= 10 -> retries_timeout <= 600 ->
  public_request net url data params headers true retries_count
                 retries_timeout c
  = (Raise (mkExn ClientLoginRequired msg (HttpResponse r)),
     attempted url data params headers (logged r ++ [Ev_json r]) c).
Proof.
  intros Ht Hnet Hc Hs Hbody Hlogin Hrc Hrt.
  rewrite public_request_run by lia.
  destruct (Z.to_nat retries_count) as [|n] eqn:Hn; [lia|].
  apply retry_loop_stops; [|left; reflexivity].
  rewrite (send_json net url data params headers c r Ht Hnet Hc Hs), Hbody.
  unfold handlers, isinstance. simpl. rewrite Hlogin. reflexivity.
Qed.

Lemma X7_witness :
  let r := reply 200 "https://www.instagram.com/accounts/login/?next=/x/"
                 (inl "Expecting value: line 1 column 1 (char 0)") in
  let run := public_request (scripted [] (T_response r))
               "https://www.instagram.com/x/" None None None true 10 10 fresh in
  run.1 = Raise (mkExn ClientLoginRequired
                   "Expecting value: line 1 column 1 (char 0)" (HttpResponse r))
  /\ requests_count run.2 = 1.
Proof.
  intros r run. unfold run.
  rewrite (X7_login_wall_not_retried (scripted [] (T_response r))
             "https://www.instagram.com/x/" None None None 10 10 fresh r
             "Expecting value: line 1 column 1 (char 0)").
  - split; reflexivity.
  - vm_compute. discriminate.
  - reflexivity.
  - exists 40. split; [reflexivity|simpl; lia].
  - reflexivity.
  - reflexivity.
  - reflexivity.
  - lia.
  - lia.
Defined.

(** X8. When the body does not decode and the final URL has no [/login/],
    the attempt writes an error record and raises [ClientJSONDecodeError],
    whose text names the decode error and the URL asked for; the error is
    transient, so [public_request] retries it. *)
Theorem X8_decode_failure_is_transient
    (net : list event -> Request -> transport_result)
    (url : string) (data : option value) (params : option dict)
    (headers : option (list (string * string)))
    (c : Client) (r : Response) (msg : string) :
  0 <= request_timeout c ->
  net (trace_at_call c) (request_of url data params headers c) = T_response r ->
  complete r -> error_status r = false ->
  json_body r = inl msg -> contains "/login/" (resp_url r) = false ->
  let e := mkExn ClientJSONDecodeError
             ("JSONDecodeError " +:+ msg +:+ " while opening " +:+ url)
             (HttpResponse r) in
  _send_public_request net url data params headers true c
  = (Raise e,
     attempted url data params headers
               (logged r ++ [Ev_json r; Ev_log log_error r]) c)
  /\ transient e.
Proof.
  intros Ht Hnet Hc Hs Hbody Hlogin e. subst e. split.
  - rewrite (send_json net url data params headers c r Ht Hnet Hc Hs), Hbody.
    unfold handlers, isinstance. simpl. rewrite Hlogin.
    rewrite bind_run. unfold emit at 1. rewrite after_app. reflexivity.
  - repeat split; reflexivity.
Qed.

Lemma X8_witness :
  let r := reply 200 "https://www.instagram.com/x/" (inl "Expecting value") in
  (_send_public_request (scripted [] (T_response r))
     "https://www.instagram.com/x/" None None None true fresh).1
  = Raise (mkExn ClientJSONDecodeError
             "JSONDecodeError Expecting value while opening https://www.instagram.com/x/"
             (HttpResponse r)).
Proof.
  intros r.
  destruct (X8_decode_failure_is_transient (scripted [] (T_response r))
              "https://www.instagram.com/x/" None None None fresh r
              "Expecting value") as [Hrun _].
  - vm_compute. discriminate.
  - reflexivity.
  - exists 40. split; [reflexivity|simpl; lia].
  - reflexivity.
  - reflexivity.
  - reflexivity.
  - rewrite Hrun. reflexivity.
Defined.

(** X9. A [ConnectionError] of the session becomes a
    [ClientConnectionError] without response whose text is the name of the
    class of the original, a space, and its text.  What the original text
    contains the new text contains: when it has the three marks of a broken
    SOCKS proxy, [public_request] raises after that one attempt; otherwise
    the error is transient. *)
Theorem X9_connection_error_translation
    (net : list event -> Request -> transport_result)
    (url : string) (data : option value) (params : option dict)
    (headers : option (list (string * string))) (return_json : bool)
    (c : Client) (e0 : exn) :
  0 <= request_timeout c ->
  net (trace_at_call c) (request_of url data params headers c) = T_raise e0 ->
  isinstance e0 ConnectionError = true ->
  let e := mkExn ClientConnectionError
             (class_name (cls e0) +:+ " " +:+ message e0) NoResponse in
  _send_public_request net url data params headers return_json c
  = (Raise e, attempted url data params headers [] c)
  /\ (contains "SOCKSHTTPSConnectionPool" (message e0) = true ->
      contains "Max retries exceeded with url" (message e0) = true ->
      contains "Failed to establish a new connection" (message e0) = true ->
      forall retries_count retries_timeout,
        1 <= retries_count <= 10 -> retries_timeout <= 600 ->
        public_request net url data params headers return_json
                       retries_count retries_timeout c
        = (Raise e, attempted url data params headers [] c))
  /\ (socks_proxy_failure e = false -> transient e).
Proof.
  intros Ht Hnet Hconn e.
  assert (Hsend : _send_public_request net url data params headers
                    return_json c
                  = (Raise e, attempted url data params headers [] c)).
  { rewrite (send_raise_run net url data params headers return_json c e0 Ht Hnet).
    unfold handlers.
    destruct (isinstance_connection_error e0 Hconn) as [-> ->].
    rewrite Hconn. reflexivity. }
  split; [exact Hsend|]. split.
  - intros H1 H2 H3 retries_count retries_timeout Hrc Hrt.
    rewrite public_request_run by lia.
    destruct (Z.to_nat retries_count) as [|n] eqn:Hn; [lia|].
    apply retry_loop_stops; [exact Hsend|]. right.
    unfold socks_proxy_failure, e. cbn [message isinstance cls].
    rewrite !contains_append by assumption. reflexivity.
  - intros Hsocks. unfold transient.
    split; [reflexivity|]. split; [reflexivity|exact Hsocks].
Qed.

Lemma X9_witness :
  let run := public_request (scripted [] (T_raise socks_failure))
               "https://www.instagram.com/" None None None true 10 10 fresh in
  (exists e, run.1 = Raise e /\ cls e = ClientConnectionError)
  /\ requests_count run.2 = 1.
Proof.
  intros run.
  destruct (X9_connection_error_translation (scripted [] (T_raise socks_failure))
              "https://www.instagram.com/" None None None true fresh
              socks_failure) as (_ & Hstop & _).
  - vm_compute. discriminate.
  - reflexivity.
  - reflexivity.
  - unfold run. rewrite (Hstop eq_refl eq_refl eq_refl 10 10) by lia.
    split; [eexists; split; reflexivity|reflexivity].
Defined.

(** X10. The attempt reads [Content-Length] before it looks at the status:
    a response without the header makes [int(None)] raise [TypeError], and
    a header that is no integer raises [ValueError], whatever the status
    and before anything is logged.  Neither is a [ClientError], so
    [public_request] raises it after that one attempt. *)
Theorem X10_content_length_is_required
    (net : list event -> Request -> transport_result)
    (url : string) (data : option value) (params : option dict)
    (headers : option (list (string * string))) (return_json : bool)
    (retries_count retries_timeout : Z) (c : Client) (r : Response) :
  0 <= request_timeout c ->
  net (trace_at_call c) (request_of url data params headers c) = T_response r ->
  1 <= retries_count <= 10 -> retries_timeout <= 600 ->
  let run := public_request net url data params headers return_json
               retries_count retries_timeout c in
  (content_length r = CL_missing ->
     exists e, run = (Raise e, attempted url data params headers [] c)
               /\ cls e = TypeError)
  /\ (forall s, content_length r = CL_invalid s ->
        exists e, run = (Raise e, attempted url data params headers [] c)
                  /\ cls e = ValueError).
Proof.
  intros Ht Hnet Hrc Hrt run. subst run.
  rewrite public_request_run by lia.
  destruct (Z.to_nat retries_count) as [|n] eqn:Hn; [lia|].
  split; [intros Hcl|intros s Hcl];
    eexists; (split; [|shelve]);
    (apply retry_loop_propagates; [|shelve]);
    rewrite (send_response_run net url data params headers return_json c r
               Ht Hnet), try_except_run;
    unfold check_and_decode, int_content_length; rewrite Hcl, bind_run;
    unfold raise at 1, handlers, isinstance; simpl; reflexivity.
  Unshelve. all: reflexivity.
Qed.

(** A 404 without [Content-Length]: a [TypeError], not a
    [ClientNotFoundError]. *)
Lemma X10_witness :
  let r := mkResponse 404 "Not Found" "https://www.instagram.com/x/" CL_missing
             0 "" (inl "Expecting value") in
  exists e,
    (public_request (scripted [] (T_response r)) "https://www.instagram.com/x/"
                    None None None true 10 10 fresh).1 = Raise e
    /\ cls e = TypeError.
Proof.
  intros r.
  destruct (X10_content_length_is_required (scripted [] (T_response r))
              "https://www.instagram.com/x/" None None None true 10 10 fresh r)
    as [Hmissing _]; try lia.
  - vm_compute. discriminate.
  - reflexivity.
  - destruct (Hmissing eq_refl) as (e & Hrun & He).
    exists e. rewrite Hrun. split; [reflexivity|exact He].
Defined.

(** ** Throttle *)

Section Throttle.
Variable net : list event -> Request -> transport_result.
Variables (url : string) (data : option value) (params : option dict)
          (headers : option (list (string * string))) (return_json : bool).
Variables retries_count retries_timeout : Z.




End Throttle.



(** ** Dict updates *)




(** ** Leading slashes *)


(** ** The run an adapter starts *)

Section AdapterRuns.
Variable net : list event -> Request -> transport_result.
Variables (url : string) (data : option value) (params : option dict)
          (headers : option (list (string * string))).

Lemma first_request_then {B} (k : value -> M B) c :
  (forall a, frame (grows (fun _ => True)) (k a)) ->
  0 <= request_timeout c ->
  exists more,
    requests_of
      (trace (bind (public_request net url data params headers true 10 10) k
                c).2)
    = requests_of (trace c) ++ request_of url data params headers c :: more.
Proof.
  intros Hk Ht.
  destruct (public_request_first_request net url data params headers true
              10 10 c) as (more & Hfirst); try lia.
  pose proof (after_bind (grows (fun _ => True))
                (public_request net url data params headers true 10 10) k c Hk)
    as Hg.
  destruct (grows_requests_of _ _ _ Hg) as (more' & Hmore).
  exists (more ++ more'). rewrite Hmore, Hfirst, <- app_assoc. reflexivity.
Qed.

Lemma public_request_answered r v retries_count retries_timeout c :
  answers_with net r -> complete r -> error_status r = false ->
  json_body r = inr v ->
  0 <= request_timeout c ->
  1 <= retries_count <= 10 -> retries_timeout <= 600 ->
  public_request net url data params headers true retries_count
                 retries_timeout c
  = (Ok v, attempted url data params headers (logged r ++ [Ev_json r]) c).
Proof.
  intros Hnet Hc Hs Hv Ht Hrc Hrt. rewrite public_request_run by lia.
  destruct (Z.to_nat retries_count) as [|n] eqn:Hn; [lia|].
  apply retry_loop_returns.
  rewrite (send_json net url data params headers c r Ht (Hnet _ _) Hc Hs), Hv.
  reflexivity.
Qed.

Lemma public_request_answered_400 r retries_count retries_timeout c :
  answers_with net r -> complete r -> status_code r = 400 ->
  0 <= request_timeout c ->
  1 <= retries_count <= 10 -> retries_timeout <= 600 ->
  exists msg,
    public_request net url data params headers true retries_count
                   retries_timeout c
    = (Raise (mkExn ClientBadRequestError msg (HttpResponse r)),
       attempted url data params headers (logged r) c).
Proof.
  intros Hnet Hc Hs Ht Hrc Hrt.
  assert (Herr : error_status r = true)
    by (unfold error_status; rewrite Hs; reflexivity).
  destruct (send_error_status net url data params headers true c r Ht
              (Hnet _ _) Hc Herr) as (msg & Hsend).
  exists msg. rewrite public_request_run by lia.
  destruct (Z.to_nat retries_count) as [|n] eqn:Hn; [lia|].
  apply retry_loop_stops; [|left; reflexivity].
  rewrite Hsend. unfold handlers, isinstance. simpl. rewrite Hs. reflexivity.
Qed.

End AdapterRuns.



(** X13. Against a service that answers with a complete, successful
    response whose body is a JSON object, [public_a1_request] makes one
    request and returns the [graphql] field of the body.  Without that
    field it raises [GenericRequestError] carrying the fields of the body
    when [error_type] is [generic_request_error], and otherwise the
    [KeyError] of the lookup. *)
Theorem X13_a1_outcomes
    (net : list event -> Request -> transport_result)
    (repr_container : value -> string) (endpoint : string)
    (data : option value) (params : option dict)
    (headers : option (list (string * string))) (c : Client)
    (r : Response) (d : dict) :
  answers_with net r -> complete r -> error_status r = false ->
  json_body r = inr (VDict d) ->
  0 <= request_timeout c ->
  let run := public_a1_request net repr_container endpoint data params
               headers c in
  requests_count run.2 = requests_count c + 1
  /\ length (requests_of (trace run.2)) = S (length (requests_of (trace c)))
  /\ (forall graphql, dict_get "graphql" d = Some graphql ->
        run.1 = Ok graphql)
  /\ (dict_get "graphql" d = None ->
      dict_get "error_type" d = Some (VStr "generic_request_error") ->
      exists msg, run.1 = Raise (mkExn GenericRequestError msg (Fields d)))
  /\ (dict_get "graphql" d = None ->
      eq_str (default VNone (dict_get "error_type" d)) "generic_request_error"
      = false ->
      run.1 = Raise (mkExn KeyError "'graphql'" NoResponse)).
Proof.
  intros Hnet Hc Hs Hv Ht run. subst run. unfold public_a1_request.
  rewrite bind_run.
  rewrite (public_request_answered net _ data _ headers r (VDict d) 10 10 c
             Hnet Hc Hs Hv Ht) by lia.
  rewrite try_except_run. unfold getitem.
  assert (Hreqs : length (requests_of
                            (trace (attempted
                                      (PUBLIC_API_URL +:+ lstrip_slash endpoint)
                                      data
                                      (Some (merge_params params [("__a", VInt 1)]))
                                      headers (logged r ++ [Ev_json r]) c)))
                  = S (length (requests_of (trace c)))).
  { unfold attempted, trace_at_call. cbn [trace].
    destruct (request_timeout c =? 0);
      rewrite ?requests_of_app, ?length_app; simpl; lia. }
  destruct (dict_get "graphql" d) as [graphql|] eqn:Hg.
  - simpl. repeat split; try discriminate; try exact Hreqs.
    intros g [= <-]. reflexivity.
  - unfold raise at 1. cbn [isinstance cls]. simpl.
    destruct (eq_str (default VNone (dict_get "error_type" d))
                "generic_request_error") eqn:Herr; simpl;
      repeat split; try discriminate; try exact Hreqs.
    + intros _ _. eexists. reflexivity.
    + intros _ Het. rewrite Het in Herr. discriminate.
Qed.

Lemma X13_witness :
  (public_a1_request
     (scripted [] (ok_json (VDict [("graphql", VDict [("user", VNone)])])))
     (fun _ => "") "/nasa/" None None None fresh).1
  = Ok (VDict [("user", VNone)]).
Proof.
  destruct (X13_a1_outcomes
              (scripted [] (ok_json (VDict [("graphql", VDict [("user", VNone)])])))
              (fun _ => "") "/nasa/" None None None fresh
              (reply 200 "https://www.instagram.com/"
                 (inr (VDict [("graphql", VDict [("user", VNone)])])))
              [("graphql", VDict [("user", VNone)])])
    as (_ & _ & Hok & _).
  - intros tr rq. unfold scripted. destruct (length (requests_of tr)); reflexivity.
  - exists 40. split; [reflexivity|simpl; lia].
  - reflexivity.
  - reflexivity.
  - vm_compute. discriminate.
  - apply Hok. reflexivity.
Defined.

(** ** GraphQL *)

Lemma decodes_of_attempted url data params headers evs c :
  decodes_of (trace (attempted url data params headers evs c))
  = decodes_of (trace c) ++ decodes_of evs.
Proof.
  unfold attempted, trace_at_call. cbn [trace].
  destruct (request_timeout c =? 0);
    rewrite ?decodes_of_app; simpl; rewrite ?app_nil_r; reflexivity.
Qed.

Lemma eq_str_not_ok d :
  dict_get "status" d <> Some (VStr "ok") ->
  eq_str (default VNone (dict_get "status" d)) "ok" = false.
Proof.
  intros Hne. destruct (dict_get "status" d) as [[]|]; simpl; try reflexivity.
  destruct (String.eqb_spec s "ok") as [->|]; [contradiction|reflexivity].
Qed.

Lemma eq_str_is_ok d :
  dict_get "status" d = Some (VStr "ok") ->
  eq_str (default VNone (dict_get "status" d)) "ok" = true.
Proof. intros ->. reflexivity. Qed.

(** X14. Against a service that answers with a complete, successful
    response whose body is a JSON object, [public_graphql_request] makes
    one request; it returns the [data] field when [status] is ["ok"], raises
    the [KeyError] of the lookup when [status] is ["ok"] and there is no
    [data], and for any other status raises [ClientGraphqlError] whose text
    quotes the status and the message of the body. *)
Theorem X14_graphql_outcomes
    (net : list event -> Request -> transport_result)
    (json_dumps repr_container : value -> string)
    (variables query_hash query_id : value) (data : option value)
    (params : option dict) (headers : option (list (string * string)))
    (c : Client) (r : Response) (d : dict) :
  answers_with net r -> complete r -> error_status r = false ->
  json_body r = inr (VDict d) ->
  truthy query_id || truthy query_hash = true ->
  0 <= request_timeout c ->
  let run := public_graphql_request net json_dumps repr_container variables
               query_hash query_id data params headers c in
  requests_count run.2 = requests_count c + 1
  /\ (dict_get "status" d = Some (VStr "ok") ->
      forall x, dict_get "data" d = Some x -> run.1 = Ok x)
  /\ (dict_get "status" d = Some (VStr "ok") ->
      dict_get "data" d = None ->
      run.1 = Raise (mkExn KeyError "'data'" NoResponse))
  /\ (dict_get "status" d <> Some (VStr "ok") ->
      run.1 = Raise (mkExn ClientGraphqlError
                       ("Unexpected status '"
                        +:+ py_str repr_container
                              (default VNone (dict_get "status" d))
                        +:+ "' in response. Message: '"
                        +:+ py_str repr_container
                              (default VNone (dict_get "message" d))
                        +:+ "'")
                       (Body (VDict d)))).
Proof.
  intros Hnet Hc Hs Hv Hid Ht run.
  pose proof (eq_refl run) as Hrun. unfold run at 2 in Hrun. clearbody run.
  unfold public_graphql_request in Hrun. rewrite Hid in Hrun.
  cbn [negb] in Hrun. rewrite try_except_run, bind_run in Hrun.
  rewrite (public_request_answered net _ data _ headers r (VDict d) 10 10 c
             Hnet Hc Hs Hv Ht) in Hrun by lia.
  unfold value_get in Hrun. rewrite bind_run in Hrun. unfold ret at 1 in Hrun.
  destruct (eq_str (default VNone (dict_get "status" d)) "ok") eqn:Hok.
  - pose proof (eq_str_ok d Hok) as Hst. cbn [negb] in Hrun.
    unfold getitem in Hrun.
    destruct (dict_get "data" d) as [x|] eqn:Hx; simpl in Hrun; subst run;
      repeat split; try discriminate; try congruence.
    intros _ y [= <-]. reflexivity.
  - cbn [negb] in Hrun. simpl in Hrun. subst run.
    repeat split; try reflexivity;
      intros Hst; rewrite (eq_str_is_ok d Hst) in Hok; discriminate.
Qed.

Lemma X14_witness :
  (public_graphql_request graphql_fail (fun _ => "{}") (fun _ => "")
     (VDict []) (VStr "e74d51c10ecc0fe6250a295b9bb9db74") VNone
     None None None fresh).1
  = Raise (mkExn ClientGraphqlError
             "Unexpected status 'fail' in response. Message: 'rate limited'"
             (Body (VDict [("status", VStr "fail");
                           ("message", VStr "rate limited")]))).
Proof.
  destruct (X14_graphql_outcomes graphql_fail (fun _ => "{}") (fun _ => "")
              (VDict []) (VStr "e74d51c10ecc0fe6250a295b9bb9db74") VNone
              None None None fresh
              (reply 200 "https://www.instagram.com/"
                 (inr (VDict [("status", VStr "fail");
                              ("message", VStr "rate limited")])))
              [("status", VStr "fail"); ("message", VStr "rate limited")])
    as (_ & _ & _ & Hfail).
  - intros tr rq. unfold graphql_fail, scripted.
    destruct (length (requests_of tr)); reflexivity.
  - exists 40. split; [reflexivity|simpl; lia].
  - reflexivity.
  - reflexivity.
  - reflexivity.
  - vm_compute. discriminate.
  - rewrite Hfail by discriminate. reflexivity.
Defined.

(** ** The handler of bad requests *)

Lemma isinstance_own_class c msg r :
  isinstance (mkExn c msg r) c = true.
Proof.
  unfold isinstance, issubclass, issubclass_upto. cbn [cls].
  rewrite bool_decide_eq_true_2 by reflexivity. reflexivity.
Qed.

Lemma attribute_error_not_decode_error msg r :
  isinstance (mkExn AttributeError msg r) JSONDecodeError = false.
Proof. reflexivity. Qed.

(** X15. A 400 from the GraphQL endpoint is not retried and does not reach
    the caller as [ClientBadRequestError]: after the one request,
    [public_graphql_request] decodes the body of the error response once and
    raises [ClientGraphqlError] carrying that response.  Its text quotes
    the HTTP error and the [message] of the body, or [None] when the body
    does not decode or has no message; a body that decodes to something
    other than an object makes the handler fail with [AttributeError]. *)
Theorem X15_graphql_bad_request
    (net : list event -> Request -> transport_result)
    (json_dumps repr_container : value -> string)
    (variables query_hash query_id : value) (data : option value)
    (params : option dict) (headers : option (list (string * string)))
    (c : Client) (r : Response) :
  answers_with net r -> complete r -> status_code r = 400 ->
  truthy query_id || truthy query_hash = true ->
  0 <= request_timeout c ->
  let run := public_graphql_request net json_dumps repr_container variables
               query_hash query_id data params headers c in
  requests_count run.2 = requests_count c + 1
  /\ decodes_of (trace run.2) = decodes_of (trace c) ++ [r]
  /\ exists http_error,
       (forall why, json_body r = inl why ->
          run.1 = Raise (mkExn ClientGraphqlError
                           ("Error: '" +:+ http_error +:+ "'. Message: 'None'")
                           (HttpResponse r)))
       /\ (forall d, json_body r = inr (VDict d) ->
             run.1 = Raise (mkExn ClientGraphqlError
                              ("Error: '" +:+ http_error +:+ "'. Message: '"
                               +:+ py_str repr_container
                                     (default VNone (dict_get "message" d))
                               +:+ "'")
                              (HttpResponse r)))
       /\ (forall v, json_body r = inr v -> (forall d, v <> VDict d) ->
             exists e, run.1 = Raise e /\ cls e = AttributeError).
Proof.
  intros Hnet Hc Hs Hid Ht run.
  pose proof (eq_refl run) as Hrun. unfold run at 2 in Hrun. clearbody run.
  unfold public_graphql_request in Hrun. rewrite Hid in Hrun.
  cbn [negb] in Hrun. rewrite try_except_run, bind_run in Hrun.
  destruct (public_request_answered_400 net GRAPHQL_PUBLIC_API_URL data
              (Some (merge_params params
                 (if truthy query_hash
                  then dict_set "query_hash" query_hash
                         (if truthy query_id
                          then dict_set "query_id" query_id
                                 [("variables", VStr (json_dumps variables))]
                          else [("variables", VStr (json_dumps variables))])
                  else if truthy query_id
                       then dict_set "query_id" query_id
                              [("variables", VStr (json_dumps variables))]
                       else [("variables", VStr (json_dumps variables))])))
              headers r 10 10 c Hnet Hc Hs Ht) as (http_error & Hbad); try lia.
  rewrite Hbad, isinstance_own_class in Hrun.
  unfold bad_request_handler in Hrun. cbn [response message] in Hrun.
  rewrite bind_run, try_except_run, bind_run in Hrun.
  unfold response_json in Hrun. rewrite bind_run in Hrun.
  unfold emit at 1 in Hrun. rewrite after_app in Hrun.
  destruct (json_body r) as [why|v] eqn:Hbody.
  - unfold raise at 1 in Hrun. rewrite isinstance_own_class in Hrun.
    unfold ret at 1, raise, client_error in Hrun. cbn [py_str] in Hrun.
    subst run. cbn [fst snd requests_count].
    split; [reflexivity|]. split; [rewrite decodes_of_attempted; reflexivity|].
    exists http_error. split; [intros ? _; reflexivity|].
    split; [discriminate|discriminate].
  - unfold ret at 1 in Hrun. unfold value_get in Hrun.
    destruct v as [| | | | |d];
      try (unfold raise at 1 in Hrun;
           rewrite attribute_error_not_decode_error in Hrun;
           unfold raise in Hrun; subst run; cbn [fst snd requests_count];
           split; [reflexivity|];
           split; [rewrite decodes_of_attempted; reflexivity|];
           exists http_error; split; [discriminate|];
           split; [discriminate|];
           intros ? _ _; eexists; split; reflexivity).
    unfold ret at 1, raise, client_error in Hrun.
    subst run. cbn [fst snd requests_count].
    split; [reflexivity|]. split; [rewrite decodes_of_attempted; reflexivity|].
    exists http_error. split; [discriminate|].
    split; [intros ? [= <-]; reflexivity|].
    intros ? [= <-] Hnot. exfalso. eapply Hnot. reflexivity.
Qed.

(** A 400 whose body says why, and a 400 with a body that is no JSON. *)
Lemma X15_witness :
  (exists e,
     (public_graphql_request
        (scripted [] (T_response (reply 400 "https://www.instagram.com/graphql/query/"
                                    (inr (VDict [("message", VStr "bad query")])))))
        (fun _ => "{}") (fun _ => "") (VDict [])
        (VStr "e74d51c10ecc0fe6250a295b9bb9db74") VNone None None None fresh).1
     = Raise e
     /\ cls e = ClientGraphqlError
     /\ contains "Message: 'bad query'" (message e) = true)
  /\ (exists e,
        (public_graphql_request
           (scripted [] (status_only 400))
           (fun _ => "{}") (fun _ => "") (VDict [])
           (VStr "e74d51c10ecc0fe6250a295b9bb9db74") VNone None None None
           fresh).1 = Raise e
        /\ cls e = ClientGraphqlError
        /\ contains "Message: 'None'" (message e) = true).
Proof.
  split.
  - destruct (X15_graphql_bad_request
                (scripted [] (T_response
                   (reply 400 "https://www.instagram.com/graphql/query/"
                      (inr (VDict [("message", VStr "bad query")])))))
                (fun _ => "{}") (fun _ => "") (VDict [])
                (VStr "e74d51c10ecc0fe6250a295b9bb9db74") VNone None None None
                fresh
                (reply 400 "https://www.instagram.com/graphql/query/"
                   (inr (VDict [("message", VStr "bad query")]))))
      as (_ & _ & http_error & _ & Hdict & _).
    + intros tr rq. unfold scripted.
      destruct (length (requests_of tr)); reflexivity.
    + exists 40. split; [reflexivity|simpl; lia].
    + reflexivity.
    + reflexivity.
    + vm_compute. discriminate.
    + eexists. split; [apply Hdict; reflexivity|].
      split; [reflexivity|].
      cbn [message py_str default dict_get String.eqb].
      apply contains_append with (pre := "Error: '").
      apply contains_append. vm_compute. reflexivity.
  - destruct (X15_graphql_bad_request (scripted [] (status_only 400))
                (fun _ => "{}") (fun _ => "") (VDict [])
                (VStr "e74d51c10ecc0fe6250a295b9bb9db74") VNone None None None
                fresh
                (reply 400 "https://www.instagram.com/"
                   (inl "Expecting value")))
      as (_ & _ & http_error & Hnone & _ & _).
    + intros tr rq. unfold scripted.
      destruct (length (requests_of tr)); reflexivity.
    + exists 40. split; [reflexivity|simpl; lia].
    + reflexivity.
    + reflexivity.
    + vm_compute. discriminate.
    + eexists. split; [eapply Hnone; reflexivity|].
      split; [reflexivity|].
      cbn [message].
      apply contains_append with (pre := "Error: '").
      apply contains_append. vm_compute. reflexivity.
Defined.

(** ** Parameters of a GraphQL request *)




(** ** Feature methods over GraphQL *)

Section GraphqlFeatures.
Variable net : list event -> Request -> transport_result.
Variables json_dumps repr_container : value -> string.

(** A feature method: one GraphQL query by hash, then one field of the
    data. *)
Local Abbreviation feature variables hash key :=
  (bind (public_graphql_request net json_dumps repr_container
           (VDict variables) (VStr hash) VNone None None None)
        (fun data => getitem data key)).

Lemma feature_first_request variables hash key c :
  truthy (VStr hash) = true ->
  0 <= request_timeout c ->
  exists more,
    requests_of (trace (feature variables hash key c).2)
    = requests_of (trace c)
      ++ mkRequest session_get GRAPHQL_PUBLIC_API_URL None
           (Some [("variables", VStr (json_dumps (VDict variables)));
                  ("query_hash", VStr hash)])
           (public_headers c)
      :: more.
Proof.
  intros Hhash Ht.
  assert (Hg1 : grows (fun _ => True)
                  (public_graphql_request net json_dumps repr_container
                     (VDict variables) (VStr hash) VNone None None None c).2
                  (feature variables hash key c).2).
  { apply (after_bind (grows (fun _ => True))). intros data.
    apply frame_getitem. }
  destruct (grows_requests_of _ _ _ Hg1) as (more1 & Hmore1).
  rewrite Hmore1. clear Hg1 Hmore1.
  unfold public_graphql_request. rewrite Hhash.
  cbn [truthy orb negb]. simpl dict_set. cbn [merge_params].
  match goal with
  | |- context [try_except (bind (public_request _ ?u _ ?p _ _ _ _) ?k) ?h c] =>
      destruct (first_request_then net u None p None k c) as (more & Hfirst);
      [|exact Ht|];
      [|assert (Hg : grows (fun _ => True)
                       (bind (public_request net u None p None true 10 10) k c).2
                       (try_except
                          (bind (public_request net u None p None true 10 10) k)
                          h c).2)]
  end.
  { intros body. frames; first [apply frame_value_get | apply frame_getitem]. }
  { apply (after_try_except (grows (fun _ => True))). intros e. cbv beta.
    frames. apply frame_bad_request_handler; auto. }
  destruct (grows_requests_of _ _ _ Hg) as (more' & Hmore).
  exists ((more ++ more') ++ more1).
  rewrite Hmore, Hfirst, <- !app_assoc. reflexivity.
Qed.

Lemma feature_answered variables hash key c r d fields x :
  truthy (VStr hash) = true ->
  answers_with net r -> complete r -> error_status r = false ->
  json_body r = inr (VDict d) ->
  dict_get "status" d = Some (VStr "ok") ->
  dict_get "data" d = Some (VDict fields) ->
  dict_get key fields = Some x ->
  0 <= request_timeout c ->
  (feature variables hash key c).1 = Ok x.
Proof.
  intros Hhash Hnet Hc Hs Hv Hok Hdata Hx Ht.
  rewrite bind_run.
  assert (Hrun : (public_graphql_request net json_dumps repr_container
                    (VDict variables) (VStr hash) VNone None None None c).1
                 = Ok (VDict fields)).
  { unfold public_graphql_request. rewrite Hhash.
    cbn [truthy orb negb]. rewrite try_except_run, bind_run.
    rewrite (public_request_answered net _ None _ None r (VDict d) 10 10 c
               Hnet Hc Hs Hv Ht) by lia.
    unfold value_get. rewrite bind_run. unfold ret at 1.
    rewrite (eq_str_is_ok d Hok). cbn [negb].
    unfold getitem. rewrite Hdata. reflexivity. }
  destruct (public_graphql_request net json_dumps repr_container
              (VDict variables) (VStr hash) VNone None None None c)
    as [res c1].
  simpl in Hrun. subst res. unfold getitem. rewrite Hx. reflexivity.
Qed.

End GraphqlFeatures.

(** X17. [location_feed] refuses a [count] above 50 with [ValueError]
    before anything is sent.  Otherwise its request is a GET of the GraphQL
    URL with the fixed query hash and the variables [id] and [first], and
    [after] only when a cursor is given; against a service that answers
    [ok] it returns the [location] of the data. *)
Theorem X17_location_feed
    (net : list event -> Request -> transport_result)
    (json_dumps repr_container : value -> string)
    (location_id : value) (count : Z) (end_cursor : value) (c : Client) :
  let run := ProfilePublic.location_feed net json_dumps repr_container
               location_id count end_cursor c in
  let variables :=
    if truthy end_cursor
    then [("id", location_id); ("first", VInt count); ("after", end_cursor)]
    else [("id", location_id); ("first", VInt count)] in
  (50 < count ->
     run = (Raise (mkExn ValueError "Count cannot be greater than 50"
                         NoResponse), c))
  /\ (count <= 50 -> 0 <= request_timeout c ->
      exists more,
        requests_of (trace run.2)
        = requests_of (trace c)
          ++ mkRequest session_get "https://www.instagram.com/graphql/query/"
               None
               (Some [("variables", VStr (json_dumps (VDict variables)));
                      ("query_hash", VStr "1b84447a4d8b6d6d0426fefb34514485")])
               (public_headers c)
          :: more)
  /\ (count <= 50 -> 0 <= request_timeout c ->
      forall r d fields location,
        answers_with net r -> complete r -> error_status r = false ->
        json_body r = inr (VDict d) ->
        dict_get "status" d = Some (VStr "ok") ->
        dict_get "data" d = Some (VDict fields) ->
        dict_get "location" fields = Some location ->
        run.1 = Ok location).
Proof.
  intros run variables. subst run variables.
  unfold ProfilePublic.location_feed.
  destruct (Z.gtb_spec count 50) as [Hgt|Hle].
  - split; [reflexivity|]. split; intros; lia.
  - split; [intros; lia|].
    destruct (truthy end_cursor); simpl dict_set; split.
    + intros _ Ht. apply feature_first_request; [reflexivity|exact Ht].
    + intros _ Ht r d fields location Hnet Hc Hs Hv Hok Hdata Hloc.
      eapply feature_answered; eauto.
    + intros _ Ht. apply feature_first_request; [reflexivity|exact Ht].
    + intros _ Ht r d fields location Hnet Hc Hs Hv Hok Hdata Hloc.
      eapply feature_answered; eauto.
Qed.

Lemma X17_witness :
  ProfilePublic.location_feed graphql_ok (fun _ => "{}") (fun _ => "")
                              (VInt 212988663) 51 VNone fresh
  = (Raise (mkExn ValueError "Count cannot be greater than 50" NoResponse),
     fresh)
  /\ exists more,
       requests_of
         (trace (ProfilePublic.location_feed graphql_ok (fun _ => "{}")
                   (fun _ => "") (VInt 212988663) 50 VNone fresh).2)
       = mkRequest session_get "https://www.instagram.com/graphql/query/" None
           (Some [("variables", VStr "{}");
                  ("query_hash", VStr "1b84447a4d8b6d6d0426fefb34514485")])
           (public_headers fresh)
         :: more.
Proof.
  split.
  - destruct (X17_location_feed graphql_ok (fun _ => "{}") (fun _ => "")
                (VInt 212988663) 51 VNone fresh) as (Hhigh & _ & _).
    apply Hhigh. lia.
  - destruct (X17_location_feed graphql_ok (fun _ => "{}") (fun _ => "")
                (VInt 212988663) 50 VNone fresh) as (_ & Hreq & _).
    destruct Hreq as (more & Hmore); [lia|vm_compute; discriminate|].
    exists more. exact Hmore.
Defined.

(** X18. [hashtag_info_gql] sends one GraphQL query with the fixed hash
    and the variables [tag_name], [show_ranked] (false) and [first], and
    [after] only when a cursor is given; against a service that answers [ok]
    it returns the [hashtag] of the data. *)
Theorem X18_hashtag_info_gql
    (net : list event -> Request -> transport_result)
    (json_dumps repr_container : value -> string)
    (hashtag : string) (count : Z) (end_cursor : value) (c : Client) :
  0 <= request_timeout c ->
  let run := HashtagPublic.hashtag_info_gql net repr_container json_dumps
               hashtag count end_cursor c in
  let variables :=
    [("tag_name", VStr hashtag); ("show_ranked", VBool false);
     ("first", VInt count)]
    ++ (if truthy end_cursor then [("after", end_cursor)] else []) in
  (exists more,
     requests_of (trace run.2)
     = requests_of (trace c)
       ++ mkRequest session_get "https://www.instagram.com/graphql/query/"
            None
            (Some [("variables", VStr (json_dumps (VDict variables)));
                   ("query_hash", VStr "f92f56d47dc7a55b606908374b43a314")])
            (public_headers c)
       :: more)
  /\ forall r d fields tag,
       answers_with net r -> complete r -> error_status r = false ->
       json_body r = inr (VDict d) ->
       dict_get "status" d = Some (VStr "ok") ->
       dict_get "data" d = Some (VDict fields) ->
       dict_get "hashtag" fields = Some tag ->
       run.1 = Ok tag.
Proof.
  intros Ht run variables. subst run variables.
  unfold HashtagPublic.hashtag_info_gql.
  destruct (truthy end_cursor); simpl dict_set; simpl app; split;
    try (apply feature_first_request; [reflexivity|exact Ht]);
    intros r d fields tag Hnet Hc Hs Hv Hok Hdata Htag;
    eapply feature_answered; eauto.
Qed.

Lemma X18_witness :
  exists more,
    requests_of
      (trace (HashtagPublic.hashtag_info_gql graphql_ok (fun _ => "")
                (fun _ => "{}") "nasa" 12 (VStr "QVFD") fresh).2)
    = mkRequest session_get "https://www.instagram.com/graphql/query/" None
        (Some [("variables", VStr "{}");
               ("query_hash", VStr "f92f56d47dc7a55b606908374b43a314")])
        (public_headers fresh)
      :: more.
Proof.
  destruct (X18_hashtag_info_gql graphql_ok (fun _ => "{}") (fun _ => "")
              "nasa" 12 (VStr "QVFD") fresh) as [(more & Hmore) _].
  - vm_compute. discriminate.
  - exists more. exact Hmore.
Defined.

(** X19. [profile_related_info] sends one GraphQL query with the fixed
    hash, [user_id] and the six inclusion flags, all true; against a service
    that answers [ok] it returns the [user] of the data. *)
Theorem X19_profile_related_info
    (net : list event -> Request -> transport_result)
    (json_dumps repr_container : value -> string)
    (profile_id : value) (c : Client) :
  0 <= request_timeout c ->
  let run := ProfilePublic.profile_related_info net json_dumps repr_container
               profile_id c in
  (exists more,
     requests_of (trace run.2)
     = requests_of (trace c)
       ++ mkRequest session_get "https://www.instagram.com/graphql/query/"
            None
            (Some [("variables",
                    VStr (json_dumps
                            (VDict [("user_id", profile_id);
                                    ("include_chaining", VBool true);
                                    ("include_reel", VBool true);
                                    ("include_suggested_users", VBool true);
                                    ("include_logged_out_extras", VBool true);
                                    ("include_highlight_reels", VBool true);
                                    ("include_related_profiles", VBool true)])));
                   ("query_hash", VStr "e74d51c10ecc0fe6250a295b9bb9db74")])
            (public_headers c)
       :: more)
  /\ forall r d fields user,
       answers_with net r -> complete r -> error_status r = false ->
       json_body r = inr (VDict d) ->
       dict_get "status" d = Some (VStr "ok") ->
       dict_get "data" d = Some (VDict fields) ->
       dict_get "user" fields = Some user ->
       run.1 = Ok user.
Proof.
  intros Ht run. subst run. unfold ProfilePublic.profile_related_info. split.
  - apply feature_first_request; [reflexivity|exact Ht].
  - intros r d fields user Hnet Hc Hs Hv Hok Hdata Huser.
    eapply feature_answered; eauto.
Qed.

Lemma X19_witness :
  (ProfilePublic.profile_related_info graphql_ok (fun _ => "{}") (fun _ => "")
                                      (VStr "528817151") fresh).1
  = Ok VNone.
Proof.
  destruct (X19_profile_related_info graphql_ok (fun _ => "{}") (fun _ => "")
              (VStr "528817151") fresh) as [_ Hanswer].
  - vm_compute. discriminate.
  - apply (Hanswer (reply 200 "https://www.instagram.com/"
                      (inr (VDict [("status", VStr "ok");
                                   ("data", VDict [("user", VNone)])])))
                   [("status", VStr "ok"); ("data", VDict [("user", VNone)])]
                   [("user", VNone)]).
    + intros tr rq. unfold graphql_ok, scripted.
      destruct (length (requests_of tr)); reflexivity.
    + exists 40. split; [reflexivity|simpl; lia].
    + reflexivity.
    + reflexivity.
    + reflexivity.
    + reflexivity.
    + reflexivity.
Defined.

(** ** The hashtag methods *)

Section TagPage.
Variable net : list event -> Request -> transport_result.
Variable repr_container : value -> string.

Lemma hashtag_info_first_request hashtag max_id c :
  0 <= request_timeout c ->
  exists more,
    requests_of
      (trace (HashtagPublic.hashtag_info net repr_container hashtag max_id c).2)
    = requests_of (trace c)
      ++ mkRequest session_get (tag_page_url hashtag) None
           (Some (tag_page_params max_id)) (public_headers c)
      :: more.
Proof.
  intros Ht. unfold HashtagPublic.hashtag_info.
  match goal with
  | |- context [bind ?m ?k c] =>
      assert (Hg : grows (fun _ => True) (m c).2 (bind m k c).2)
  end.
  { apply (after_bind (grows (fun _ => True))). intros data.
    apply frame_getitem. }
  destruct (grows_requests_of _ _ _ Hg) as (more1 & Hmore1).
  rewrite Hmore1. clear Hg Hmore1. unfold public_a1_request.
  match goal with
  | |- context [bind (public_request _ ?u _ ?p _ _ _ _) ?k c] =>
      destruct (first_request_then net u None p None k c) as (more & Hfirst);
      [|exact Ht|]
  end.
  { intros response. frames. apply frame_getitem. }
  exists (more ++ more1). rewrite Hfirst, <- app_assoc.
  unfold tag_page_params. destruct (truthy max_id); reflexivity.
Qed.

Lemma hashtag_info_served hashtag max_id c r tag :
  serves_tag net r tag ->
  0 <= request_timeout c ->
  HashtagPublic.hashtag_info net repr_container hashtag max_id c
  = (Ok tag,
     attempted (tag_page_url hashtag) None (Some (tag_page_params max_id))
               None (logged r ++ [Ev_json r]) c).
Proof.
  intros (Hnet & Hc & Hs & d & g & Hv & Hg & Htag) Ht.
  unfold HashtagPublic.hashtag_info, public_a1_request.
  rewrite !bind_run.
  rewrite (public_request_answered net _ None _ None r (VDict d) 10 10 c
             Hnet Hc Hs Hv Ht) by lia.
  rewrite try_except_run. unfold getitem at 1. rewrite Hg.
  unfold ret at 1. unfold getitem. rewrite Htag.
  unfold tag_page_params. destruct (truthy max_id); reflexivity.
Qed.

Lemma attempted_requests url data params headers r c :
  requests_of (trace (attempted url data params headers
                                (logged r ++ [Ev_json r]) c))
  = requests_of (trace c) ++ [request_of url data params headers c].
Proof.
  unfold attempted, trace_at_call. cbn [trace].
  destruct (request_timeout c =? 0);
    rewrite ?requests_of_app, <- ?app_assoc; simpl;
    rewrite ?app_nil_r; reflexivity.
Qed.

Lemma node_names_client items c :
  (HashtagPublic.node_names items c).2 = c.
Proof.
  revert c. induction items as [|item rest IH]; intros c; [reflexivity|].
  cbn [HashtagPublic.node_names]. unfold getitem, bind, ret, raise.
  specialize (IH c).
  destruct item as [| | | | |d]; try reflexivity.
  destruct (dict_get "node" d) as [node|]; [|reflexivity].
  destruct node as [| | | | |n]; try reflexivity.
  destruct (dict_get "name" n) as [name|]; [|reflexivity].
  destruct (HashtagPublic.node_names rest c) as [[names|e] c'];
    exact IH.
Qed.

Lemma node_names_ok items names c :
  (HashtagPublic.node_names items c).1 = Ok names
  <-> Forall2 has_name items names.
Proof.
  revert names. induction items as [|item rest IH]; intros names.
  - simpl. split.
    + intros [= <-]. constructor.
    + intros H. inversion H. reflexivity.
  - cbn [HashtagPublic.node_names]. split.
    + intros Hrun. unfold getitem, bind, ret, raise in Hrun.
      destruct item as [| | | | |d]; try discriminate.
      destruct (dict_get "node" d) as [node|] eqn:Hnode; try discriminate.
      destruct node as [| | | | |n]; try discriminate.
      destruct (dict_get "name" n) as [name|] eqn:Hname; try discriminate.
      destruct (HashtagPublic.node_names rest c) as [[names'|e] c'] eqn:Hrest;
        try discriminate.
      injection Hrun as <-. constructor.
      * exists d, n. auto.
      * apply IH. reflexivity.
    + intros H. inversion H as [|? name ? names' (d & n & -> & Hnode & Hname) Hrest];
        subst.
      apply IH in Hrest. unfold getitem, bind, ret.
      rewrite Hnode, Hname.
      destruct (HashtagPublic.node_names rest c) as [[names''|e] c'];
        simpl in Hrest; [|discriminate].
      injection Hrest as ->. reflexivity.
Qed.

End TagPage.

(** X20. [hashtag_info] asks for [explore/tags/<hashtag>/] under the
    public URL, with [__a] 1 and with [max_id] only when one is given.  From
    a service whose answer holds a hashtag it returns that hashtag after one
    request. *)
Theorem X20_hashtag_info
    (net : list event -> Request -> transport_result)
    (repr_container : value -> string) (hashtag : string) (max_id : value)
    (c : Client) :
  0 <= request_timeout c ->
  let run := HashtagPublic.hashtag_info net repr_container hashtag max_id c in
  let rq :=
    mkRequest session_get
      ("https://www.instagram.com/explore/tags/" +:+ hashtag +:+ "/") None
      (Some (if truthy max_id then [("max_id", max_id); ("__a", VInt 1)]
             else [("__a", VInt 1)]))
      (public_headers c) in
  (exists more,
     requests_of (trace run.2) = requests_of (trace c) ++ rq :: more)
  /\ forall r tag,
       serves_tag net r tag ->
       run.1 = Ok tag
       /\ requests_of (trace run.2) = requests_of (trace c) ++ [rq]
       /\ requests_count run.2 = requests_count c + 1.
Proof.
  intros Ht run rq. subst run rq. split.
  - apply hashtag_info_first_request, Ht.
  - intros r tag Hserves.
    rewrite (hashtag_info_served net repr_container hashtag max_id c r tag
               Hserves Ht).
    cbn [fst snd]. split; [reflexivity|]. split; [|reflexivity].
    rewrite attempted_requests. unfold tag_page_params.
    destruct (truthy max_id); reflexivity.
Qed.

Lemma X20_witness :
  exists more,
    requests_of
      (trace (HashtagPublic.hashtag_info relations (fun _ => "") "nasa"
                (VStr "QVFD") fresh).2)
    = mkRequest session_get "https://www.instagram.com/explore/tags/nasa/"
        None (Some [("max_id", VStr "QVFD"); ("__a", VInt 1)])
        (public_headers fresh)
      :: more.
Proof.
  destruct (X20_hashtag_info relations (fun _ => "") "nasa" (VStr "QVFD")
              fresh) as [(more & Hmore) _].
  - vm_compute. discriminate.
  - exists more. exact Hmore.
Defined.

(** X21. [hashtag_related_hashtags] asks for the first page of the
    hashtag and returns the names of the nodes of its related tags, in
    order; it returns a list exactly when every edge has a node with a
    name. *)
Theorem X21_related_hashtags
    (net : list event -> Request -> transport_result)
    (repr_container : value -> string) (hashtag : string) (c : Client)
    (r : Response) (tag related : dict) (items : list value) :
  serves_tag net r (VDict tag) ->
  dict_get "edge_hashtag_to_related_tags" tag = Some (VDict related) ->
  dict_get "edges" related = Some (VList items) ->
  0 <= request_timeout c ->
  let run := HashtagPublic.hashtag_related_hashtags net repr_container
               hashtag c in
  (forall names, run.1 = Ok names <-> Forall2 has_name items names)
  /\ requests_of (trace run.2)
     = requests_of (trace c)
       ++ [mkRequest session_get
             ("https://www.instagram.com/explore/tags/" +:+ hashtag +:+ "/")
             None (Some [("__a", VInt 1)]) (public_headers c)].
Proof.
  intros Hserves Hrel Hedges Ht run.
  pose proof (eq_refl run) as Hrun. unfold run at 2 in Hrun. clearbody run.
  unfold HashtagPublic.hashtag_related_hashtags in Hrun.
  rewrite bind_run in Hrun.
  rewrite (hashtag_info_served net repr_container hashtag VNone c r _
             Hserves Ht) in Hrun.
  unfold getitem at 1 in Hrun. rewrite Hrel in Hrun.
  rewrite bind_run in Hrun. unfold ret at 1 in Hrun.
  unfold getitem at 1 in Hrun. rewrite Hedges in Hrun.
  rewrite bind_run in Hrun. unfold ret at 1 in Hrun.
  unfold HashtagPublic.iterate in Hrun. rewrite bind_run in Hrun.
  unfold ret at 1 in Hrun. subst run. split.
  - intros names. apply node_names_ok.
  - rewrite node_names_client. cbn [fst snd].
    rewrite attempted_requests. reflexivity.
Qed.

Lemma X21_witness :
  (HashtagPublic.hashtag_related_hashtags relations (fun _ => "") "nasa"
                                          fresh).1
  = Ok [VStr "space"; VStr "moon"].
Proof.
  destruct (X21_related_hashtags relations (fun _ => "") "nasa" fresh
              (reply 200 "https://www.instagram.com/"
                     (inr (VDict [("graphql",
                                   VDict [("hashtag", tag_with_relations)])])))
              [("name", VStr "nasa");
               ("edge_hashtag_to_top_posts", VDict [("edges", VList [edge 1])]);
               ("edge_hashtag_to_related_tags",
                VDict [("edges", VList [named "space"; named "moon"])])]
              [("edges", VList [named "space"; named "moon"])]
              [named "space"; named "moon"]) as [Hnames _].
  - split; [intros tr rq; reflexivity|].
    split; [exists 40; split; [reflexivity|simpl; lia]|].
    split; [reflexivity|].
    eexists _, _. repeat split; reflexivity.
  - reflexivity.
  - reflexivity.
  - vm_compute. discriminate.
  - apply Hnames. repeat constructor; eexists _, _; repeat split; reflexivity.
Defined.

(** X22. [hashtag_top_feed] asks for the first page of the hashtag and
    returns the edges of its top posts, and raises the [KeyError] of the
    lookup when the hashtag has no top posts. *)
Theorem X22_top_feed
    (net : list event -> Request -> transport_result)
    (repr_container : value -> string) (hashtag : string) (c : Client)
    (r : Response) (tag : dict) :
  serves_tag net r (VDict tag) ->
  0 <= request_timeout c ->
  let run := HashtagPublic.hashtag_top_feed net repr_container hashtag c in
  (forall posts edges,
     dict_get "edge_hashtag_to_top_posts" tag = Some (VDict posts) ->
     dict_get "edges" posts = Some edges ->
     run.1 = Ok edges)
  /\ (dict_get "edge_hashtag_to_top_posts" tag = None ->
      run.1 = Raise (mkExn KeyError "'edge_hashtag_to_top_posts'" NoResponse))
  /\ requests_of (trace run.2)
     = requests_of (trace c)
       ++ [mkRequest session_get
             ("https://www.instagram.com/explore/tags/" +:+ hashtag +:+ "/")
             None (Some [("__a", VInt 1)]) (public_headers c)].
Proof.
  intros Hserves Ht run.
  pose proof (eq_refl run) as Hrun. unfold run at 2 in Hrun. clearbody run.
  unfold HashtagPublic.hashtag_top_feed in Hrun.
  rewrite bind_run in Hrun.
  rewrite (hashtag_info_served net repr_container hashtag VNone c r _
             Hserves Ht) in Hrun.
  unfold getitem at 1 in Hrun.
  destruct (dict_get "edge_hashtag_to_top_posts" tag) as [posts|] eqn:Hposts.
  - rewrite bind_run in Hrun. unfold ret at 1 in Hrun.
    assert (Hc : run.2 = attempted (tag_page_url hashtag) None
                           (Some (tag_page_params VNone)) None
                           (logged r ++ [Ev_json r]) c).
    { subst run. unfold getitem, ret, raise.
      repeat case_match; reflexivity. }
    split; [|split; [discriminate|]].
    + intros posts' edges [= ->] Hedges. subst run.
      unfold getitem. rewrite Hedges. reflexivity.
    + rewrite Hc, attempted_requests. reflexivity.
  - subst run. split; [discriminate|]. split; [reflexivity|].
    rewrite bind_run. unfold raise at 1. cbn [fst snd].
    rewrite attempted_requests. reflexivity.
Qed.

Lemma X22_witness :
  (HashtagPublic.hashtag_top_feed relations (fun _ => "") "nasa" fresh).1
  = Ok (VList [edge 1]).
Proof.
  destruct (X22_top_feed relations (fun _ => "") "nasa" fresh
              (reply 200 "https://www.instagram.com/"
                     (inr (VDict [("graphql",
                                   VDict [("hashtag", tag_with_relations)])])))
              [("name", VStr "nasa");
               ("edge_hashtag_to_top_posts", VDict [("edges", VList [edge 1])]);
               ("edge_hashtag_to_related_tags",
                VDict [("edges", VList [named "space"; named "moon"])])])
    as [Hedges _].
  - split; [intros tr rq; reflexivity|].
    split; [exists 40; split; [reflexivity|simpl; lia]|].
    split; [reflexivity|].
    eexists _, _. repeat split; reflexivity.
  - vm_compute. discriminate.
  - apply (Hedges [("edges", VList [edge 1])]); reflexivity.
Defined.

(** ** The feed against a service that repeats one page *)

Section SamePage.
Variable net : list event -> Request -> transport_result.
Variable repr_container : value -> string.
Variables (hashtag : string) (count sleep_time : Z).
Variables (r : Response) (tag : value) (edges : list value)
          (end_cursor has_next_page : value).
Hypothesis Hserves : serves_tag net r tag.
Hypothesis Hpage : is_page tag edges end_cursor has_next_page.

(** The client after the page at [cursor] is fetched. *)
Local Abbreviation fetched cursor c :=
  (attempted (tag_page_url hashtag) None (Some (tag_page_params cursor)) None
             (logged r ++ [Ev_json r]) c).

Lemma fetch_page_served medias cursor c :
  0 <= request_timeout c ->
  HashtagPublic.fetch_page net repr_container hashtag count medias cursor c
  = (Ok (medias ++ edges, end_cursor,
         negb (truthy has_next_page)
         || (Z.of_nat (length (medias ++ edges)) >=? count)),
     fetched cursor c).
Proof.
  intros Ht. eapply fetch_page_run; [|exact Hpage].
  apply hashtag_info_served; [exact Hserves|exact Ht].
Qed.

Lemma feed_loop_spins fuel cursor c :
  truthy has_next_page = true -> edges = [] -> 0 < count ->
  0 <= sleep_time -> 0 <= request_timeout c ->
  HashtagPublic.hashtag_feed_loop net repr_container fuel hashtag count
                                  sleep_time [] cursor c
  = None.
Proof.
  intros Hnext Hedges Hcount Hsleep. revert cursor c.
  induction fuel as [|fuel IH]; intros cursor c Ht; [reflexivity|].
  cbn [HashtagPublic.hashtag_feed_loop].
  rewrite (fetch_page_served [] cursor c Ht), Hnext, Hedges.
  cbn [negb orb app length].
  destruct (Z.geb_spec (Z.of_nat 0) count) as [Hge|_]; [simpl in Hge; lia|].
  rewrite sleep_run by exact Hsleep. apply IH. exact Ht.
Qed.

Lemma feed_loop_fills n medias cursor c :
  edges <> [] -> 0 <= sleep_time -> 0 <= request_timeout c ->
  count - Z.of_nat (length medias) <= Z.of_nat n ->
  exists all c',
    HashtagPublic.hashtag_feed_loop net repr_container (S n) hashtag count
                                    sleep_time medias cursor c
    = Some (Ok (HashtagPublic.slice_to all count), c')
    /\ (truthy has_next_page = true -> count <= Z.of_nat (length all)).
Proof.
  intros Hedges Hsleep. revert medias cursor c.
  assert (Hlen : (1 <= length edges)%nat)
    by (destruct edges; [contradiction|simpl; lia]).
  induction n as [|n IH]; intros medias cursor c Ht Hn;
    cbn [HashtagPublic.hashtag_feed_loop];
    rewrite (fetch_page_served medias cursor c Ht);
    destruct (negb (truthy has_next_page)
              || (Z.of_nat (length (medias ++ edges)) >=? count)) eqn:Hbreak.
  - eexists _, _. split; [reflexivity|]. intros Hnext.
    rewrite length_app. lia.
  - apply orb_false_iff in Hbreak as [_ Hfew].
    rewrite Z.geb_leb in Hfew. apply Z.leb_gt in Hfew.
    rewrite length_app in Hfew. lia.
  - eexists _, _. split; [reflexivity|]. intros Hnext.
    rewrite Hnext in Hbreak. cbn [negb orb] in Hbreak.
    rewrite Z.geb_leb in Hbreak. apply Z.leb_le in Hbreak. exact Hbreak.
  - apply orb_false_iff in Hbreak as [_ Hfew].
    rewrite Z.geb_leb in Hfew. apply Z.leb_gt in Hfew.
    rewrite sleep_run by exact Hsleep.
    apply IH; [exact Ht|]. cbn [trace]. rewrite length_app. lia.
Qed.

End SamePage.

(** X23. [hashtag_feed] has no bound of its own on the pages it
    fetches.  Against a service that keeps answering one page that
    announces a next page, it never returns when the page has no edges and
    [count] is positive; when the page has edges it returns, and then
    exactly [count] of them. *)
Theorem X23_feed_termination
    (net : list event -> Request -> transport_result)
    (repr_container : value -> string) (hashtag : string)
    (count sleep_time : Z) (c : Client)
    (r : Response) (tag : value) (edges : list value)
    (end_cursor has_next_page : value) :
  serves_tag net r tag ->
  is_page tag edges end_cursor has_next_page ->
  truthy has_next_page = true ->
  0 < count -> 0 <= sleep_time -> 0 <= request_timeout c ->
  (edges = [] ->
     forall fuel,
       HashtagPublic.hashtag_feed net repr_container fuel hashtag count
                                  sleep_time c
       = None)
  /\ (edges <> [] ->
      exists medias c',
        HashtagPublic.hashtag_feed net repr_container (S (Z.to_nat count))
                                   hashtag count sleep_time c
        = Some (Ok medias, c')
        /\ Z.of_nat (length medias) = count).
Proof.
  intros Hserves Hpage Hnext Hcount Hsleep Ht. split.
  - intros Hedges fuel. unfold HashtagPublic.hashtag_feed.
    eapply feed_loop_spins; eauto.
  - intros Hedges. unfold HashtagPublic.hashtag_feed.
    destruct (feed_loop_fills net repr_container hashtag count sleep_time
                r tag edges end_cursor has_next_page Hserves Hpage
                (Z.to_nat count) [] VNone c Hedges Hsleep Ht)
      as (all & c' & Hrun & Hall); [simpl; lia|].
    exists (HashtagPublic.slice_to all count), c'.
    split; [exact Hrun|]. apply slice_to_exact. split; [lia|auto].
Qed.

Lemma X23_witness :
  (forall fuel,
     HashtagPublic.hashtag_feed (same_page [] VNone true) (fun _ => "") fuel
                                "nasa" 3 2 fresh
     = None)
  /\ exists medias c',
       HashtagPublic.hashtag_feed (same_page [edge 1; edge 2] VNone true)
                                  (fun _ => "") 4 "nasa" 3 2 fresh
       = Some (Ok medias, c')
       /\ Z.of_nat (length medias) = 3.
Proof.
  split.
  - destruct (X23_feed_termination (same_page [] VNone true) (fun _ => "")
                "nasa" 3 2 fresh
                (reply 200 "https://www.instagram.com/"
                       (inr (hashtag_page [] VNone true)))
                (VDict [("name", VStr "x");
                        ("edge_hashtag_to_media",
                         VDict [("count", VInt 13);
                                ("page_info",
                                 VDict [("has_next_page", VBool true);
                                        ("end_cursor", VNone)]);
                                ("edges", VList [])])])
                [] VNone (VBool true)) as [Hspin _].
    + split; [intros tr rq; reflexivity|].
      split; [exists 40; split; [reflexivity|simpl; lia]|].
      split; [reflexivity|].
      eexists _, _. repeat split; reflexivity.
    + eexists _, _, _. repeat split; reflexivity.
    + reflexivity.
    + lia.
    + lia.
    + vm_compute. discriminate.
    + apply Hspin. reflexivity.
  - destruct (X23_feed_termination (same_page [edge 1; edge 2] VNone true)
                (fun _ => "") "nasa" 3 2 fresh
                (reply 200 "https://www.instagram.com/"
                       (inr (hashtag_page [edge 1; edge 2] VNone true)))
                (VDict [("name", VStr "x");
                        ("edge_hashtag_to_media",
                         VDict [("count", VInt 13);
                                ("page_info",
                                 VDict [("has_next_page", VBool true);
                                        ("end_cursor", VNone)]);
                                ("edges", VList [edge 1; edge 2])])])
                [edge 1; edge 2] VNone (VBool true)) as [_ Hfills].
    + split; [intros tr rq; reflexivity|].
      split; [exists 40; split; [reflexivity|simpl; lia]|].
      split; [reflexivity|].
      eexists _, _. repeat split; reflexivity.
    + eexists _, _, _. repeat split; reflexivity.
    + reflexivity.
    + lia.
    + lia.
    + vm_compute. discriminate.
    + apply Hfills. discriminate.
Defined.

(** X24. With a [count] of zero or less [hashtag_feed] fetches one page,
    whatever the page announces, and does not sleep.  It returns no edge
    for zero and, for a negative [count], the edges of the page without the
    last [-count]. *)
Theorem X24_feed_without_count
    (net : list event -> Request -> transport_result)
    (repr_container : value -> string) (hashtag : string)
    (count sleep_time : Z) (c : Client)
    (r : Response) (tag : value) (edges : list value)
    (end_cursor has_next_page : value) (fuel : nat) :
  serves_tag net r tag ->
  is_page tag edges end_cursor has_next_page ->
  count <= 0 -> 0 <= request_timeout c ->
  exists c',
    HashtagPublic.hashtag_feed net repr_container (S fuel) hashtag count
                               sleep_time c
    = Some (Ok (if count =? 0 then []
                else take (length edges - Z.to_nat (- count)) edges), c')
    /\ requests_of (trace c')
       = requests_of (trace c)
         ++ [mkRequest session_get
               ("https://www.instagram.com/explore/tags/" +:+ hashtag +:+ "/")
               None (Some [("__a", VInt 1)]) (public_headers c)]
    /\ sleeps_at pagination (trace c') = sleeps_at pagination (trace c).
Proof.
  intros Hserves Hpage Hcount Ht.
  unfold HashtagPublic.hashtag_feed. cbn [HashtagPublic.hashtag_feed_loop].
  rewrite (fetch_page_served net repr_container hashtag count r tag edges
             end_cursor has_next_page Hserves Hpage [] VNone c Ht).
  assert (Hbreak : negb (truthy has_next_page)
                   || (Z.of_nat (length ([] ++ edges)) >=? count) = true).
  { apply orb_true_iff. right. rewrite Z.geb_leb. apply Z.leb_le. lia. }
  rewrite Hbreak. eexists. split; [|split].
  - f_equal. f_equal. f_equal. unfold HashtagPublic.slice_to. simpl app.
    destruct (Z.eqb_spec count 0) as [->|Hne]; [reflexivity|].
    destruct (Z.leb_spec 0 count); [lia|]. f_equal. lia.
  - rewrite attempted_requests. reflexivity.
  - unfold attempted, trace_at_call. cbn [trace].
    destruct (request_timeout c =? 0) eqn:Hz.
    + rewrite sleeps_at_app. simpl. rewrite app_nil_r. reflexivity.
    + rewrite !sleeps_at_app. simpl. rewrite !app_nil_r. reflexivity.
Qed.

Lemma X24_witness :
  exists c',
    HashtagPublic.hashtag_feed (same_page (edge <$> [1; 2; 3]) VNone true)
                               (fun _ => "") 1 "nasa" (-1) 2 fresh
    = Some (Ok [edge 1; edge 2], c').
Proof.
  destruct (X24_feed_without_count (same_page (edge <$> [1; 2; 3]) VNone true)
              (fun _ => "") "nasa" (-1) 2 fresh
              (reply 200 "https://www.instagram.com/"
                     (inr (hashtag_page (edge <$> [1; 2; 3]) VNone true)))
              (VDict [("name", VStr "x");
                      ("edge_hashtag_to_media",
                       VDict [("count", VInt 13);
                              ("page_info",
                               VDict [("has_next_page", VBool true);
                                      ("end_cursor", VNone)]);
                              ("edges", VList (edge <$> [1; 2; 3]))])])
              (edge <$> [1; 2; 3]) VNone (VBool true) 0)
    as (c' & Hrun & _).
  - split; [intros tr rq; reflexivity|].
    split; [exists 40; split; [reflexivity|simpl; lia]|].
    split; [reflexivity|].
    eexists _, _. repeat split; reflexivity.
  - eexists _, _, _. repeat split; reflexivity.
  - lia.
  - vm_compute. discriminate.
  - exists c'. exact Hrun.
Defined.

(** X25. A negative [sleep] is not refused at the call: [hashtag_feed]
    fetches the first page and, when more pages are needed, fails at the
    sleep with the [ValueError] of [time.sleep], having made one request. *)
Theorem X25_feed_negative_sleep
    (net : list event -> Request -> transport_result)
    (repr_container : value -> string) (hashtag : string)
    (count sleep_time : Z) (c : Client)
    (r : Response) (tag : value) (edges : list value)
    (end_cursor has_next_page : value) (fuel : nat) :
  serves_tag net r tag ->
  is_page tag edges end_cursor has_next_page ->
  truthy has_next_page = true ->
  Z.of_nat (length edges) < count ->
  sleep_time < 0 -> 0 <= request_timeout c ->
  exists c',
    HashtagPublic.hashtag_feed net repr_container (S fuel) hashtag count
                               sleep_time c
    = Some (Raise (mkExn ValueError "sleep length must be non-negative"
                         NoResponse), c')
    /\ length (requests_of (trace c')) = S (length (requests_of (trace c))).
Proof.
  intros Hserves Hpage Hnext Hfew Hsleep Ht.
  unfold HashtagPublic.hashtag_feed. cbn [HashtagPublic.hashtag_feed_loop].
  rewrite (fetch_page_served net repr_container hashtag count r tag edges
             end_cursor has_next_page Hserves Hpage [] VNone c Ht).
  rewrite Hnext. cbn [negb orb app].
  destruct (Z.geb_spec (Z.of_nat (length edges)) count) as [Hge|_]; [lia|].
  unfold sleep. destruct (Z.ltb_spec sleep_time 0) as [_|Hge]; [|lia].
  unfold raise. eexists. split; [reflexivity|].
  rewrite attempted_requests, length_app. simpl. lia.
Qed.

Lemma X25_witness :
  exists c',
    HashtagPublic.hashtag_feed (same_page [edge 1] VNone true) (fun _ => "")
                               1 "nasa" 70 (-2) fresh
    = Some (Raise (mkExn ValueError "sleep length must be non-negative"
                         NoResponse), c').
Proof.
  destruct (X25_feed_negative_sleep (same_page [edge 1] VNone true)
              (fun _ => "") "nasa" 70 (-2) fresh
              (reply 200 "https://www.instagram.com/"
                     (inr (hashtag_page [edge 1] VNone true)))
              (VDict [("name", VStr "x");
                      ("edge_hashtag_to_media",
                       VDict [("count", VInt 13);
                              ("page_info",
                               VDict [("has_next_page", VBool true);
                                      ("end_cursor", VNone)]);
                              ("edges", VList [edge 1])])])
              [edge 1] VNone (VBool true) 0)
    as (c' & Hrun & _).
  - split; [intros tr rq; reflexivity|].
    split; [exists 40; split; [reflexivity|simpl; lia]|].
    split; [reflexivity|].
    eexists _, _. repeat split; reflexivity.
  - eexists _, _, _. repeat split; reflexivity.
  - reflexivity.
  - simpl. lia.
  - lia.
  - vm_compute. discriminate.
  - exists c'. exact Hrun.
Defined.
